(** * The newsletter extraction engine of [cli/merge_md_to_json.py]

    A shallow embedding of the merge script: date-range resolution, file
    ordering, section splitting, the two item parsers, the keyword
    classifier, item normalisation and the aggregator, followed by the
    properties of the specification that concern them.

    Conventions of the embedding.
    - A Python [str] is a list of Unicode code points ([pystr]).
    - Python's Unicode tables that are too large to write out are section
      variables: [lower] stands for [str.lower] and [digit] for the decimal
      value of a character of category Nd (what [\d] matches and [int]
      reads).  General theorems hold for every such table; concrete runs use
      the ASCII instances [lower_ascii] and [digit_ascii] on ASCII input.
    - The wall clock is an explicit argument ([now]); the directory is a
      listing (in [os.listdir] order) and a function from paths to the text
      that [open(path).read()] returns.  [merge_files_to_json] takes the
      reads as done; [merge_files_to_json_io] is the run on files whose
      opening or decoding can fail.  Listing the folder and writing the
      output file are outside the model.
    - Exceptions are values of an error monad ([result]).
    - A [while] loop over [lines] with index [i] is a recursion on the
      suffix [lines[i:]]; a dictionary is an association list in insertion
      order.
    - Console output (summaries) and the JSON serialisation of the final
      structure are not modelled: they do not influence the structure.
      The validation warnings are modelled as the list of messages. *)

From Stdlib Require Import String Ascii DecimalString.
From Stdlib Require Import List NArith ZArith Bool Lia Arith.
From Stdlib Require Import Permutation Sorted.
Import ListNotations.
Local Open Scope list_scope.

(** ** Exceptions *)

Inductive exn : Type :=
| ValueError | KeyError | AttributeError | IndexError | TypeError.

Inductive result (A : Type) : Type :=
| Ok (a : A)
| Raise (e : exn).
Arguments Ok {A} a.
Arguments Raise {A} e.

Definition bind {A B : Type} (m : result A) (k : A -> result B) : result B :=
  match m with
  | Ok a => k a
  | Raise e => Raise e
  end.

Notation "x <- m ;; k" := (bind m (fun x => k))
  (at level 61, m at next level, right associativity).

(** ** Python strings *)

Definition char : Type := N.
Definition pystr : Type := list char.

(** An ASCII literal as a Python string. *)
Definition py (s : string) : pystr := map N_of_ascii (list_ascii_of_string s).

(** The one non-ASCII literal of the script: U+2022 BULLET. *)
Definition bullet : char := 8226%N.

Definition ch (a : ascii) : char := N_of_ascii a.

(** Truth value of a string: non-empty. *)
Definition nonempty (s : pystr) : bool :=
  match s with
  | [] => false
  | _ :: _ => true
  end.

(** Truth value of an optional string ([None] and [''] are false). *)
Definition truthy (o : option pystr) : bool :=
  match o with
  | Some s => nonempty s
  | None => false
  end.

Fixpoint str_eqb (a b : pystr) : bool :=
  match a, b with
  | [], [] => true
  | x :: a', y :: b' => N.eqb x y && str_eqb a' b'
  | _, _ => false
  end.

(** [x in [a, b, ...]] on strings. *)
Definition str_in (x : pystr) (l : list pystr) : bool := existsb (str_eqb x) l.

(** [Py_UNICODE_ISSPACE]: the characters [str.strip()] removes and [\s]
    matches. *)
Definition isspace (c : char) : bool :=
  ((9 <=? c) && (c <=? 13) || (28 <=? c) && (c <=? 32)
   || (c =? 133) || (c =? 160) || (c =? 5760)
   || (8192 <=? c) && (c <=? 8202)
   || (c =? 8232) || (c =? 8233) || (c =? 8239) || (c =? 8287)
   || (c =? 12288))%N.

Fixpoint lstrip (s : pystr) : pystr :=
  match s with
  | [] => []
  | c :: s' => if isspace c then lstrip s' else s
  end.

Definition rstrip (s : pystr) : pystr := rev (lstrip (rev s)).

Definition strip (s : pystr) : pystr := rstrip (lstrip s).

Fixpoint startswith (s prefix : pystr) {struct prefix} : bool :=
  match prefix, s with
  | [], _ => true
  | p :: prefix', c :: s' => N.eqb c p && startswith s' prefix'
  | _ :: _, [] => false
  end.

Definition endswith (s suffix : pystr) : bool :=
  startswith (rev s) (rev suffix).

(** Index of the first occurrence of [sub] in [s]. *)
Fixpoint index_of (sub s : pystr) : option nat :=
  if startswith s sub then Some 0
  else match s with
       | [] => None
       | _ :: s' => option_map S (index_of sub s')
       end.

(** [sub in s]. *)
Definition contains (sub s : pystr) : bool :=
  match index_of sub s with
  | Some _ => true
  | None => false
  end.

(** Normalisation of a slice bound against a length. *)
Definition clamp_index (len i : Z) : Z :=
  if (i <? 0)%Z then Z.max 0 (i + len) else Z.min i len.

(** [s[start:stop]]; [stop = None] is [s[start:]]. *)
Definition pyslice (start : Z) (stop : option Z) (s : pystr) : pystr :=
  let len := Z.of_nat (length s) in
  let a := clamp_index len start in
  let b := match stop with
           | None => len
           | Some e => clamp_index len e
           end in
  firstn (Z.to_nat (b - a)) (skipn (Z.to_nat a) s).

(** [s.find(sub, start)] for [start >= 0]: lowest index, or -1. *)
Definition find (s sub : pystr) (start : nat) : Z :=
  if Nat.ltb (length s) start then (-1)%Z
  else match index_of sub (skipn start s) with
       | Some k => Z.of_nat (start + k)
       | None => (-1)%Z
       end.

(** [s.split(sep)] for a one-character separator. *)
Fixpoint split_on (sep : char) (s : pystr) : list pystr :=
  match s with
  | [] => [[]]
  | c :: s' =>
      if N.eqb c sep then [] :: split_on sep s'
      else match split_on sep s' with
           | [] => [[c]]
           | l :: ls => (c :: l) :: ls
           end
  end.

(** [sep.join(l)]. *)
Fixpoint join (sep : pystr) (l : list pystr) : pystr :=
  match l with
  | [] => []
  | x :: rest =>
      match rest with
      | [] => x
      | _ :: _ => x ++ sep ++ join sep rest
      end
  end.

Definition newline : char := 10%N.

(** [all(c == '-' for c in s)]. *)
Definition all_dashes (s : pystr) : bool := forallb (N.eqb (ch "-")) s.

(** [all(c in ['*', ' '] for c in s)]. *)
Definition all_stars_spaces (s : pystr) : bool :=
  forallb (fun c => N.eqb c (ch "*") || N.eqb c (ch " ")) s.

(** ** The link pattern [\[([^\]]+)\]\(([^)]+)\)] *)

(** Longest prefix whose characters satisfy [p], and the rest. *)
Fixpoint span (p : char -> bool) (s : pystr) : pystr * pystr :=
  match s with
  | [] => ([], [])
  | c :: s' =>
      if p c then let (a, b) := span p s' in (c :: a, b)
      else ([], s)
  end.

(** A match of the link pattern at the start of [s]: the link text (group
    1), the target (group 2) and what follows the match.  Both classes are
    negated singletons directly followed by the excluded character, so the
    greedy run is the only run that can be followed by it: backtracking
    never finds a second way to match. *)
Definition match_link (s : pystr) : option (pystr * pystr * pystr) :=
  match s with
  | c :: s1 =>
      if N.eqb c (ch "[") then
        let (text, s2) := span (fun c => negb (N.eqb c (ch "]"))) s1 in
        match text, s2 with
        | _ :: _, rb :: lp :: s3 =>
            if N.eqb rb (ch "]") && N.eqb lp (ch "(") then
              let (url, s4) := span (fun c => negb (N.eqb c (ch ")"))) s3 in
              match url, s4 with
              | _ :: _, rp :: s5 =>
                  if N.eqb rp (ch ")") then Some (text, url, s5) else None
              | _, _ => None
              end
            else None
        | _, _ => None
        end
      else None
  | [] => None
  end.

(** [extract_link_from_text]: [re.search] takes the leftmost match. *)
Fixpoint extract_link_from_text (text : pystr) : option pystr :=
  match match_link text with
  | Some (_, url, _) => Some url
  | None =>
      match text with
      | [] => None
      | _ :: text' => extract_link_from_text text'
      end
  end.

(** [re.sub(link_pattern, r'\1', s)]: matches are replaced left to right,
    scanning resumes after each match.  [fuel] bounds the number of scanning
    steps; [length s] steps always suffice ([sub_links_fuel_enough]). *)
Fixpoint sub_links_fuel (fuel : nat) (s : pystr) : pystr :=
  match fuel with
  | O => s
  | S fuel' =>
      match match_link s with
      | Some (text, _, rest) => text ++ sub_links_fuel fuel' rest
      | None =>
          match s with
          | [] => []
          | c :: s' => c :: sub_links_fuel fuel' s'
          end
      end
  end.

Definition sub_links (s : pystr) : pystr := sub_links_fuel (length s) s.

(** ** Calendar dates ([datetime.date]) *)

Local Open Scope Z_scope.

Record date : Type := mkdate { year : Z; month : Z; day : Z }.

Definition MINYEAR : Z := 1.
Definition MAXYEAR : Z := 9999.

Definition is_leap (y : Z) : bool :=
  (y mod 4 =? 0) && (negb (y mod 100 =? 0) || (y mod 400 =? 0)).

Definition days_in_month (y m : Z) : Z :=
  if m =? 2 then (if is_leap y then 29 else 28)
  else if (m =? 4) || (m =? 6) || (m =? 9) || (m =? 11) then 30
  else 31.

(** [date(y, m, d)]: raises [ValueError] outside the calendar. *)
Definition date_new (y m d : Z) : result date :=
  if (MINYEAR <=? y) && (y <=? MAXYEAR) && (1 <=? m) && (m <=? 12)
     && (1 <=? d) && (d <=? days_in_month y m)
  then Ok (mkdate y m d)
  else Raise ValueError.

(** [d.replace(year=y)]. *)
Definition date_replace_year (d : date) (y : Z) : result date :=
  date_new y (month d) (day d).

(** [date.max]. *)
Definition date_max : date := mkdate 9999 12 31.

(** [a < b] on dates. *)
Definition date_ltb (a b : date) : bool :=
  (year a <? year b)
  || ((year a =? year b)
      && ((month a <? month b)
          || ((month a =? month b) && (day a <? day b)))).

Definition date_leb (a b : date) : bool := negb (date_ltb b a).

(** What [datetime.now()] returns, as far as a calendar reading goes. *)
Record datetime : Type := mkdatetime {
  dt_year : Z; dt_month : Z; dt_day : Z;
  dt_hour : Z; dt_minute : Z; dt_second : Z
}.

(** ** Paths *)

(** [os.path.basename] (POSIX): what follows the last slash. *)
Definition basename (path : pystr) : pystr :=
  last (split_on (ch "/") path) [].

(** [os.path.join(a, b)] (POSIX). *)
Definition path_join (a b : pystr) : pystr :=
  if startswith b (py "/") then b
  else if negb (nonempty a) || endswith a (py "/") then a ++ b
  else a ++ py "/" ++ b.

(** ** Dictionaries

    A Python [dict] keeps its keys in insertion order: an association list
    with at most one entry per key. *)

Definition dict (V : Type) : Type := list (pystr * V).

Fixpoint dict_get {V : Type} (k : pystr) (d : dict V) : option V :=
  match d with
  | [] => None
  | (k', v) :: d' => if str_eqb k k' then Some v else dict_get k d'
  end.

(** [d[k] = v]: in place when the key exists, appended otherwise. *)
Fixpoint dict_set {V : Type} (k : pystr) (v : V) (d : dict V) : dict V :=
  match d with
  | [] => [(k, v)]
  | (k', v') :: d' =>
      if str_eqb k k' then (k', v) :: d' else (k', v') :: dict_set k v d'
  end.

Definition dict_keys {V : Type} (d : dict V) : list pystr := map fst d.

(** [d[k]], raising [KeyError] on a missing key. *)
Definition dict_lookup {V : Type} (k : pystr) (d : dict V) : result V :=
  match dict_get k d with
  | Some v => Ok v
  | None => Raise KeyError
  end.

(** ** Stable sorting

    [list.sort(key=...)] is stable and compares with [<] only.  The stably
    sorted arrangement of a list is unique, so insertion sort stands for it. *)

Section StableSort.
Context {A : Type} (lt : A -> A -> bool).

Fixpoint insert_sorted (x : A) (l : list A) : list A :=
  match l with
  | [] => [x]
  | y :: l' => if lt y x then y :: insert_sorted x l' else x :: l
  end.

Fixpoint stable_sort (l : list A) : list A :=
  match l with
  | [] => []
  | x :: l' => insert_sorted x (stable_sort l')
  end.

End StableSort.

(** * The engine *)

Section Engine.

(** [str.lower]. *)
Variable lower : pystr -> pystr.

(** Decimal value of a character of category Nd; [None] on other
    characters. *)
Variable digit : char -> option Z.

(** ** File dates (lines 15-36) *)

(** [(\d{1,2})] followed by the rest of a pattern [k], with the value
    [int] gives the group: two digits are tried first, then one. *)
Definition re_digits12 {R : Type} (s : pystr) (k : Z -> pystr -> option R)
  : option R :=
  match s with
  | c1 :: s1 =>
      match digit c1 with
      | Some d1 =>
          match s1 with
          | c2 :: s2 =>
              match digit c2 with
              | Some d2 =>
                  match k (10 * d1 + d2) s2 with
                  | Some r => Some r
                  | None => k d1 s1
                  end
              | None => k d1 s1
              end
          | [] => k d1 s1
          end
      | None => None
      end
  | [] => None
  end.

(** A literal character of a pattern, then [k]. *)
Definition re_char {R : Type} (c : ascii) (s : pystr) (k : pystr -> option R)
  : option R :=
  match s with
  | c' :: s' => if N.eqb c' (ch c) then k s' else None
  | [] => None
  end.

(** [re.match(r'(\d{1,2})-(\d{1,2})\.md', filename)] with both groups
    read by [int]. *)
Definition match_filename (filename : pystr) : option (Z * Z) :=
  re_digits12 filename (fun m s1 =>
  re_char "-" s1 (fun s2 =>
  re_digits12 s2 (fun d s3 =>
  if startswith s3 (py ".md") then Some (m, d) else None))).

(** Lines 15-36.  [None] is the returned [None].  The year is the one of
    a clock reading, as the program passes it: for a year beyond the range
    of a C [int] the constructor raises [OverflowError], which the
    [except ValueError] does not catch and this function does not model. *)
Definition extract_date_from_filename (now : datetime) (filename : pystr)
    (year : option Z) : option date :=
  match match_filename filename with
  | None => None
  | Some (month, day) =>
      let year := match year with
                  | None => dt_year now
                  | Some y => y
                  end in
      match date_new year month day with
      | Ok d => Some d
      | Raise _ => None
      end
  end.

(** ** Date range of a folder (lines 38-67) *)

(** [re.match(r'(\d{1,2})\.(\d{1,2})-(\d{1,2})\.(\d{1,2})', folder_name)]. *)
Definition match_range (folder_name : pystr) : option (Z * Z * Z * Z) :=
  re_digits12 folder_name (fun sm s1 =>
  re_char "." s1 (fun s2 =>
  re_digits12 s2 (fun sd s3 =>
  re_char "-" s3 (fun s4 =>
  re_digits12 s4 (fun em s5 =>
  re_char "." s5 (fun s6 =>
  re_digits12 s6 (fun ed _ => Some (sm, sd, em, ed)))))))).

Definition get_date_range_from_folder (now : datetime) (folder_path : pystr)
  : result (option date * option date * Z) :=
  let folder_name := basename folder_path in
  match match_range folder_name with
  | Some (start_month, start_day, end_month, end_day) =>
      let current_year := dt_year now in
      if end_month <? start_month then
        start_date <- date_new current_year start_month start_day ;;
        end_date <- date_new (current_year + 1) end_month end_day ;;
        Ok (Some start_date, Some end_date, current_year)
      else
        start_date <- date_new current_year start_month start_day ;;
        end_date <- date_new current_year end_month end_day ;;
        Ok (Some start_date, Some end_date, current_year)
  | None => Ok (None, None, dt_year now)
  end.

(** ** File ordering (lines 69-92) *)

Definition file_date_entry (now : datetime) (start_date end_date : option date)
    (year : Z) (filename : pystr) : result (date * pystr) :=
  match extract_date_from_filename now filename (Some year) with
  | Some file_date =>
      match start_date, end_date with
      | Some sd, Some _ =>
          if month file_date <? month sd then
            file_date' <- date_replace_year file_date (year + 1) ;;
            Ok (file_date', filename)
          else Ok (file_date, filename)
      | _, _ => Ok (file_date, filename)
      end
  | None => Ok (date_max, filename)
  end.

(** The loop that fills [file_dates]. *)
Fixpoint file_dates_of (now : datetime) (start_date end_date : option date)
    (year : Z) (md_files : list pystr) : result (list (date * pystr)) :=
  match md_files with
  | [] => Ok []
  | filename :: rest =>
      e <- file_date_entry now start_date end_date year filename ;;
      es <- file_dates_of now start_date end_date year rest ;;
      Ok (e :: es)
  end.

Definition sort_files_by_date (now : datetime) (md_files : list pystr)
    (folder_path : pystr) : result (list pystr) :=
  r <- get_date_range_from_folder now folder_path ;;
  let '(start_date, end_date, year) := r in
  file_dates <- file_dates_of now start_date end_date year md_files ;;
  Ok (map snd (stable_sort (fun a b => date_ltb (fst a) (fst b)) file_dates)).

(** ** Items *)

(** An item dictionary.  [title = None] is a missing ['title'] key;
    [reference_link = None] is a missing key or the value [None]. *)
Record item : Type := mkitem {
  title : option pystr;
  description : pystr;
  reference_link : option pystr
}.

(** [item.get('title', '')]. *)
Definition get_title (it : item) : pystr :=
  match title it with
  | Some t => t
  | None => []
  end.

(** [if it['description']: it['description'] += ' ' + line
     else: it['description'] = line]. *)
Definition add_description (it : item) (line : pystr) : item :=
  mkitem (title it)
         (if nonempty (description it)
          then description it ++ py " " ++ line
          else line)
         (reference_link it).

(** [link = extract_link_from_text(text)
     if link and not it['reference_link']: it['reference_link'] = link]. *)
Definition capture_link (it : item) (text : pystr) : item :=
  let link := extract_link_from_text text in
  if truthy link && negb (truthy (reference_link it))
  then mkitem (title it) (description it) link
  else it.

(** ** Item normalisation (lines 573-605) *)

(** The body of the loop of [clean_items]; [None] when the item is
    skipped.  An item dictionary always holds a description, so the test
    [if not item] never fires. *)
Definition clean_item (it : item) : option item :=
  let description0 := sub_links (strip (description it)) in
  if nonempty description0 || nonempty (get_title it) then
    let '(description1, title1) :=
      if negb (nonempty description0) && nonempty (get_title it)
      then (get_title it, [])
      else (description0, get_title it) in
    Some (mkitem (if nonempty title1 then Some title1 else None)
                 description1
                 (if truthy (reference_link it)
                  then reference_link it else None))
  else None.

Fixpoint clean_items (items : list item) : list item :=
  match items with
  | [] => []
  | it :: rest =>
      match clean_item it with
      | Some c => c :: clean_items rest
      | None => clean_items rest
      end
  end.

(** ** Line shapes shared by the parsers *)

(** [line in ['* * *', '* *'] or all(c in ['*', ' '] for c in line)]. *)
Definition is_delimiter (line : pystr) : bool :=
  str_in line [py "* * *"; py "* *"] || all_stars_spaces line.

(** [i + 1 < len(lines) and lines[i + 1].strip()
     and all(c == '-' for c in lines[i + 1].strip())]. *)
Definition dash_line (next : option pystr) : bool :=
  match next with
  | Some l => nonempty (strip l) && all_dashes (strip l)
  | None => false
  end.

(** The same with [and len(lines[i + 1].strip()) > n]. *)
Definition dash_underline (n : nat) (next : option pystr) : bool :=
  match next with
  | Some l =>
      nonempty (strip l) && all_dashes (strip l)
      && Nat.ltb n (length (strip l))
  | None => false
  end.

(** ** Simple sections (lines 112-224) *)

Record simple_state : Type := mksimple {
  s_items : list item;
  s_current_item : option item;
  s_just_created_item_from_dashes : bool
}.

(** [if current_item: items.append(current_item)]. *)
Definition simple_finalize (items : list item) (current_item : option item)
  : list item :=
  match current_item with
  | Some it => items ++ [it]
  | None => items
  end.

(** The PRODUCTS branch of the loop body, for a non-blank, non-delimiter
    stripped [line]; the boolean tells whether the index advances by two. *)
Definition products_step (st : simple_state) (line : pystr)
    (next : option pystr) : simple_state * bool :=
  if dash_underline 10 next then
    (mksimple (simple_finalize (s_items st) (s_current_item st))
              (Some (mkitem (Some line) [] None))
              true,
     true)
  else if s_just_created_item_from_dashes st
          && startswith line (py "**[") && endswith line (py "**") then
    (mksimple (s_items st) (s_current_item st) false, false)
  else
    let flag :=
      if s_just_created_item_from_dashes st
         && negb (startswith line (py "**["))
      then false
      else s_just_created_item_from_dashes st in
    match s_current_item st with
    | Some it =>
        (mksimple (s_items st)
                  (Some (capture_link (add_description it line) line))
                  flag,
         false)
    | None => (mksimple (s_items st) None flag, false)
    end.

(** The HIGHLIGHTS branch (also taken by any other section name). *)
Definition highlights_step (st : simple_state) (line : pystr)
  : simple_state * bool :=
  if nonempty line && negb (startswith line (py "#")) then
    if startswith line [bullet] then
      let description := strip (pyslice 1 None line) in
      if nonempty description then
        (mksimple (s_items st
                   ++ [mkitem None description
                              (extract_link_from_text description)])
                  (s_current_item st)
                  (s_just_created_item_from_dashes st),
         false)
      else (st, false)
    else if nonempty line then
      (mksimple (s_items st
                 ++ [mkitem None line (extract_link_from_text line)])
                (s_current_item st)
                (s_just_created_item_from_dashes st),
       false)
    else (st, false)
  else (st, false).

(** One iteration of the [while] loop on [lines[i]] and, when it exists,
    [lines[i + 1]]. *)
Definition simple_step (section_name : pystr) (st : simple_state)
    (raw : pystr) (next : option pystr) : simple_state * bool :=
  let line := strip raw in
  if negb (nonempty line) then (st, false)
  else if is_delimiter line then (st, false)
  else if str_eqb section_name (py "PRODUCTS") then products_step st line next
  else highlights_step st line.

(** The [while i < len(lines)] loop, on the suffix [lines[i:]]: the body
    reads [lines[i]] and [lines[i + 1]] only, and advances by one or two. *)
Fixpoint simple_loop (section_name : pystr) (st : simple_state)
    (lines : list pystr) : simple_state :=
  match lines with
  | [] => st
  | raw :: rest =>
      let '(st', two) := simple_step section_name st raw (hd_error rest) in
      if two then
        match rest with
        | [] => st'
        | _ :: rest' => simple_loop section_name st' rest'
        end
      else simple_loop section_name st' rest
  end.

Definition parse_simple_section (section_content section_name : pystr)
  : list item :=
  let lines := split_on newline section_content in
  let st := simple_loop section_name (mksimple [] None false) lines in
  clean_items (simple_finalize (s_items st) (s_current_item st)).

(** ** Categorized sections (lines 226-552) *)

Definition subcategory_mapping : dict (dict (list pystr)) :=
  [ (py "BUSINESS",
     [ (py "Funding & Investment",
        map py ["funding"; "investment"; "arr"; "revenue"; "raised";
                "series"; "million"; "valuation"; "fund"]%string);
       (py "Company Updates",
        map py ["ceo"; "launches"; "announces"; "introduces"; "steps";
                "role"; "leadership"; "partnership"; "acquires"; "apology";
                "grok"]%string);
       (py "Regulatory Developments",
        map py ["antitrust"; "complaint"; "legislation"; "eu";
                "regulatory"; "legal"]%string);
       (py "Market Trends",
        map py ["market"; "trend"; "industry"; "companies"; "race";
                "pay per"; "analysis"; "study"; "mcp"; "protocol";
                "shopping"; "prime day"]%string) ]);
    (py "TECHNOLOGY",
     [ (py "Open Source Projects",
        map py ["github"; "open-source"; "stars"; "repository";
                "langchain"; "pytorch"]%string);
       (py "Models & Datasets",
        map py ["model"; "dataset"; "huggingface"; "parameters";
                "instruct"; "downloads"]%string);
       (py "Developer Tools & Demos",
        map py ["demo"; "space"; "gradio"; "docker"; "interface";
                "likes"]%string) ]);
    (py "RESEARCH",
     [ (py "Paper of the Week",
        map py ["paper of the day"; "paper of the week"]%string);
       (py "Notable Research",
        map py ["notable research"; "research"]%string) ]) ].

(** ** The keyword classifier (lines 554-571) *)

Definition detect_subcategory (text section_name : pystr)
    (mapping : dict (dict (list pystr))) : result pystr :=
  let text_lower := lower text in
  table <- dict_lookup section_name mapping ;;
  match List.find (fun e => existsb (fun keyword => contains keyword text_lower)
                                    (snd e)) table with
  | Some (subcategory, _) => Ok subcategory
  | None =>
      if str_eqb section_name (py "BUSINESS") then Ok (py "Company Updates")
      else if str_eqb section_name (py "TECHNOLOGY")
      then Ok (py "Developer Tools & Demos")
      else if str_eqb section_name (py "RESEARCH")
      then Ok (py "Notable Research")
      else match dict_keys table with
           | k :: _ => Ok k
           | [] => Raise IndexError
           end
  end.

(** A value of the [result] dictionary: a list of items, or (after
    [result[k] = current_item]) a single item dictionary. *)
Inductive rvalue : Type :=
| RList (l : list item)
| RItem (it : item).

Record cat_state : Type := mkcat {
  c_result : dict rvalue;
  c_current_subcategory : option pystr;
  c_current_item : option item
}.

(** [result[k].append(it)]. *)
Definition result_append (k : pystr) (it : item) (r : dict rvalue)
  : result (dict rvalue) :=
  v <- dict_lookup k r ;;
  match v with
  | RList l => Ok (dict_set k (RList (l ++ [it])) r)
  | RItem _ => Raise AttributeError
  end.

(** [if current_item and current_subcategory:
       result[current_subcategory].append(current_item)]. *)
Definition flush_append (st : cat_state) : result (dict rvalue) :=
  match c_current_item st, c_current_subcategory st with
  | Some it, Some k =>
      if nonempty k then result_append k it (c_result st)
      else Ok (c_result st)
  | _, _ => Ok (c_result st)
  end.

(** [if current_item and current_subcategory:
       if section_name == 'RESEARCH'
          and current_subcategory == 'Paper of the Week':
           result[current_subcategory] = current_item
       else:
           result[current_subcategory].append(current_item)]. *)
Definition flush_item (section_name : pystr) (st : cat_state)
  : result (dict rvalue) :=
  match c_current_item st, c_current_subcategory st with
  | Some it, Some k =>
      if nonempty k then
        if str_eqb section_name (py "RESEARCH")
           && str_eqb k (py "Paper of the Week")
        then Ok (dict_set k (RItem it) (c_result st))
        else result_append k it (c_result st)
      else Ok (c_result st)
  | _, _ => Ok (c_result st)
  end.

(** [if not current_subcategory:
       current_subcategory = detect_subcategory(text, ...)]. *)
Definition auto_subcategory (section_name : pystr) (cur : option pystr)
    (text : pystr) : result (option pystr) :=
  if truthy cur then Ok cur
  else k <- detect_subcategory text section_name subcategory_mapping ;;
       Ok (Some k).

(** [re.sub(r'\s*\(\d{4}-\d{2}-\d{2}\)$', '', s)] on a string without
    newline (a stripped line): when [s] ends with a parenthesised date, the
    date and the white space before it are removed. *)
Definition is_digit (c : char) : bool :=
  match digit c with
  | Some _ => true
  | None => false
  end.

Definition is_date_paren (t : pystr) : bool :=
  match t with
  | [lp; y1; y2; y3; y4; h1; m1; m2; h2; d1; d2; rp] =>
      N.eqb lp (ch "(") && is_digit y1 && is_digit y2 && is_digit y3
      && is_digit y4 && N.eqb h1 (ch "-") && is_digit m1 && is_digit m2
      && N.eqb h2 (ch "-") && is_digit d1 && is_digit d2 && N.eqb rp (ch ")")
  | _ => false
  end.

Definition strip_date_suffix (s : pystr) : pystr :=
  let n := (length s - 12)%nat in
  if Nat.leb 12 (length s) && is_date_paren (skipn n s)
  then rstrip (firstn n s)
  else s.

(** *** The branches of the loop body, in source order.

    Each takes the state, the stripped [line] and the line after it, and
    returns the new state with the index advance (true: two lines). *)

Definition step_result : Type := result (cat_state * bool).

(** Lines 273-338: the rules of RESEARCH; [None] when none applies. *)
Definition research_step (st : cat_state) (line : pystr)
    (next : option pystr) : option step_result :=
  if contains (py "paper of the day") (lower line) then
    Some (Ok (mkcat (c_result st) (Some (py "Paper of the Week"))
                    (c_current_item st), false))
  else if contains (py "notable research") (lower line) then
    Some (
      st1 <- match c_current_item st, c_current_subcategory st with
             | Some it, Some k =>
                 if str_eqb k (py "Paper of the Week") then
                   r <- result_append k it (c_result st) ;;
                   Ok (mkcat r (c_current_subcategory st) None)
                 else Ok st
             | _, _ => Ok st
             end ;;
      Ok (mkcat (c_result st1) (Some (py "Notable Research"))
                (c_current_item st1), dash_line next))
  else if startswith line (py "[") && contains (py "](") line
          && contains (py ")") line then
    Some (
      r <- flush_append st ;;
      let reference_link := extract_link_from_text line in
      let clean_title := strip_date_suffix (sub_links line) in
      Ok (mkcat r
                (if truthy (c_current_subcategory st)
                 then c_current_subcategory st
                 else Some (py "Paper of the Week"))
                (Some (mkitem (Some clean_title) [] reference_link)),
          false))
  else if startswith line (py "**Authors:**")
          || startswith line (py "**Institution:**") then
    Some (Ok (mkcat (c_result st) (c_current_subcategory st)
                    (match c_current_item st with
                     | Some it => Some (add_description it line)
                     | None => None
                     end), false))
  else
    match c_current_item st with
    | Some it =>
        if nonempty line then
          Some (Ok (mkcat (c_result st) (c_current_subcategory st)
                          (Some (add_description it line)), false))
        else None
    | None => None
    end.

(** Lines 340-356: an explicit subcategory header. *)
Definition header_step (section_name : pystr) (st : cat_state)
    (line : pystr) (next : option pystr) : result (option (cat_state * bool)) :=
  table <- dict_lookup section_name subcategory_mapping ;;
  match List.find (fun subcategory =>
               contains (lower subcategory) (lower line)
               && (startswith line (py "###") || startswith line (py "##")
                   || dash_underline 5 next))
             (dict_keys table) with
  | Some subcategory =>
      Ok (Some (mkcat (c_result st) (Some subcategory) (c_current_item st),
                dash_line next))
  | None => Ok None
  end.

(** Lines 358-371: the BUSINESS redirects. *)
Definition business_redirect_step (st : cat_state) (line : pystr)
    (next : option pystr) : option (cat_state * bool) :=
  let line_lower := lower line in
  if (contains (py "market analysis") line_lower
      || contains (py "analysis") line_lower) && dash_line next then
    Some (mkcat (c_result st) (Some (py "Market Trends")) (c_current_item st),
          true)
  else if (contains (py "m&a") line_lower
           || contains (py "mergers") line_lower
           || contains (py "partnerships") line_lower) && dash_line next then
    Some (mkcat (c_result st) (Some (py "Company Updates"))
                (c_current_item st), true)
  else None.

(** Lines 376-381: sub-headers of TECHNOLOGY that are dropped. *)
Definition technology_noise (line : pystr) : bool :=
  (startswith line (py "###") || startswith line (py "##"))
  && existsb (fun header => contains (lower header) (lower line))
       (map py ["New and Notable Models"; "Datasets"; "Models";
                "Developer Tools"; "Spaces"]%string).

(** Lines 383-407: a title underlined with more than ten dashes. *)
Definition title_dashes_step (section_name : pystr) (st : cat_state)
    (line : pystr) : step_result :=
  r <- flush_item section_name st ;;
  sub <- auto_subcategory section_name (c_current_subcategory st) line ;;
  Ok (mkcat r sub (Some (mkitem (Some line) [] None)), true).

(** Lines 409-426: recognition of an item header; the title and the
    description it carries. *)
Definition item_header (line : pystr) : option (pystr * pystr) :=
  if startswith line (py "###") then
    Some (strip (pyslice 3 None line), [])
  else if startswith line (py "**") && endswith line (py "**") then
    Some (strip (pyslice 2 (Some (-2)) line), [])
  else if startswith line (py "**")
          && contains (py "**") (pyslice 2 None line) then
    let end_pos := find line (py "**") 2 in
    Some (strip (pyslice 2 (Some end_pos) line),
          strip (pyslice (end_pos + 2) None line))
  else None.

(** Lines 428-453. *)
Definition item_header_step (section_name : pystr) (st : cat_state)
    (line title0 description0 : pystr) : step_result :=
  r <- flush_item section_name st ;;
  let reference_link :=
    extract_link_from_text (title0 ++ py " " ++ description0) in
  let clean_title := sub_links title0 in
  let clean_description := sub_links description0 in
  sub <- auto_subcategory section_name (c_current_subcategory st)
           (title0 ++ py " " ++ line) ;;
  Ok (mkcat r sub (Some (mkitem (Some clean_title) clean_description
                                reference_link)), false).

(** Lines 455-462: stray subcategory names in BUSINESS. *)
Definition business_subcategory_names : list pystr :=
  map py ["M&A"; "Market Analysis"; "Company Updates";
          "Funding & Investment"; "Regulatory Developments";
          "Market Trends"]%string.

(** Line 465. *)
Definition is_bullet (line : pystr) : bool :=
  startswith line [bullet] || startswith line (py "*").

(** Lines 466-504. *)
Definition bullet_step (section_name : pystr) (st : cat_state)
    (line : pystr) : step_result :=
  let description0 := strip (pyslice 1 None line) in
  match (if str_eqb section_name (py "BUSINESS")
         then c_current_item st else None) with
  | Some it =>
      Ok (mkcat (c_result st) (c_current_subcategory st)
                (Some (capture_link (add_description it description0)
                                    description0)), false)
  | None =>
      r <- flush_item section_name st ;;
      let reference_link := extract_link_from_text description0 in
      let clean_description := sub_links description0 in
      sub <- auto_subcategory section_name (c_current_subcategory st)
               description0 ;;
      Ok (mkcat r sub (Some (mkitem None clean_description reference_link)),
          false)
  end.

(** Lines 506-519. *)
Definition content_step (st : cat_state) (line : pystr) : cat_state :=
  match c_current_item st with
  | Some it =>
      if nonempty line && negb (startswith line (py "[")) then
        mkcat (c_result st) (c_current_subcategory st)
              (Some (capture_link (add_description it line) line))
      else st
  | None => st
  end.

(** Lines 340-519: what follows the RESEARCH rules. *)
Definition general_step (section_name : pystr) (st : cat_state)
    (line : pystr) (next : option pystr) : step_result :=
  h <- header_step section_name st line next ;;
  match h with
  | Some r => Ok r
  | None =>
      match (if str_eqb section_name (py "BUSINESS")
             then business_redirect_step st line next else None) with
      | Some r => Ok r
      | None =>
          if str_eqb section_name (py "TECHNOLOGY") && technology_noise line
          then Ok (st, false)
          else if str_in section_name [py "BUSINESS"; py "PRODUCTS"]
                  && dash_underline 10 next
          then title_dashes_step section_name st line
          else
            match item_header line with
            | Some (title0, description0) =>
                item_header_step section_name st line title0 description0
            | None =>
                if str_eqb section_name (py "BUSINESS")
                   && str_in (strip line) business_subcategory_names
                then Ok (st, false)
                else if is_bullet line then bullet_step section_name st line
                else Ok (content_step st line, false)
            end
      end
  end.

(** One iteration of the [while] loop. *)
Definition cat_step (section_name : pystr) (st : cat_state) (raw : pystr)
    (next : option pystr) : step_result :=
  let line := strip raw in
  if negb (nonempty line) then Ok (st, false)
  else if is_delimiter line then Ok (st, false)
  else
    match (if str_eqb section_name (py "RESEARCH")
           then research_step st line next else None) with
    | Some r => r
    | None => general_step section_name st line next
    end.

Fixpoint cat_loop (section_name : pystr) (st : cat_state)
    (lines : list pystr) : result cat_state :=
  match lines with
  | [] => Ok st
  | raw :: rest =>
      r <- cat_step section_name st raw (hd_error rest) ;;
      let '(st', two) := r in
      if two then
        match rest with
        | [] => Ok st'
        | _ :: rest' => cat_loop section_name st' rest'
        end
      else cat_loop section_name st' rest
  end.

(** [clean_items(result[subcategory])]: iterating an item dictionary
    yields its keys, and [str] has no [get]. *)
Definition clean_value (v : rvalue) : result (list item) :=
  match v with
  | RList l => Ok (clean_items l)
  | RItem _ => Raise AttributeError
  end.

(** [for subcategory in result:
       result[subcategory] = clean_items(result[subcategory])]. *)
Fixpoint clean_result (r : dict rvalue) : result (dict (list item)) :=
  match r with
  | [] => Ok []
  | (k, v) :: r' =>
      l <- clean_value v ;;
      rest <- clean_result r' ;;
      Ok ((k, l) :: rest)
  end.

Definition parse_categorized_section (section_content section_name : pystr)
  : result (dict (list item)) :=
  table <- dict_lookup section_name subcategory_mapping ;;
  let result0 := map (fun subcategory => (subcategory, RList []))
                     (dict_keys table) in
  let lines := split_on newline section_content in
  st <- cat_loop section_name (mkcat result0 None None) lines ;;
  r <- flush_append st ;;
  clean_result r.

(** ** Dispatch on the section name (lines 102-110) *)

(** What [parse_section_items] returns: a list or a dictionary. *)
Inductive section_data : Type :=
| SList (l : list item)
| SDict (d : dict (list item)).

Definition parse_section_items (section_content section_name : pystr)
  : result section_data :=
  if str_in section_name [py "HIGHLIGHTS"; py "PRODUCTS"] then
    Ok (SList (parse_simple_section section_content section_name))
  else if str_in section_name [py "BUSINESS"; py "TECHNOLOGY"; py "RESEARCH"]
  then d <- parse_categorized_section section_content section_name ;;
       Ok (SDict d)
  else Ok (SList (parse_simple_section section_content section_name)).

(** ** The section splitter (lines 607-670)

    The document title is only printed and is left out. *)

Record split_state : Type := mksplit {
  m_sections : dict pystr;
  m_current_section : option pystr;
  m_section_content : list pystr;
  m_skip_next_dashes : bool
}.

Definition sections0 : dict pystr :=
  [ (py "HIGHLIGHTS", []); (py "BUSINESS", []); (py "PRODUCTS", []);
    (py "TECHNOLOGY", []); (py "RESEARCH", []) ].

(** [k in d]. *)
Definition dict_mem {V : Type} (k : pystr) (d : dict V) : bool :=
  match dict_get k d with
  | Some _ => true
  | None => false
  end.

(** [current_section and current_section in sections]. *)
Definition section_open (st : split_state) : option pystr :=
  match m_current_section st with
  | Some k => if nonempty k && dict_mem k (m_sections st) then Some k else None
  | None => None
  end.

(** [if current_section and current_section in sections:
       sections[current_section] = '\n'.join(section_content).strip()]. *)
Definition save_section (st : split_state) : dict pystr :=
  match section_open st with
  | Some k =>
      dict_set k (strip (join [newline] (m_section_content st)))
               (m_sections st)
  | None => m_sections st
  end.

(** The body of [for line in lines]; the boolean is [break]. *)
Definition split_step (st : split_state) (line : pystr)
  : split_state * bool :=
  if str_in (strip line) (dict_keys (m_sections st)) then
    (mksplit (save_section st) (Some (strip line)) [] true, false)
  else if m_skip_next_dashes st && nonempty (strip line)
          && all_dashes (strip line) then
    (mksplit (m_sections st) (m_current_section st) (m_section_content st)
             false, false)
  else if str_eqb (strip line) (py "* * *") then
    (match section_open st with
     | Some _ =>
         mksplit (m_sections st) (m_current_section st)
                 (m_section_content st ++ [line]) (m_skip_next_dashes st)
     | None => st
     end, false)
  else if startswith (strip line) (py "LOOKING AHEAD") then
    (mksplit (save_section st) (m_current_section st) (m_section_content st)
             (m_skip_next_dashes st), true)
  else if truthy (m_current_section st) then
    (mksplit (m_sections st) (m_current_section st)
             (m_section_content st ++ [line]) false, false)
  else
    (mksplit (m_sections st) (m_current_section st) (m_section_content st)
             false, false).

Fixpoint split_loop (st : split_state) (lines : list pystr) : split_state :=
  match lines with
  | [] => st
  | line :: rest =>
      let '(st', stop) := split_step st line in
      if stop then st' else split_loop st' rest
  end.

(** The sections collected from the lines of a document. *)
Definition sections_of_lines (lines : list pystr) : dict pystr :=
  save_section (split_loop (mksplit sections0 None [] false) lines).

(** The sections of a document text. *)
Definition split_sections (content : pystr) : dict pystr :=
  sections_of_lines (split_on newline content).

Record parsed_file : Type := mkparsed {
  p_sections : dict pystr;
  p_filename : pystr
}.

Definition parse_markdown_file (read : pystr -> pystr) (filepath : pystr)
  : parsed_file :=
  mkparsed (split_sections (read filepath)) (basename filepath).

(** ** The aggregator (lines 672-741) *)

(** A value of [json_data]: a list of items or a dictionary of lists. *)
Inductive jvalue : Type :=
| JList (l : list item)
| JDict (d : dict (list item)).

Definition json_data0 : dict jvalue :=
  [ (py "HIGHLIGHTS", JList []);
    (py "BUSINESS",
     JDict [ (py "Funding & Investment", []); (py "Company Updates", []);
             (py "Regulatory Developments", []); (py "Market Trends", []) ]);
    (py "PRODUCTS", JList []);
    (py "TECHNOLOGY",
     JDict [ (py "Open Source Projects", []); (py "Models & Datasets", []);
             (py "Developer Tools & Demos", []) ]);
    (py "RESEARCH",
     JDict [ (py "Paper of the Week", []); (py "Notable Research", []) ]) ].

Definition target_sections : list pystr :=
  map py ["HIGHLIGHTS"; "BUSINESS"; "PRODUCTS"; "TECHNOLOGY";
          "RESEARCH"]%string.

(** [json_data[section].extend(items)]. *)
Definition extend_section (section : pystr) (items : list item)
    (json_data : dict jvalue) : result (dict jvalue) :=
  v <- dict_lookup section json_data ;;
  match v with
  | JList l => Ok (dict_set section (JList (l ++ items)) json_data)
  | JDict _ => Raise AttributeError
  end.

(** [json_data[section][subcategory].extend(items)]. *)
Definition extend_subcategory (section subcategory : pystr)
    (items : list item) (json_data : dict jvalue) : result (dict jvalue) :=
  v <- dict_lookup section json_data ;;
  match v with
  | JDict d =>
      l <- dict_lookup subcategory d ;;
      Ok (dict_set section (JDict (dict_set subcategory (l ++ items) d))
                   json_data)
  | JList _ => Raise TypeError
  end.

(** [for subcategory, items in section_data.items(): ...]. *)
Fixpoint extend_subcategories (section : pystr) (d : dict (list item))
    (json_data : dict jvalue) : result (dict jvalue) :=
  match d with
  | [] => Ok json_data
  | (subcategory, items) :: d' =>
      j <- extend_subcategory section subcategory items json_data ;;
      extend_subcategories section d' j
  end.

(** The body of the inner loop, for one section of one file. *)
Definition merge_file_section (section : pystr) (file_data : parsed_file)
    (json_data : dict jvalue) : result (dict jvalue) :=
  text <- dict_lookup section (p_sections file_data) ;;
  if nonempty (strip text) then
    data <- parse_section_items text section ;;
    if str_in section [py "HIGHLIGHTS"; py "PRODUCTS"] then
      match data with
      | SList l => extend_section section l json_data
      | SDict _ => Ok json_data
      end
    else if str_in section [py "BUSINESS"; py "TECHNOLOGY"; py "RESEARCH"]
    then
      match data with
      | SDict d => extend_subcategories section d json_data
      | SList _ => Ok json_data
      end
    else Ok json_data
  else Ok json_data.

Fixpoint merge_section (section : pystr) (parsed_files : list parsed_file)
    (json_data : dict jvalue) : result (dict jvalue) :=
  match parsed_files with
  | [] => Ok json_data
  | file_data :: rest =>
      j <- merge_file_section section file_data json_data ;;
      merge_section section rest j
  end.

Fixpoint merge_sections (sections : list pystr)
    (parsed_files : list parsed_file) (json_data : dict jvalue)
  : result (dict jvalue) :=
  match sections with
  | [] => Ok json_data
  | section :: rest =>
      j <- merge_section section parsed_files json_data ;;
      merge_sections rest parsed_files j
  end.

(** Lines 695-735: the structure written to the output file. *)
Definition merge_parsed (parsed_files : list parsed_file)
  : result (dict jvalue) :=
  merge_sections target_sections parsed_files json_data0.

(** The whole run.  [listing] is [os.listdir(folder_path)], [read] gives
    the text of the file at a path; [None] is the early return on a folder
    without [.md] file, when nothing is written. *)
Definition merge_files_to_json (now : datetime) (folder_path : pystr)
    (listing : list pystr) (read : pystr -> pystr)
  : result (option (dict jvalue)) :=
  let md_files := filter (fun file => endswith file (py ".md")) listing in
  match md_files with
  | [] => Ok None
  | _ :: _ =>
      sorted <- sort_files_by_date now md_files folder_path ;;
      let parsed_files :=
        map (fun file => parse_markdown_file read (path_join folder_path file))
            sorted in
      json_data <- merge_parsed parsed_files ;;
      Ok (Some json_data)
  end.

End Engine.

(** ** ASCII instances of the Unicode tables *)

Definition lower_ascii (s : pystr) : pystr :=
  map (fun c => if (65 <=? c)%N && (c <=? 90)%N then (c + 32)%N else c) s.

Definition digit_ascii (c : char) : option Z :=
  if (48 <=? c)%N && (c <=? 57)%N then Some (Z.of_N c - 48) else None.

(** A text from its lines. *)
Definition text_of (lines : list string) : pystr :=
  join [newline] (map py lines).

(** A clock reading in year [y]. *)
Definition clock (y : Z) : datetime := mkdatetime y 6 1 12 0 0.

(** The text of scenario B (spec, section 8). *)
Definition scenario_b : pystr :=
  text_of ["Funding Update"; "------------";
           "See [here](https://x.com)"]%string.

(** [line] taken as ordinary content of the open PRODUCTS item (lines
    163-173). *)
Definition as_content (st : simple_state) (line : pystr) : option item :=
  option_map (fun it => capture_link (add_description it line) line)
             (s_current_item st).

(** The iterations of the [while] loop of [parse_simple_section]: for each
    line the loop stops at, the state before it, the line and the line
    after it.  The recursion is the one of [simple_loop]. *)
Fixpoint simple_trace (section_name : pystr) (st : simple_state)
    (lines : list pystr) : list (simple_state * pystr * option pystr) :=
  match lines with
  | [] => []
  | raw :: rest =>
      let '(st', two) := simple_step section_name st raw (hd_error rest) in
      (st, raw, hd_error rest)
      :: (if two then
            match rest with
            | [] => []
            | _ :: rest' => simple_trace section_name st' rest'
            end
          else simple_trace section_name st' rest)
  end.

(** The state the iterations end in: the one the last of them gives. *)
Definition trace_final (section_name : pystr) (st : simple_state)
    (trace : list (simple_state * pystr * option pystr)) : simple_state :=
  fold_left (fun _ e =>
               fst (simple_step section_name (fst (fst e)) (snd (fst e))
                                (snd e)))
            trace st.

(** A title-with-dashes line: not blank, not a delimiter, and followed by
    a line of more than ten dashes. *)
Definition opens_title (raw : pystr) (next : option pystr) : bool :=
  nonempty (strip raw) && negb (is_delimiter (strip raw))
  && dash_underline 10 next.

(** Any other line that is neither blank nor a delimiter. *)
Definition plain_products_line (raw : pystr) (next : option pystr) : bool :=
  nonempty (strip raw) && negb (is_delimiter (strip raw))
  && negb (dash_underline 10 next).

(** The line of an iteration is swallowed: an item is open, and the
    iteration leaves its description as it was. *)
Definition swallowed (e : simple_state * pystr * option pystr) : bool :=
  let '(st, raw, next) := e in
  plain_products_line raw next
  && match s_current_item st,
           s_current_item (fst (simple_step (py "PRODUCTS") st raw next))
     with
     | Some it, Some it' => str_eqb (description it') (description it)
     | _, _ => false
     end.

(** At most one swallowed line for each title: every swallowed line has a
    title line before it, with no other swallowed line in between.
    [allowed] tells whether a title was opened since the last swallowed
    line. *)
Fixpoint one_echo_per_title (allowed : bool)
    (trace : list (simple_state * pystr * option pystr)) : bool :=
  match trace with
  | [] => true
  | e :: t =>
      if opens_title (snd (fst e)) (snd e) then one_echo_per_title true t
      else if swallowed e then allowed && one_echo_per_title false t
      else one_echo_per_title allowed t
  end.

(** A PRODUCTS state just after the title line [t] opened an item. *)
Definition after_title (t : string) : simple_state :=
  mksimple [] (Some (mkitem (Some (py t)) [] None)) true.

(** The text of a bullet line: [line[1:].strip()]. *)
Definition bullet_text (line : pystr) : pystr := strip (pyslice 1 None line).

(** Spec 4.5, a bullet line that opens an item: the previous item is
    finalised, a description-only item is opened from the bullet text, and
    the classifier assigns the subcategory when none is set. *)
Definition bullet_opens (lower : pystr -> pystr) (section_name : pystr)
    (st : cat_state) (text : pystr) : step_result :=
  r <- flush_item section_name st ;;
  sub <- auto_subcategory lower section_name (c_current_subcategory st) text ;;
  Ok (mkcat r sub
            (Some (mkitem None (sub_links text) (extract_link_from_text text))),
      false).

(** Spec 4.5, a bullet line that extends the open item [it]. *)
Definition bullet_extends (st : cat_state) (it : item) (text : pystr)
  : step_result :=
  Ok (mkcat (c_result st) (c_current_subcategory st)
            (Some (capture_link (add_description it text) text)),
      false).

(** The parser state at the start of a categorized section. *)
Definition start_state (section_name : pystr) : cat_state :=
  match dict_get section_name subcategory_mapping with
  | Some table =>
      mkcat (map (fun subcategory => (subcategory, RList []))
                 (dict_keys table)) None None
  | None => mkcat [] None None
  end.

(** Invariant of the splitter: the five section keys stay in place. *)
Definition keys_ok (st : split_state) : Prop :=
  dict_keys (m_sections st) = dict_keys sections0.



(** The subcategory names of a categorized section, in table order. *)
Definition section_keys (section_name : pystr) : list pystr :=
  match dict_get section_name subcategory_mapping with
  | Some table => dict_keys table
  | None => []
  end.

(** The three categorized sections. *)
Definition categorized (section_name : pystr) : bool :=
  str_in section_name [py "BUSINESS"; py "TECHNOLOGY"; py "RESEARCH"].

(** Every value of a [result] dictionary is a list. *)
Definition all_lists (r : dict rvalue) : Prop :=
  Forall (fun e => exists l, snd e = RList l) r.

(** Invariant of the categorized parser: the result holds the section's
    subcategories, each mapped to a list, and the current subcategory is
    one of them. *)
Definition cat_wf (section_name : pystr) (st : cat_state) : Prop :=
  dict_keys (c_result st) = section_keys section_name
  /\ all_lists (c_result st)
  /\ match c_current_subcategory st with
     | Some k => str_in k (section_keys section_name) = true
     | None => True
     end.

(** ** The aggregate, as the specification words it (section 4.8)

    The output is seeded with the fixed keys; each sequence is the
    concatenation, in document order, of what each document with a
    non-blank section text contributes. *)

(** What a document contributes to a simple section. *)
Definition file_items (section : pystr) (f : parsed_file) : list item :=
  match dict_get section (p_sections f) with
  | Some text =>
      if nonempty (strip text) then parse_simple_section text section else []
  | None => []
  end.

(** What a document contributes to a subcategory of a categorized
    section. *)
Definition file_sub_items (lower : pystr -> pystr) (digit : char -> option Z)
    (section subcategory : pystr) (f : parsed_file) : list item :=
  match dict_get section (p_sections f) with
  | Some text =>
      if nonempty (strip text) then
        match parse_categorized_section lower digit text section with
        | Ok d =>
            match dict_get subcategory d with
            | Some l => l
            | None => []
            end
        | Raise _ => []
        end
      else []
  | None => []
  end.

(** The output structure with given sequences. *)
Definition shape (hs : list item) (bs : pystr -> list item)
    (ps : list item) (ts rs : pystr -> list item) : dict jvalue :=
  [ (py "HIGHLIGHTS", JList hs);
    (py "BUSINESS",
     JDict (map (fun k => (k, bs k)) (section_keys (py "BUSINESS"))));
    (py "PRODUCTS", JList ps);
    (py "TECHNOLOGY",
     JDict (map (fun k => (k, ts k)) (section_keys (py "TECHNOLOGY"))));
    (py "RESEARCH",
     JDict (map (fun k => (k, rs k)) (section_keys (py "RESEARCH")))) ].

Definition aggregate (lower : pystr -> pystr) (digit : char -> option Z)
    (files : list parsed_file) : dict jvalue :=
  shape (flat_map (file_items (py "HIGHLIGHTS")) files)
        (fun k => flat_map (file_sub_items lower digit (py "BUSINESS") k)
                           files)
        (flat_map (file_items (py "PRODUCTS")) files)
        (fun k => flat_map (file_sub_items lower digit (py "TECHNOLOGY") k)
                           files)
        (fun k => flat_map (file_sub_items lower digit (py "RESEARCH") k)
                           files).

(** The items of an output structure. *)
Definition all_items (out : dict jvalue) : list item :=
  flat_map (fun e => match snd e with
                     | JList l => l
                     | JDict d => flat_map snd d
                     end) out.

(** A loop step that returns, with the invariant of the section. *)
Definition step_ok (section_name : pystr) (r : step_result) : Prop :=
  exists st' two, r = Ok (st', two) /\ cat_wf section_name st'.

(** A parsed document holds a text for each of the five sections. *)
Definition file_ok (f : parsed_file) : Prop :=
  dict_keys (p_sections f) = dict_keys sections0.

(** The [.md] files of a listing, as the run selects them. *)
Definition md_files_of (listing : list pystr) : list pystr :=
  filter (fun file => endswith file (py ".md")) listing.

(** The documents of a run, in processing order. *)
Definition documents (read : pystr -> pystr) (folder_path : pystr)
    (sorted : list pystr) : list parsed_file :=
  map (fun file => parse_markdown_file read (path_join folder_path file))
      sorted.

(** A folder with two one-line documents. *)
Definition two_docs (a b : string) (texta textb : pystr) (path : pystr)
  : pystr :=
  if endswith path (py a) then texta
  else if endswith path (py b) then textb
  else [].

Definition highlight (s : string) : pystr :=
  py "HIGHLIGHTS" ++ [newline] ++ bullet :: py " " ++ py s.

(** Scenario A (spec, section 8): two documents with the same bullet. *)
Definition scenario_a_read : pystr -> pystr :=
  two_docs "7-6.md" "7-7.md" (highlight "Model X launched")
           (highlight "Model X launched").

Definition scenario_a_output : dict jvalue :=
  shape [ mkitem None (py "Model X launched") None;
          mkitem None (py "Model X launched") None ]
        (fun _ => []) [] (fun _ => []) (fun _ => []).

(** A folder with a document dated 29 February. *)
Definition leap_read : pystr -> pystr :=
  two_docs "2-29.md" "3-1.md" (highlight "A") (highlight "B").

(** The order of the sort key of [sort_files_by_date]. *)
Definition entry_ltb (a b : date * pystr) : bool := date_ltb (fst a) (fst b).

(** Two entries with the same date. *)
Definition same_date (d : date) (e : date * pystr) : bool :=
  negb (date_ltb d (fst e)) && negb (date_ltb (fst e) d).

(** A line the splitter keeps as content of an open section: not a
    section header, not the terminal marker, not a line of dashes. *)
Definition content_line (l : pystr) : bool :=
  negb (str_in (strip l) (dict_keys sections0))
  && negb (startswith (strip l) (py "LOOKING AHEAD"))
  && negb (nonempty (strip l) && all_dashes (strip l)).

(** ** Validation warnings (lines 199-222 and 525-546)

    The parsers collect warning messages about raw items before
    normalisation and print them; the messages are modelled as the list the
    code builds. *)

(** [str(n)] for a natural number. *)
Definition decimal (n : nat) : pystr :=
  py (NilEmpty.string_of_uint (Nat.to_uint n)).

(** ['title' in item and item['title'].strip()]. *)
Definition has_title (it : item) : bool :=
  match title it with
  | Some t => nonempty (strip t)
  | None => false
  end.

(** ['description' in item and item['description'].strip()]. *)
Definition has_description (it : item) : bool :=
  nonempty (strip (description it)).

(** [enumerate(l)], counting from [idx]. *)
Fixpoint enumerate_from {A : Type} (idx : nat) (l : list A)
  : list (nat * A) :=
  match l with
  | [] => []
  | x :: l' => (idx, x) :: enumerate_from (S idx) l'
  end.

(** The message of lines 205-214 for item [idx], if any. *)
Definition simple_item_warning (section_name : pystr) (idx : nat) (it : item)
  : option pystr :=
  if str_eqb section_name (py "PRODUCTS") then
    if negb (has_title it) && has_description it then
      Some (py "Item " ++ decimal (idx + 1)
            ++ py ": Missing title, only has description: '"
            ++ pyslice 0 (Some 50%Z) (description it) ++ py "...'")
    else if has_title it && negb (has_description it) then
      Some (py "Item " ++ decimal (idx + 1)
            ++ py ": Missing description, only has title: '"
            ++ get_title it ++ py "'")
    else if negb (has_title it) && negb (has_description it) then
      Some (py "Item " ++ decimal (idx + 1)
            ++ py ": Missing both title and description")
    else None
  else if negb (has_description it) then
    Some (py "Item " ++ decimal (idx + 1) ++ py ": Missing description")
  else None.

(** The messages of a list of optional messages. *)
Definition collect_warnings {A : Type} (f : nat -> A -> option pystr)
    (l : list A) : list pystr :=
  flat_map (fun p => match f (fst p) (snd p) with
                     | Some w => [w]
                     | None => []
                     end)
           (enumerate_from 0 l).

(** [validation_warnings] of [parse_simple_section]. *)
Definition simple_validation_warnings (section_name : pystr)
    (items : list item) : list pystr :=
  if str_in section_name [py "PRODUCTS"; py "HIGHLIGHTS"]
  then collect_warnings (simple_item_warning section_name) items
  else [].

(** The raw items of a simple section, as they stand before
    [clean_items]. *)
Definition simple_raw_items (section_content section_name : pystr)
  : list item :=
  let st := simple_loop section_name (mksimple [] None false)
                        (split_on newline section_content) in
  simple_finalize (s_items st) (s_current_item st).

(** The warnings [parse_simple_section] prints for a section text. *)
Definition simple_section_warnings (section_content section_name : pystr)
  : list pystr :=
  simple_validation_warnings section_name
    (simple_raw_items section_content section_name).

(** The message of lines 532-537 for item [idx] of [subcategory]. *)
Definition categorized_item_warning (subcategory : pystr) (idx : nat)
    (it : item) : option pystr :=
  if negb (has_title it) && has_description it then
    Some (subcategory ++ py " item " ++ decimal (idx + 1)
          ++ py ": Missing title, only has description: '"
          ++ pyslice 0 (Some 50%Z) (description it) ++ py "...'")
  else if has_title it && negb (has_description it) then
    Some (subcategory ++ py " item " ++ decimal (idx + 1)
          ++ py ": Missing description, only has title: '"
          ++ get_title it ++ py "'")
  else if negb (has_title it) && negb (has_description it) then
    Some (subcategory ++ py " item " ++ decimal (idx + 1)
          ++ py ": Missing both title and description")
  else None.

(** [validation_warnings] of [parse_categorized_section]: only values that
    are lists are looked at. *)
Definition categorized_validation_warnings (r : dict rvalue) : list pystr :=
  flat_map (fun e => match snd e with
                     | RList l =>
                         collect_warnings (categorized_item_warning (fst e)) l
                     | RItem _ => []
                     end) r.

(** ** The document title (lines 612-614) *)

(** [re.search(r'Title: (.+)', content)]: the leftmost place where the
    literal is followed by a character other than a newline; the group is
    the longest run of such characters. *)
Fixpoint search_title (content : pystr) : option pystr :=
  match
    (if startswith content (py "Title: ") then
       match fst (span (fun c => negb (N.eqb c newline)) (skipn 7 content))
       with
       | [] => None
       | c :: g => Some (c :: g)
       end
     else None)
  with
  | Some g => Some g
  | None =>
      match content with
      | [] => None
      | _ :: content' => search_title content'
      end
  end.

(** [title_match.group(1) if title_match else "Unknown"]. *)
Definition document_title (content : pystr) : pystr :=
  match search_title content with
  | Some g => g
  | None => py "Unknown"
  end.

(** ** Notions used in the statements below *)

(** A date of the calendar, as [date(y, m, d)] accepts it. *)
Definition valid_date (d : date) : Prop :=
  (MINYEAR <= year d <= MAXYEAR /\ 1 <= month d <= 12
   /\ 1 <= day d <= days_in_month (year d) (month d))%Z.

(** A text without white space at either end. *)
Definition trimmed (s : pystr) : Prop := strip s = s.

(** A line that neither is a section header nor starts the terminal
    marker. *)
Definition plain_line (l : pystr) : bool :=
  negb (str_in (strip l) (dict_keys sections0))
  && negb (startswith (strip l) (py "LOOKING AHEAD")).

(** A line the item parsers skip: blank, or made of asterisks and
    spaces. *)
Definition skipped_line (raw : pystr) : bool :=
  negb (nonempty (strip raw)) || is_delimiter (strip raw).

(** The raw items a line gives outside PRODUCTS (lines 176-191). *)
Definition highlight_line_items (raw : pystr) : list item :=
  s_items (fst (simple_step (py "HIGHLIGHTS") (mksimple [] None false) raw
                            None)).

(** A file name that does not read as 29 February. *)
Definition no_leap_day (digit : char -> option Z) (filename : pystr) : bool :=
  match match_filename digit filename with
  | Some (m, d) => negb ((m =? 2)%Z && (d =? 29)%Z)
  | None => true
  end.

Definition date_eqb (a b : date) : bool :=
  ((year a =? year b) && (month a =? month b) && (day a =? day b))%Z.

(** No date occurs twice. *)
Fixpoint distinct_dates (ds : list date) : bool :=
  match ds with
  | [] => true
  | d :: ds' => negb (existsb (date_eqb d) ds') && distinct_dates ds'
  end.

(** The candidate dates [sort_files_by_date] sorts by, in input order. *)
Definition candidate_dates (digit : char -> option Z) (now : datetime)
    (md_files : list pystr) (folder_path : pystr) : result (list date) :=
  r <- get_date_range_from_folder digit now folder_path ;;
  let '(start_date, end_date, year) := r in
  file_dates <- file_dates_of digit now start_date end_date year md_files ;;
  Ok (map fst file_dates).

(** The ordering computes candidate dates and they are all different. *)
Definition distinct_candidates (digit : char -> option Z) (now : datetime)
    (md_files : list pystr) (folder_path : pystr) : bool :=
  match candidate_dates digit now md_files folder_path with
  | Ok ds => distinct_dates ds
  | Raise _ => false
  end.

(** Scenario A with other files beside the documents. *)
Definition scenario_a_read_more (path : pystr) : pystr :=
  if endswith path (py "notes.txt") then py "HIGHLIGHTS"
  else scenario_a_read path.

(** ** Reading the documents (lines 609-610 and 688-693)

    [open] and [f.read] can fail and the run does not guard them: the loop
    over the files stops at the first one that cannot be read.  The folder
    is taken as listed. *)








(** * Properties *)

(** ** Strings and dictionaries *)

Lemma str_eqb_eq (a b : pystr) : str_eqb a b = true <-> a = b.
Proof.
  revert b; induction a as [|x a IH]; intros [|y b]; simpl;
    try (split; (discriminate || reflexivity)).
  rewrite andb_true_iff, N.eqb_eq, IH.
  split; [intros [-> ->]; reflexivity | intros [= -> ->]; auto].
Qed.

Lemma str_eqb_refl (a : pystr) : str_eqb a a = true.
Proof. apply str_eqb_eq; reflexivity. Qed.

Lemma str_eqb_neq (a b : pystr) : str_eqb a b = false <-> a <> b.
Proof.
  rewrite <- str_eqb_eq.
  destruct (str_eqb a b); split; congruence.
Qed.

Lemma str_in_In (x : pystr) (l : list pystr) : str_in x l = true <-> In x l.
Proof.
  unfold str_in; rewrite existsb_exists; split.
  - intros (y & Hy & E); apply str_eqb_eq in E; subst; exact Hy.
  - intros H; exists x; split; [exact H | apply str_eqb_refl].
Qed.

(** ** Dates *)

Lemma date_new_ok (y m d : Z) (dt : date) :
  date_new y m d = Ok dt -> dt = mkdate y m d.
Proof.
  unfold date_new; destruct (_ && _); congruence.
Qed.

Section DateRange.
Variable digit : char -> option Z.

Lemma get_date_range_resolved (now : datetime) (folder : pystr)
    (s e : date) (y : Z) :
  get_date_range_from_folder digit now folder = Ok (Some s, Some e, y) ->
  y = dt_year now /\ year s = y /\
  year e = (if month e <? month s then y + 1 else y)%Z.
Proof.
  unfold get_date_range_from_folder.
  destruct (match_range digit (basename folder))
    as [[[[sm sd] em] ed]|]; [|discriminate].
  destruct (em <? sm)%Z eqn:Hlt;
    destruct (date_new (dt_year now) sm sd) as [s0|] eqn:Hs;
    simpl; try discriminate.
  - destruct (date_new (dt_year now + 1) em ed) as [e0|] eqn:He;
      simpl; [|discriminate].
    intros [= <- <- <-].
    apply date_new_ok in Hs, He; subst s0 e0; simpl.
    rewrite Hlt; auto.
  - destruct (date_new (dt_year now) em ed) as [e0|] eqn:He;
      simpl; [|discriminate].
    intros [= <- <- <-].
    apply date_new_ok in Hs, He; subst s0 e0; simpl.
    rewrite Hlt; auto.
Qed.

(** An identifier that does not match the range pattern gives no range
    and the current year. *)
Lemma unmatched_gives_no_range (now : datetime) (folder : pystr) :
  match_range digit (basename folder) = None ->
  get_date_range_from_folder digit now folder = Ok (None, None, dt_year now).
Proof.
  intros H. unfold get_date_range_from_folder. rewrite H. reflexivity.
Qed.

(** C4 (amended).  For a batch identifier that resolves to a range, the end
    date's year is the start date's year plus one exactly when the end month
    is less than the start month, and the end date is on or after the start
    date unless the two months are equal and the end day is less than the
    start day. *)
Theorem resolved_range_order (now : datetime) (folder : pystr)
    (s e : date) (y : Z) :
  get_date_range_from_folder digit now folder = Ok (Some s, Some e, y) ->
  (year e = year s + 1 <-> month e < month s)%Z /\
  (date_leb s e = true <-> ~ (month e = month s /\ day e < day s)%Z).
Proof.
  intros H; apply get_date_range_resolved in H.
  destruct H as (_ & Hs & He).
  unfold date_leb, date_ltb.
  destruct (month e <? month s)%Z eqn:Hlt.
  - apply Z.ltb_lt in Hlt. split; [lia|].
    replace (year e <? year s)%Z with false by (symmetry; apply Z.ltb_ge; lia).
    replace (year e =? year s)%Z with false by (symmetry; apply Z.eqb_neq; lia).
    simpl. split; [lia | reflexivity].
  - apply Z.ltb_ge in Hlt. split; [lia|].
    replace (year e <? year s)%Z with false by (symmetry; apply Z.ltb_ge; lia).
    replace (year e =? year s)%Z with true by (symmetry; apply Z.eqb_eq; lia).
    replace (month e <? month s)%Z with false by (symmetry; apply Z.ltb_ge; lia).
    simpl.
    destruct (month e =? month s)%Z eqn:Hm; simpl.
    + apply Z.eqb_eq in Hm.
      destruct (day e <? day s)%Z eqn:Hd; simpl.
      * apply Z.ltb_lt in Hd. split; [discriminate | intros H; exfalso; apply H; lia].
      * apply Z.ltb_ge in Hd. split; [lia | reflexivity].
    + apply Z.eqb_neq in Hm. split; [lia | reflexivity].
Qed.

End DateRange.

Lemma resolved_range_order_witness :
  get_date_range_from_folder digit_ascii (clock 2026) (py "reports/12.25-1.5")
  = Ok (Some (mkdate 2026 12 25), Some (mkdate 2027 1 5), 2026%Z)
  /\ ((2027 = 2026 + 1 <-> 1 < 12)%Z
      /\ (date_leb (mkdate 2026 12 25) (mkdate 2027 1 5) = true
          <-> ~ (1 = 12 /\ 5 < 25)%Z)).
Proof.
  split; [reflexivity|].
  exact (resolved_range_order digit_ascii (clock 2026)
           (py "reports/12.25-1.5") (mkdate 2026 12 25) (mkdate 2027 1 5)
           2026%Z eq_refl).
Defined.

(** C4 as stated fails: the identifier [7.12-7.6] matches the pattern and
    is calendar-valid, and resolves to an end date before the start date. *)
Lemma resolved_range_reversed :
  ~ (forall (now : datetime) (folder : pystr) (s e : date) (y : Z),
        get_date_range_from_folder digit_ascii now folder
        = Ok (Some s, Some e, y) ->
        date_leb s e = true /\
        (year e = year s + 1 <-> month e < month s)%Z).
Proof.
  intros H.
  destruct (H (clock 2026) (py "7.12-7.6") (mkdate 2026 7 12)
              (mkdate 2026 7 6) 2026%Z eq_refl) as [Hle _].
  discriminate Hle.
Qed.

(** C3.  An identifier that matches the range pattern with month 13 makes
    the resolver raise [ValueError], whatever the clock says. *)
Theorem resolver_raises_on_month_13 (now : datetime) :
  get_date_range_from_folder digit_ascii now (py "13.40-1.5")
  = Raise ValueError.
Proof.
  unfold get_date_range_from_folder.
  change (match_range digit_ascii (basename (py "13.40-1.5")))
    with (Some (13, 40, 1, 5)%Z).
  cbv beta iota.
  change (1 <? 13)%Z with true. cbv iota.
  unfold date_new.
  change (13 <=? 12)%Z with false.
  rewrite !andb_false_r. reflexivity.
Qed.

(** C5.  In a leap year, a file dated 29 February in a folder whose range
    starts in a later month makes the ordering raise [ValueError]: the date
    is valid in the reference year and is moved to the next year outside
    the [try]. *)
Theorem ordering_raises_on_leap_day :
  sort_files_by_date digit_ascii (clock 2028) [py "2-29.md"] (py "12.25-3.5")
  = Raise ValueError.
Proof. reflexivity. Qed.

(** ** Scenario B *)

(** C2 (amended).  The BUSINESS text of scenario B yields exactly one item,
    with the link target as [reference_link], and the keyword [funding] of
    the BUSINESS table places it under "Funding & Investment". *)
Theorem scenario_b_funding :
  parse_categorized_section lower_ascii digit_ascii scenario_b (py "BUSINESS")
  = Ok [ (py "Funding & Investment",
          [mkitem (Some (py "Funding Update")) (py "See here")
                  (Some (py "https://x.com"))]);
         (py "Company Updates", []);
         (py "Regulatory Developments", []);
         (py "Market Trends", []) ].
Proof. vm_compute. reflexivity. Qed.

(** C2 as stated fails: nothing is placed under "Company Updates". *)
Lemma scenario_b_not_company_updates :
  ~ (exists (d : dict (list item)) (it : item),
        parse_categorized_section lower_ascii digit_ascii scenario_b
          (py "BUSINESS") = Ok d
        /\ dict_get (py "Company Updates") d = Some [it]
        /\ reference_link it = Some (py "https://x.com")).
Proof.
  intros (d & it & Hd & Hget & _).
  vm_compute in Hd. injection Hd as <-.
  vm_compute in Hget. discriminate Hget.
Qed.

(** ** The bold echo in PRODUCTS *)

(** The loop ends in the state its last iteration gives. *)
Lemma simple_loop_trace (section_name : pystr) (lines : list pystr)
    (st : simple_state) :
  simple_loop section_name st lines
  = trace_final section_name st (simple_trace section_name st lines).
Proof.
  unfold trace_final.
  assert (H : forall n ls, (length ls <= n)%nat -> forall s,
            simple_loop section_name s ls
            = fold_left (fun _ e =>
                           fst (simple_step section_name (fst (fst e))
                                            (snd (fst e)) (snd e)))
                        (simple_trace section_name s ls) s).
  { induction n as [|n IH]; intros ls Hn s.
    - destruct ls; [reflexivity | simpl in Hn; lia].
    - destruct ls as [|raw rest]; [reflexivity|].
      cbn [simple_loop simple_trace]. simpl in Hn.
      destruct (simple_step section_name s raw (hd_error rest))
        as [s' two] eqn:Es.
      cbn [fold_left fst snd]. rewrite Es. cbn [fst].
      destruct two.
      + destruct rest as [|r rest']; [reflexivity|].
        apply IH. simpl in Hn. lia.
      + apply IH. lia. }
  exact (H (length lines) lines (Nat.le_refl _) st).
Qed.

(** One PRODUCTS iteration on a line that is neither blank, nor a
    delimiter, nor a title. *)
Lemma products_plain_step (st : simple_state) (raw : pystr)
    (next : option pystr) :
  plain_products_line raw next = true ->
  simple_step (py "PRODUCTS") st raw next
  = if s_just_created_item_from_dashes st
       && startswith (strip raw) (py "**[") && endswith (strip raw) (py "**")
    then (mksimple (s_items st) (s_current_item st) false, false)
    else (mksimple (s_items st) (as_content st (strip raw))
                   (if s_just_created_item_from_dashes st
                       && negb (startswith (strip raw) (py "**["))
                    then false
                    else s_just_created_item_from_dashes st),
          false).
Proof.
  unfold plain_products_line. rewrite !andb_true_iff, !negb_true_iff.
  intros [[Hne Hdel] Hd].
  unfold simple_step. rewrite Hne, Hdel. cbn [negb].
  change (str_eqb (py "PRODUCTS") (py "PRODUCTS")) with true. cbv iota.
  unfold products_step, as_content. rewrite Hd.
  destruct (_ && _ && _); [reflexivity|].
  destruct (s_current_item st); reflexivity.
Qed.

(** Ordinary content changes the description of the open item. *)
Lemma as_content_changes (st : simple_state) (line : pystr) (it it' : item) :
  nonempty line = true ->
  s_current_item st = Some it -> as_content st line = Some it' ->
  str_eqb (description it') (description it) = false.
Proof.
  intros Hne Hc. unfold as_content. rewrite Hc. cbn [option_map].
  intros [= <-]. apply str_eqb_neq.
  assert (Hd : description (capture_link (add_description it line) line)
               = description (add_description it line)).
  { unfold capture_link. destruct (_ && _); reflexivity. }
  rewrite Hd. unfold add_description. cbn [description].
  destruct (description it) as [|c d]; cbn [nonempty].
  - destruct line; [discriminate Hne | discriminate].
  - intros E. apply (f_equal (@length char)) in E.
    rewrite !length_app in E. simpl in E. lia.
Qed.

(** A line is swallowed only while the suppression is armed, and
    swallowing disarms it. *)
Lemma swallowed_armed (st : simple_state) (raw : pystr)
    (next : option pystr) :
  swallowed (st, raw, next) = true ->
  s_just_created_item_from_dashes st = true
  /\ s_just_created_item_from_dashes
       (fst (simple_step (py "PRODUCTS") st raw next)) = false.
Proof.
  unfold swallowed. rewrite andb_true_iff. intros [Hp H].
  rewrite (products_plain_step st raw next Hp) in *.
  destruct (s_just_created_item_from_dashes st
            && startswith (strip raw) (py "**[")
            && endswith (strip raw) (py "**")) eqn:E.
  - apply andb_true_iff in E. destruct E as [E _].
    apply andb_true_iff in E. destruct E as [E _]. split; [exact E|].
    reflexivity.
  - exfalso. cbn [fst s_current_item] in H.
    destruct (s_current_item st) as [it|] eqn:Hc; [|discriminate H].
    destruct (as_content st (strip raw)) as [it'|] eqn:Ha; [|discriminate H].
    unfold plain_products_line in Hp. rewrite !andb_true_iff in Hp.
    destruct Hp as [[Hne _] _].
    rewrite (as_content_changes st (strip raw) it it' Hne Hc Ha) in H.
    discriminate H.
Qed.

(** Only a title line arms the suppression. *)
Lemma armed_by_title_only (st : simple_state) (raw : pystr)
    (next : option pystr) :
  opens_title raw next = false ->
  s_just_created_item_from_dashes
    (fst (simple_step (py "PRODUCTS") st raw next)) = true ->
  s_just_created_item_from_dashes st = true.
Proof.
  intros Ht.
  destruct (plain_products_line raw next) eqn:Hp.
  - rewrite (products_plain_step st raw next Hp).
    destruct (_ && _ && _); [discriminate|]. cbn [fst].
    cbn [s_just_created_item_from_dashes].
    destruct (s_just_created_item_from_dashes st); [reflexivity|].
    cbn [andb]. intros H; exact H.
  - unfold opens_title in Ht. unfold plain_products_line in Hp.
    unfold simple_step.
    destruct (nonempty (strip raw)); cbn [negb]; [|intros H; exact H].
    destruct (is_delimiter (strip raw)); [intros H; exact H|].
    cbn [andb negb] in Ht, Hp. rewrite Ht in Hp. discriminate Hp.
Qed.

Lemma one_echo_per_title_run (lines : list pystr) :
  forall st allowed,
  (s_just_created_item_from_dashes st = true -> allowed = true) ->
  one_echo_per_title allowed (simple_trace (py "PRODUCTS") st lines) = true.
Proof.
  assert (H : forall n ls, (length ls <= n)%nat -> forall st allowed,
            (s_just_created_item_from_dashes st = true -> allowed = true) ->
            one_echo_per_title allowed (simple_trace (py "PRODUCTS") st ls)
            = true).
  { induction n as [|n IH]; intros ls Hn st allowed Ha.
    - destruct ls; [reflexivity | simpl in Hn; lia].
    - destruct ls as [|raw rest]; [reflexivity|].
      cbn [simple_trace]. simpl in Hn.
      pose proof (swallowed_armed st raw (hd_error rest)) as Hsw.
      pose proof (armed_by_title_only st raw (hd_error rest)) as Har.
      destruct (simple_step (py "PRODUCTS") st raw (hd_error rest))
        as [st' two] eqn:Es.
      cbn [fst] in Hsw, Har.
      cbn [one_echo_per_title fst snd].
      assert (Ht : forall al,
                (s_just_created_item_from_dashes st' = true -> al = true) ->
                one_echo_per_title al
                  (if two
                   then match rest with
                        | [] => []
                        | _ :: rest' =>
                            simple_trace (py "PRODUCTS") st' rest'
                        end
                   else simple_trace (py "PRODUCTS") st' rest) = true).
      { intros al Hal. destruct two.
        - destruct rest as [|r rest']; [reflexivity|].
          apply IH; [simpl in Hn; lia | exact Hal].
        - apply IH; [lia | exact Hal]. }
      destruct (opens_title raw (hd_error rest)) eqn:Eo.
      + apply Ht. reflexivity.
      + destruct (swallowed (st, raw, hd_error rest)) eqn:Esw.
        * destruct (Hsw eq_refl) as [H1 H2]. rewrite (Ha H1). cbn [andb].
          apply Ht. rewrite H2. discriminate.
        * apply Ht. intros H'. apply Ha. exact (Har eq_refl H'). }
  intros st allowed Ha.
  exact (H (length lines) lines (Nat.le_refl _) st allowed Ha).
Qed.

(** C7 (amended).  In PRODUCTS, on a line that is neither blank nor a
    delimiter: a line underlined by more than ten dashes opens a titled
    item and arms the suppression; on any other such line, when the
    suppression is armed, a line that starts with [**[] and ends with [**]
    is swallowed, leaving the item as it was, and disarms it; a line that
    does not start with [**[] disarms it and is ordinary content; once it is
    disarmed every line is ordinary content; and every line that is not
    swallowed in this way is ordinary content.  Over a whole section, whose
    parse ends in the state its last iteration gives, at most one line is
    swallowed for each title: a swallowed line has a title line before it
    with no other swallowed line in between. *)
Theorem products_bold_echo :
  (forall (st : simple_state) (raw : pystr) (next : option pystr),
     nonempty (strip raw) = true ->
     is_delimiter (strip raw) = false ->
     (dash_underline 10 next = true ->
      simple_step (py "PRODUCTS") st raw next
      = (mksimple (simple_finalize (s_items st) (s_current_item st))
                  (Some (mkitem (Some (strip raw)) [] None)) true, true))
     /\ (dash_underline 10 next = false ->
         s_just_created_item_from_dashes st = true ->
         startswith (strip raw) (py "**[") = true ->
         endswith (strip raw) (py "**") = true ->
         simple_step (py "PRODUCTS") st raw next
         = (mksimple (s_items st) (s_current_item st) false, false))
     /\ (dash_underline 10 next = false ->
         startswith (strip raw) (py "**[") = false ->
         simple_step (py "PRODUCTS") st raw next
         = (mksimple (s_items st) (as_content st (strip raw)) false, false))
     /\ (dash_underline 10 next = false ->
         s_just_created_item_from_dashes st = false ->
         simple_step (py "PRODUCTS") st raw next
         = (mksimple (s_items st) (as_content st (strip raw)) false, false))
     /\ (dash_underline 10 next = false ->
         s_just_created_item_from_dashes st
         && startswith (strip raw) (py "**[")
         && endswith (strip raw) (py "**") = false ->
         s_items (fst (simple_step (py "PRODUCTS") st raw next)) = s_items st
         /\ s_current_item (fst (simple_step (py "PRODUCTS") st raw next))
            = as_content st (strip raw)
         /\ snd (simple_step (py "PRODUCTS") st raw next) = false))
  /\ (forall lines : list pystr,
        simple_loop (py "PRODUCTS") (mksimple [] None false) lines
        = trace_final (py "PRODUCTS") (mksimple [] None false)
            (simple_trace (py "PRODUCTS") (mksimple [] None false) lines)
        /\ one_echo_per_title false
             (simple_trace (py "PRODUCTS") (mksimple [] None false) lines)
           = true).
Proof.
  split.
  - intros st raw next Hne Hdel.
    assert (Hp : dash_underline 10 next = false ->
                 plain_products_line raw next = true).
    { intros Hd. unfold plain_products_line. rewrite Hne, Hdel, Hd.
      reflexivity. }
    split; [|split; [|split; [|split]]].
    + intros Hd. unfold simple_step. rewrite Hne, Hdel. cbn [negb].
      change (str_eqb (py "PRODUCTS") (py "PRODUCTS")) with true. cbv iota.
      unfold products_step. rewrite Hd. reflexivity.
    + intros Hd Hf Hs He. rewrite (products_plain_step _ _ _ (Hp Hd)).
      rewrite Hf, Hs, He. reflexivity.
    + intros Hd Hs. rewrite (products_plain_step _ _ _ (Hp Hd)).
      rewrite Hs, andb_false_r. cbn [andb negb]. rewrite andb_true_r.
      destruct (s_just_created_item_from_dashes st); reflexivity.
    + intros Hd Hf. rewrite (products_plain_step _ _ _ (Hp Hd)).
      rewrite Hf. reflexivity.
    + intros Hd Hsw. rewrite (products_plain_step _ _ _ (Hp Hd)), Hsw.
      repeat split.
  - intros lines. split.
    + apply simple_loop_trace.
    + apply one_echo_per_title_run. discriminate.
Qed.

Lemma products_bold_echo_witness :
  simple_step (py "PRODUCTS") (after_title "Title") (py "**[Echo](u)**") None
  = (mksimple [] (Some (mkitem (Some (py "Title")) [] None)) false, false).
Proof.
  exact (proj1 (proj2 (proj1 products_bold_echo (after_title "Title")
                         (py "**[Echo](u)**") None eq_refl eq_refl))
           eq_refl eq_refl eq_refl eq_refl).
Defined.

(** C7 as stated fails: a bold-wrapped line that is not a link, right
    after the title, is not swallowed but becomes the description. *)
Lemma products_plain_bold_kept :
  ~ (forall (st : simple_state) (raw : pystr) (next : option pystr),
        s_just_created_item_from_dashes st = true ->
        dash_underline 10 next = false ->
        startswith (strip raw) (py "**") = true ->
        endswith (strip raw) (py "**") = true ->
        s_current_item (fst (simple_step (py "PRODUCTS") st raw next))
        = s_current_item st).
Proof.
  intros H.
  specialize (H (after_title "Title") (py "**Echo**") None
                eq_refl eq_refl eq_refl eq_refl).
  vm_compute in H. discriminate H.
Qed.

(** On a whole section: the bold link after the title is dropped, the
    second bold link is content. *)
Example products_two_bold_links :
  parse_simple_section
    (text_of ["Title"; "-----------"; "**[Echo](u)**"; "**[Next](v)**"]%string)
    (py "PRODUCTS")
  = [mkitem (Some (py "Title")) (py "**Next**") (Some (py "v"))].
Proof. vm_compute. reflexivity. Qed.

(** A line that starts with [**[] without ending in [**] is content and
    leaves the suppression armed: the bold link after it is dropped. *)
Example products_suppression_kept :
  parse_simple_section
    (text_of ["Title"; "-----------"; "**[a](b)** more";
              "**[c](d)**"]%string)
    (py "PRODUCTS")
  = [mkitem (Some (py "Title")) (py "**a** more") (Some (py "b"))].
Proof. vm_compute. reflexivity. Qed.

(** ** Line shapes *)

Lemma startswith_app (s p : pystr) :
  startswith s p = true <-> exists r, s = p ++ r.
Proof.
  revert s; induction p as [|c p IH]; intros s; simpl.
  - split; [intros _; exists s; reflexivity | reflexivity].
  - destruct s as [|d s]; [split; [discriminate | intros [r [=]]]|].
    rewrite andb_true_iff, N.eqb_eq, IH. split.
    + intros [-> [r ->]]; exists r; reflexivity.
    + intros [r [= -> ->]]; split; [reflexivity | exists r; reflexivity].
Qed.

Lemma index_of_eq (sub s : pystr) :
  index_of sub s
  = if startswith s sub then Some 0%nat
    else match s with
         | [] => None
         | _ :: s' => option_map S (index_of sub s')
         end.
Proof. destruct s; reflexivity. Qed.

Lemma contains_app (sub a b : pystr) : contains sub (a ++ sub ++ b) = true.
Proof.
  unfold contains.
  induction a as [|c a IH]; rewrite index_of_eq.
  - replace (startswith ([] ++ sub ++ b) sub) with true; [reflexivity|].
    symmetry; apply startswith_app; exists b; reflexivity.
  - destruct (startswith ((c :: a) ++ sub ++ b) sub); [reflexivity|].
    revert IH. simpl.
    destruct (index_of sub _); [reflexivity | discriminate].
Qed.

Lemma lstrip_snoc (a : pystr) (c : char) :
  isspace c = false -> exists x, lstrip (a ++ [c]) = x ++ [c].
Proof.
  intros Hc; induction a as [|h a IH]; simpl.
  - rewrite Hc; exists []; reflexivity.
  - destruct (isspace h); [exact IH | exists (h :: a); reflexivity].
Qed.

Lemma strip_cons_nonspace (c : char) (s : pystr) :
  isspace c = false -> exists t, strip (c :: s) = c :: t.
Proof.
  intros Hc. unfold strip, rstrip. simpl lstrip. rewrite Hc. simpl rev.
  destruct (lstrip_snoc (rev s) c Hc) as [x ->].
  exists (rev x). rewrite rev_app_distr. reflexivity.
Qed.

Lemma pyslice_2 (a b : char) (t : pystr) : pyslice 2 None (a :: b :: t) = t.
Proof.
  unfold pyslice, clamp_index. cbn [length].
  change (2 <? 0)%Z with false. cbv iota.
  rewrite Z.min_l by lia.
  change (Z.to_nat 2) with 2%nat. cbn [skipn].
  replace (Z.to_nat (Z.of_nat (S (S (length t))) - 2)) with (length t) by lia.
  apply firstn_all.
Qed.

Lemma is_bullet_head (line : pystr) :
  is_bullet line = true ->
  exists s, line = bullet :: s \/ line = ch "*" :: s.
Proof.
  unfold is_bullet. destruct line as [|c s]; [discriminate|].
  simpl. rewrite !andb_true_r, orb_true_iff, !N.eqb_eq.
  intros [-> | ->]; exists s; auto.
Qed.

Lemma dash_underline_line (n : nat) (next : option pystr) :
  dash_line next = false -> dash_underline n next = false.
Proof.
  unfold dash_line, dash_underline. destruct next; [|reflexivity].
  intros ->. reflexivity.
Qed.

(** A line that opens and closes a bold run is an item header. *)
Lemma item_header_bold (mid rest : pystr) :
  item_header (py "**" ++ mid ++ py "**" ++ rest) <> None.
Proof.
  unfold item_header.
  change (py "**" ++ mid ++ py "**" ++ rest)
    with (ch "*" :: ch "*" :: mid ++ py "**" ++ rest).
  cbn [startswith].
  change (N.eqb (ch "*") 35) with false. cbn [andb].
  change (N.eqb (ch "*") 42) with true. cbn [andb].
  rewrite pyslice_2, contains_app.
  destruct (endswith _ _); discriminate.
Qed.

Lemma item_header_none_labels (line : pystr) :
  item_header line = None ->
  startswith line (py "**Authors:**") = false
  /\ startswith line (py "**Institution:**") = false.
Proof.
  intros H; split.
  - destruct (startswith line (py "**Authors:**")) eqn:E; [|reflexivity].
    apply startswith_app in E. destruct E as [r ->].
    exfalso. exact (item_header_bold (py "Authors:") r H).
  - destruct (startswith line (py "**Institution:**")) eqn:E; [|reflexivity].
    apply startswith_app in E. destruct E as [r ->].
    exfalso. exact (item_header_bold (py "Institution:") r H).
Qed.

(** ** Bullet lines in categorized sections *)

Section Bullets.
Variable lower : pystr -> pystr.
Variable digit : char -> option Z.

Lemma find_none_all {A : Type} (f : A -> bool) (l : list A) :
  (forall x, f x = false) -> List.find f l = None.
Proof.
  intros H; induction l as [|x l IH]; simpl; [reflexivity|].
  rewrite H; exact IH.
Qed.

Lemma header_step_silent (section_name : pystr) (st : cat_state)
    (line : pystr) (next : option pystr) (table : dict (list pystr)) :
  dict_lookup section_name subcategory_mapping = Ok table ->
  startswith line (py "##") = false ->
  startswith line (py "###") = false ->
  dash_line next = false ->
  header_step lower section_name st line next = Ok None.
Proof.
  intros Ht H2 H3 Hd. unfold header_step. rewrite Ht. cbn [bind].
  rewrite find_none_all; [reflexivity|].
  intros k. rewrite H2, H3, (dash_underline_line 5 next Hd).
  apply andb_false_r.
Qed.

Lemma business_redirect_silent (st : cat_state) (line : pystr)
    (next : option pystr) :
  dash_line next = false -> business_redirect_step lower st line next = None.
Proof.
  intros Hd. unfold business_redirect_step.
  rewrite Hd, !andb_false_r. reflexivity.
Qed.

(** What a bullet line starts with, and what it therefore is not. *)
Lemma bullet_line_shape (line : pystr) :
  is_bullet line = true ->
  nonempty line = true
  /\ startswith line (py "##") = false
  /\ startswith line (py "###") = false
  /\ startswith line (py "[") = false
  /\ str_in (strip line) business_subcategory_names = false.
Proof.
  intros H. destruct (is_bullet_head line H) as [s [-> | ->]].
  - destruct (strip_cons_nonspace bullet s eq_refl) as [t ->].
    repeat split; reflexivity.
  - destruct (strip_cons_nonspace (ch "*") s eq_refl) as [t ->].
    repeat split; reflexivity.
Qed.

(** After the RESEARCH rules and the headers, a bullet line reaches the
    bullet rule. *)
Lemma general_step_bullet (section_name : pystr) (st : cat_state)
    (line : pystr) (next : option pystr) (table : dict (list pystr)) :
  dict_lookup section_name subcategory_mapping = Ok table ->
  is_bullet line = true ->
  item_header line = None ->
  dash_line next = false ->
  general_step lower section_name st line next
  = bullet_step lower section_name st line.
Proof.
  intros Ht Hb Hh Hd.
  destruct (bullet_line_shape line Hb) as (_ & H2 & H3 & _ & Hn).
  unfold general_step.
  rewrite (header_step_silent section_name st line next table Ht H2 H3 Hd).
  cbn [bind].
  rewrite business_redirect_silent by exact Hd.
  unfold technology_noise. rewrite H2, H3. cbn [orb andb].
  rewrite (dash_underline_line 10 next Hd), !andb_false_r.
  rewrite Hh, Hn, andb_false_r, Hb.
  destruct (str_eqb section_name (py "BUSINESS")); reflexivity.
Qed.

(** C6 (amended).  A bullet line (leading bullet or asterisk) that is not a
    delimiter, not a bold header and not followed by a dash line: in
    BUSINESS it extends the open item and opens none when an item is open,
    and opens a new description-only item when none is; in TECHNOLOGY it
    finalises the previous item and opens a new description-only item,
    classified by keyword when no subcategory is set; in RESEARCH, away from
    the "paper of the day" and "notable research" lines, it is appended
    whole to the open item when there is one, and opens a new item as in
    TECHNOLOGY when there is none. *)
Theorem bullet_lines (st : cat_state) (raw : pystr) (next : option pystr) :
  is_bullet (strip raw) = true ->
  is_delimiter (strip raw) = false ->
  item_header (strip raw) = None ->
  dash_line next = false ->
  (forall it, c_current_item st = Some it ->
     cat_step lower digit (py "BUSINESS") st raw next
     = bullet_extends st it (bullet_text (strip raw)))
  /\ (c_current_item st = None ->
      cat_step lower digit (py "BUSINESS") st raw next
      = bullet_opens lower (py "BUSINESS") st (bullet_text (strip raw)))
  /\ cat_step lower digit (py "TECHNOLOGY") st raw next
     = bullet_opens lower (py "TECHNOLOGY") st (bullet_text (strip raw))
  /\ (contains (py "paper of the day") (lower (strip raw)) = false ->
      contains (py "notable research") (lower (strip raw)) = false ->
      (forall it, c_current_item st = Some it ->
         cat_step lower digit (py "RESEARCH") st raw next
         = Ok (mkcat (c_result st) (c_current_subcategory st)
                     (Some (add_description it (strip raw))), false))
      /\ (c_current_item st = None ->
          cat_step lower digit (py "RESEARCH") st raw next
          = bullet_opens lower (py "RESEARCH") st (bullet_text (strip raw)))).
Proof.
  intros Hb Hdel Hh Hd.
  destruct (bullet_line_shape _ Hb) as (Hne & _ & _ & Hbr & _).
  destruct (item_header_none_labels _ Hh) as [Ha Hi].
  unfold cat_step. rewrite Hne, Hdel. cbv beta iota zeta. simpl negb.
  cbv iota.
  split; [|split; [|split; [|intros Hpod Hnr; split]]].
  - intros it Hit.
    change (str_eqb (py "BUSINESS") (py "RESEARCH")) with false. cbv iota.
    rewrite (general_step_bullet (py "BUSINESS") st _ next _ eq_refl Hb Hh Hd).
    unfold bullet_step, bullet_extends, bullet_text.
    change (str_eqb (py "BUSINESS") (py "BUSINESS")) with true. cbv iota.
    rewrite Hit. reflexivity.
  - intros Hit.
    change (str_eqb (py "BUSINESS") (py "RESEARCH")) with false. cbv iota.
    rewrite (general_step_bullet (py "BUSINESS") st _ next _ eq_refl Hb Hh Hd).
    unfold bullet_step, bullet_opens, bullet_text.
    change (str_eqb (py "BUSINESS") (py "BUSINESS")) with true. cbv iota.
    rewrite Hit. reflexivity.
  - change (str_eqb (py "TECHNOLOGY") (py "RESEARCH")) with false. cbv iota.
    rewrite (general_step_bullet (py "TECHNOLOGY") st _ next _ eq_refl
               Hb Hh Hd).
    unfold bullet_step, bullet_opens, bullet_text.
    change (str_eqb (py "TECHNOLOGY") (py "BUSINESS")) with false.
    reflexivity.
  - intros it Hit.
    change (str_eqb (py "RESEARCH") (py "RESEARCH")) with true. cbv iota.
    unfold research_step.
    rewrite Hpod, Hnr, Hbr, Ha, Hi, Hit, Hne. reflexivity.
  - intros Hit.
    change (str_eqb (py "RESEARCH") (py "RESEARCH")) with true. cbv iota.
    unfold research_step.
    rewrite Hpod, Hnr, Hbr, Ha, Hi, Hit. cbn [orb andb].
    rewrite (general_step_bullet (py "RESEARCH") st _ next _ eq_refl Hb Hh Hd).
    unfold bullet_step, bullet_opens, bullet_text.
    change (str_eqb (py "RESEARCH") (py "BUSINESS")) with false.
    reflexivity.
Qed.

End Bullets.

Lemma bullet_lines_witness :
  cat_step lower_ascii digit_ascii (py "TECHNOLOGY")
    (start_state (py "TECHNOLOGY")) (bullet :: py " New model released") None
  = bullet_opens lower_ascii (py "TECHNOLOGY")
      (start_state (py "TECHNOLOGY"))
      (bullet_text (strip (bullet :: py " New model released"))).
Proof.
  exact (proj1 (proj2 (proj2
    (bullet_lines lower_ascii digit_ascii (start_state (py "TECHNOLOGY"))
       (bullet :: py " New model released") None
       eq_refl eq_refl eq_refl eq_refl)))).
Defined.

(** C6 as stated fails twice: in BUSINESS a bullet line opens an item when
    none is open, and in RESEARCH a bullet line is absorbed by the open
    item instead of opening a new one. *)
Lemma bullet_lines_as_stated_fail :
  ~ (forall (st st' : cat_state) (raw : pystr) (next : option pystr)
            (two : bool),
        is_bullet (strip raw) = true ->
        cat_step lower_ascii digit_ascii (py "BUSINESS") st raw next
        = Ok (st', two) ->
        c_current_item st = None -> c_current_item st' = None)
  /\ ~ (forall (st st' : cat_state) (raw : pystr) (next : option pystr)
               (two : bool),
          is_bullet (strip raw) = true ->
          cat_step lower_ascii digit_ascii (py "RESEARCH") st raw next
          = Ok (st', two) ->
          c_current_item st'
          = Some (mkitem None (sub_links (bullet_text (strip raw)))
                         (extract_link_from_text (bullet_text (strip raw))))).
Proof.
  split.
  - intros H.
    specialize (H (start_state (py "BUSINESS"))
                  (mkcat (c_result (start_state (py "BUSINESS")))
                         (Some (py "Company Updates"))
                         (Some (mkitem None (py "foo") None)))
                  (bullet :: py " foo") None false eq_refl eq_refl eq_refl).
    discriminate H.
  - intros H.
    specialize (H (mkcat (c_result (start_state (py "RESEARCH")))
                         (Some (py "Paper of the Week"))
                         (Some (mkitem (Some (py "P")) [] (Some (py "u")))))
                  (mkcat (c_result (start_state (py "RESEARCH")))
                         (Some (py "Paper of the Week"))
                         (Some (mkitem (Some (py "P")) (bullet :: py " foo")
                                       (Some (py "u")))))
                  (bullet :: py " foo") None false eq_refl eq_refl).
    vm_compute in H. discriminate H.
Qed.

(** On whole sections: a lone bullet in BUSINESS becomes an item of the
    default subcategory; a bullet after a RESEARCH paper joins its
    description. *)
Example business_lone_bullet :
  parse_categorized_section lower_ascii digit_ascii (bullet :: py " foo")
    (py "BUSINESS")
  = Ok [ (py "Funding & Investment", []);
         (py "Company Updates", [mkitem None (py "foo") None]);
         (py "Regulatory Developments", []);
         (py "Market Trends", []) ].
Proof. vm_compute. reflexivity. Qed.

Example research_bullet_absorbed :
  parse_categorized_section lower_ascii digit_ascii
    (py "[P](u)" ++ [newline] ++ bullet :: py " foo") (py "RESEARCH")
  = Ok [ (py "Paper of the Week",
          [mkitem (Some (py "P")) (bullet :: py " foo") (Some (py "u"))]);
         (py "Notable Research", []) ].
Proof. vm_compute. reflexivity. Qed.

(** ** Dictionaries *)

Lemma str_eqb_sym (a b : pystr) : str_eqb a b = str_eqb b a.
Proof.
  destruct (str_eqb a b) eqn:E.
  - apply str_eqb_eq in E; subst; symmetry; apply str_eqb_refl.
  - symmetry; apply str_eqb_neq; apply str_eqb_neq in E; congruence.
Qed.

Lemma dict_mem_keys {V : Type} (k : pystr) (d : dict V) :
  dict_mem k d = str_in k (dict_keys d).
Proof.
  unfold dict_mem, str_in, dict_keys.
  induction d as [|[k' v] d IH]; simpl; [reflexivity|].
  destruct (str_eqb k k'); [reflexivity | exact IH].
Qed.

Lemma dict_keys_set {V : Type} (k : pystr) (v : V) (d : dict V) :
  dict_mem k d = true -> dict_keys (dict_set k v d) = dict_keys d.
Proof.
  unfold dict_mem, dict_keys.
  induction d as [|[k' v'] d IH]; simpl; [discriminate|].
  destruct (str_eqb k k'); simpl; [reflexivity|].
  intros H; rewrite IH by exact H; reflexivity.
Qed.

Lemma dict_get_set_same {V : Type} (k : pystr) (v : V) (d : dict V) :
  dict_get k (dict_set k v d) = Some v.
Proof.
  induction d as [|[k' v'] d IH]; simpl.
  - rewrite str_eqb_refl; reflexivity.
  - destruct (str_eqb k k') eqn:E; simpl; rewrite E; [reflexivity | exact IH].
Qed.


(** ** Lines of a text *)

Lemma split_on_line (sep : char) (x : pystr) :
  ~ In sep x -> split_on sep x = [x].
Proof.
  induction x as [|c x IH]; intros H; [reflexivity|].
  simpl. destruct (N.eqb c sep) eqn:E.
  - apply N.eqb_eq in E. subst c. exfalso; apply H; left; reflexivity.
  - rewrite IH; [reflexivity|]. intros Hin; apply H; right; exact Hin.
Qed.

Lemma split_on_app (sep : char) (x t : pystr) :
  ~ In sep x -> split_on sep (x ++ sep :: t) = x :: split_on sep t.
Proof.
  induction x as [|c x IH]; intros H.
  - simpl. rewrite N.eqb_refl. reflexivity.
  - simpl. destruct (N.eqb c sep) eqn:E.
    + apply N.eqb_eq in E. subst c. exfalso; apply H; left; reflexivity.
    + rewrite IH; [reflexivity|]. intros Hin; apply H; right; exact Hin.
Qed.

(** Splitting a text made of lines gives the lines back. *)
Lemma split_on_join (sep : char) (lines : list pystr) :
  lines <> [] -> Forall (fun l => ~ In sep l) lines ->
  split_on sep (join [sep] lines) = lines.
Proof.
  induction lines as [|x rest IH]; [congruence|].
  intros _ H. inversion H as [|? ? Hx Hrest]; subst.
  destruct rest as [|y rest].
  - simpl. apply split_on_line; exact Hx.
  - change (join [sep] (x :: y :: rest))
      with (x ++ sep :: join [sep] (y :: rest)).
    rewrite split_on_app by exact Hx.
    rewrite IH; [reflexivity | discriminate | exact Hrest].
Qed.

Lemma split_sections_lines (lines : list pystr) :
  lines <> [] -> Forall (fun l => ~ In newline l) lines ->
  split_sections (join [newline] lines) = sections_of_lines lines.
Proof.
  intros Hne H. unfold split_sections. rewrite split_on_join; auto.
Qed.

(** ** The section splitter *)

Section Splitter.

(** The section name under study: one of the five. *)
Variable name : pystr.
Hypothesis name_known : str_in name (dict_keys sections0) = true.

Lemma name_nonempty : nonempty name = true.
Proof.
  apply str_in_In in name_known.
  repeat (destruct name_known as [<- | name_known]; [reflexivity|]).
  destruct name_known.
Qed.

Lemma save_section_keys (st : split_state) :
  keys_ok st -> dict_keys (save_section st) = dict_keys sections0.
Proof.
  unfold keys_ok, save_section, section_open; intros H.
  destruct (m_current_section st) as [k|]; [|exact H].
  destruct (nonempty k); [|exact H]. simpl.
  destruct (dict_mem k (m_sections st)) eqn:E; [|exact H].
  rewrite dict_keys_set by exact E. exact H.
Qed.

Lemma split_step_keys (st : split_state) (line : pystr) :
  keys_ok st -> keys_ok (fst (split_step st line)).
Proof.
  intros H. unfold split_step.
  repeat match goal with
         | |- context [if ?b then _ else _] => destruct b
         | |- context [match section_open ?s with _ => _ end] =>
             destruct (section_open s)
         end; simpl; try exact H; apply save_section_keys; exact H.
Qed.

Lemma split_loop_keys (lines : list pystr) (st : split_state) :
  keys_ok st -> keys_ok (split_loop st lines).
Proof.
  revert st; induction lines as [|l lines IH]; intros st H; [exact H|].
  simpl. pose proof (split_step_keys st l H) as H'.
  destruct (split_step st l) as [st' stop]; simpl in H'.
  destruct stop; [exact H' | apply IH; exact H'].
Qed.

(** A line that does not begin with the terminal marker does not stop the
    scan. *)
Lemma split_step_continues (st : split_state) (line : pystr) :
  startswith (strip line) (py "LOOKING AHEAD") = false ->
  snd (split_step st line) = false.
Proof.
  intros H. unfold split_step. rewrite H.
  repeat match goal with
         | |- context [if ?b then _ else _] => destruct b
         end; reflexivity.
Qed.

Lemma split_loop_app (pre rest : list pystr) (st : split_state) :
  forallb (fun l => negb (startswith (strip l) (py "LOOKING AHEAD"))) pre
  = true ->
  split_loop st (pre ++ rest) = split_loop (split_loop st pre) rest.
Proof.
  revert st; induction pre as [|l pre IH]; intros st H; [reflexivity|].
  simpl in H. apply andb_true_iff in H. destruct H as [Hl Hpre].
  apply negb_true_iff in Hl.
  simpl. pose proof (split_step_continues st l Hl) as Hs.
  destruct (split_step st l) as [st' stop]; simpl in Hs; subst stop.
  apply IH; exact Hpre.
Qed.

Lemma open_name (st : split_state) :
  keys_ok st -> m_current_section st = Some name ->
  section_open st = Some name.
Proof.
  intros K Hc. unfold section_open. rewrite Hc, name_nonempty.
  rewrite dict_mem_keys, K, name_known. reflexivity.
Qed.


Lemma save_section_open (st : split_state) :
  keys_ok st -> m_current_section st = Some name ->
  dict_get name (save_section st)
  = Some (strip (join [newline] (m_section_content st))).
Proof.
  intros K Hc. unfold save_section. rewrite (open_name st K Hc).
  apply dict_get_set_same.
Qed.

(** Content lines are collected in order. *)
Lemma content_loop (post : list pystr) (st : split_state) :
  keys_ok st -> m_current_section st = Some name ->
  forallb content_line post = true ->
  exists flag,
    split_loop st post
    = mksplit (m_sections st) (Some name) (m_section_content st ++ post) flag.
Proof.
  revert st; induction post as [|l post IH]; intros st K Hc H.
  - exists (m_skip_next_dashes st). simpl. rewrite app_nil_r.
    destruct st; simpl in *; subst; reflexivity.
  - simpl in H. apply andb_true_iff in H. destruct H as [Hl Hpost].
    unfold content_line in Hl.
    apply andb_true_iff in Hl. destruct Hl as [Hl Hd].
    apply andb_true_iff in Hl. destruct Hl as [Hh Ht].
    apply negb_true_iff in Hh, Ht, Hd.
    cbn [split_loop]. unfold split_step.
    rewrite K, Hh, Ht, (open_name st K Hc), Hc.
    replace (m_skip_next_dashes st && nonempty (strip l)
             && all_dashes (strip l)) with false
      by (rewrite <- andb_assoc, Hd, andb_false_r; reflexivity).
    cbn [truthy]. rewrite name_nonempty.
    destruct (str_eqb (strip l) (py "* * *")).
    + destruct (IH (mksplit (m_sections st) (Some name)
                      (m_section_content st ++ [l]) (m_skip_next_dashes st))
                   K eq_refl Hpost) as [flag Hf].
      exists flag. rewrite Hf. simpl. rewrite <- app_assoc. reflexivity.
    + destruct (IH (mksplit (m_sections st) (Some name)
                      (m_section_content st ++ [l]) false)
                   K eq_refl Hpost) as [flag Hf].
      exists flag. rewrite Hf. simpl. rewrite <- app_assoc. reflexivity.
Qed.








End Splitter.



(** The text there is the one collected before the marker. *)
Example repeated_header_after_marker_text :
  dict_get (py "HIGHLIGHTS")
    (sections_of_lines
       (map py ["HIGHLIGHTS"; "a"; "LOOKING AHEAD"; "HIGHLIGHTS";
                "b"]%string))
  = Some (py "a").
Proof. vm_compute. reflexivity. Qed.

(** ** The link pattern *)

Lemma span_app (p : char -> bool) (s a b : pystr) :
  span p s = (a, b) -> s = a ++ b.
Proof.
  revert a b; induction s as [|c s IH]; simpl; intros a b.
  - intros [= <- <-]; reflexivity.
  - destruct (p c).
    + destruct (span p s) as [a' b']. intros [= <- <-].
      rewrite (IH a' b' eq_refl); reflexivity.
    + intros [= <- <-]; reflexivity.
Qed.

(** A match has a non-empty text and target, and consumes characters. *)
Lemma match_link_some (s text url rest : pystr) :
  match_link s = Some (text, url, rest) ->
  text <> [] /\ url <> [] /\ (length rest < length s)%nat.
Proof.
  unfold match_link. destruct s as [|c s1]; [discriminate|].
  destruct (N.eqb c (ch "[")); [|discriminate].
  destruct (span _ s1) as [t s2] eqn:E1. apply span_app in E1. subst s1.
  destruct t as [|t0 t]; [discriminate|].
  destruct s2 as [|rb [|lp s3]]; try discriminate.
  destruct (_ && _); [|discriminate].
  destruct (span _ s3) as [u s4] eqn:E2. apply span_app in E2. subst s3.
  destruct u as [|u0 u]; [discriminate|].
  destruct s4 as [|rp s5]; [discriminate|].
  destruct (N.eqb rp (ch ")")); [|discriminate].
  intros [= <- <- <-].
  split; [discriminate|]. split; [discriminate|].
  simpl. rewrite !length_app. simpl. rewrite !length_app. simpl. lia.
Qed.

(** The scan never runs out of steps. *)
Lemma sub_links_fuel_enough (n m : nat) (s : pystr) :
  (length s <= n)%nat -> (length s <= m)%nat ->
  sub_links_fuel n s = sub_links_fuel m s.
Proof.
  revert m s; induction n as [|n IH]; intros m s Hn Hm.
  - destruct s; [|simpl in Hn; lia].
    destruct m; reflexivity.
  - destruct m as [|m].
    + destruct s; [reflexivity | simpl in Hm; lia].
    + simpl. destruct (match_link s) as [[[text url] rest]|] eqn:E.
      * apply match_link_some in E. destruct E as (_ & _ & Hlen).
        f_equal. apply IH; lia.
      * destruct s as [|c s']; [reflexivity|].
        simpl in Hn, Hm. f_equal. apply IH; lia.
Qed.

(** [sub_links] obeys the equation of the left-to-right replacement. *)
Lemma sub_links_eq (s : pystr) :
  sub_links s
  = match match_link s with
    | Some (text, _, rest) => text ++ sub_links rest
    | None =>
        match s with
        | [] => []
        | c :: s' => c :: sub_links s'
        end
    end.
Proof.
  unfold sub_links. destruct s as [|c s'].
  - reflexivity.
  - cbn [length sub_links_fuel].
    destruct (match_link (c :: s')) as [[[text url] rest]|] eqn:E.
    + apply match_link_some in E. destruct E as (_ & _ & Hlen).
      simpl in Hlen. f_equal. apply sub_links_fuel_enough; lia.
    + reflexivity.
Qed.

(** Replacing links never empties a string. *)
Lemma sub_links_nil (s : pystr) : sub_links s = [] -> s = [].
Proof.
  rewrite sub_links_eq.
  destruct (match_link s) as [[[text url] rest]|] eqn:E.
  - apply match_link_some in E. destruct E as (Ht & _).
    destruct text; [contradiction | discriminate].
  - destruct s; [reflexivity | discriminate].
Qed.

(** ** Item normalisation *)

Lemma nonempty_true (s : pystr) : nonempty s = true <-> s <> [].
Proof. destruct s; simpl; split; congruence. Qed.

Lemma clean_item_some (it c : item) :
  clean_item it = Some c -> description c <> [] /\ title c <> Some [].
Proof.
  unfold clean_item.
  destruct (nonempty (sub_links (strip (description it)))) eqn:Ed;
    destruct (nonempty (get_title it)) eqn:Et; simpl;
    try discriminate; intros [= <-]; simpl.
  - apply nonempty_true in Ed. rewrite Et. split; [exact Ed|].
    intros [= E]. rewrite E in Et. discriminate.
  - apply nonempty_true in Ed. rewrite Et. split; [exact Ed | discriminate].
  - apply nonempty_true in Et. split; [exact Et | discriminate].
Qed.

(** An item without title or description text is dropped. *)
Lemma clean_item_empty (it : item) :
  sub_links (get_title it) = [] -> sub_links (description it) = [] ->
  clean_item it = None.
Proof.
  intros Ht Hd. apply sub_links_nil in Ht, Hd.
  unfold clean_item. rewrite Ht, Hd. reflexivity.
Qed.

Lemma clean_items_app (l1 l2 : list item) :
  clean_items (l1 ++ l2) = clean_items l1 ++ clean_items l2.
Proof.
  induction l1 as [|it l1 IH]; simpl; [reflexivity|].
  destruct (clean_item it); simpl; rewrite IH; reflexivity.
Qed.

Lemma clean_items_ok (l : list item) (c : item) :
  In c (clean_items l) -> description c <> [] /\ title c <> Some [].
Proof.
  induction l as [|it l IH]; simpl; [intros []|].
  destruct (clean_item it) as [c'|] eqn:E; [|exact IH].
  intros [<- | H]; [exact (clean_item_some it c' E) | exact (IH H)].
Qed.

(** ** The categorized parser returns *)

Section Categorized.
Variable lower : pystr -> pystr.
Variable digit : char -> option Z.

Lemma categorized_cases (section_name : pystr) :
  categorized section_name = true ->
  section_name = py "BUSINESS" \/ section_name = py "TECHNOLOGY"
  \/ section_name = py "RESEARCH".
Proof.
  unfold categorized. rewrite str_in_In. simpl.
  intros [H | [H | [H | []]]]; auto.
Qed.

Lemma all_lists_set (k : pystr) (l : list item) (r : dict rvalue) :
  all_lists r -> all_lists (dict_set k (RList l) r).
Proof.
  unfold all_lists. induction r as [|[k' v] r IH]; simpl; intros H.
  - constructor; [exists l; reflexivity | constructor].
  - inversion H as [|? ? Hv Hr]; subst.
    destruct (str_eqb k k').
    + constructor; [exists l; reflexivity | exact Hr].
    + constructor; [exact Hv | exact (IH Hr)].
Qed.

Lemma all_lists_get (k : pystr) (v : rvalue) (r : dict rvalue) :
  all_lists r -> dict_get k r = Some v -> exists l, v = RList l.
Proof.
  unfold all_lists. induction r as [|[k' v'] r IH]; simpl; [discriminate|].
  intros H. inversion H as [|? ? Hv Hr]; subst.
  destruct (str_eqb k k'); [intros [= <-]; exact Hv | exact (IH Hr)].
Qed.

Lemma result_append_wf (keys : list pystr) (r : dict rvalue) (k : pystr)
    (it : item) :
  dict_keys r = keys -> all_lists r -> str_in k keys = true ->
  exists r', result_append k it r = Ok r'
             /\ dict_keys r' = keys /\ all_lists r'.
Proof.
  intros Hk Hl Hin. unfold result_append, dict_lookup.
  assert (Hm : dict_mem k r = true) by (rewrite dict_mem_keys, Hk; exact Hin).
  unfold dict_mem in Hm.
  destruct (dict_get k r) as [v|] eqn:E; [|discriminate].
  destruct (all_lists_get k v r Hl E) as [l ->]. cbn [bind].
  eexists; split; [reflexivity|]. split.
  - rewrite dict_keys_set; [exact Hk|]. unfold dict_mem; rewrite E; reflexivity.
  - apply all_lists_set; exact Hl.
Qed.

Lemma flush_append_wf (section_name : pystr) (st : cat_state) :
  cat_wf section_name st ->
  exists r', flush_append st = Ok r'
             /\ dict_keys r' = section_keys section_name /\ all_lists r'.
Proof.
  intros (Hk & Hl & Hs). unfold flush_append.
  destruct (c_current_item st) as [it|]; [|eauto].
  destruct (c_current_subcategory st) as [k|]; [|eauto].
  destruct (nonempty k); [|eauto].
  apply result_append_wf; assumption.
Qed.

Lemma flush_item_wf (section_name : pystr) (st : cat_state) :
  cat_wf section_name st ->
  (str_eqb section_name (py "RESEARCH") = true -> c_current_item st = None) ->
  exists r', flush_item section_name st = Ok r'
             /\ dict_keys r' = section_keys section_name /\ all_lists r'.
Proof.
  intros (Hk & Hl & Hs) Hr. unfold flush_item.
  destruct (c_current_item st) as [it|]; [|eauto].
  destruct (c_current_subcategory st) as [k|]; [|eauto].
  destruct (nonempty k); [|eauto].
  destruct (str_eqb section_name (py "RESEARCH"));
    [discriminate (Hr eq_refl)|].
  cbn [andb]. apply result_append_wf; assumption.
Qed.

Lemma find_fst_in {V : Type} (f : pystr * V -> bool) (d : dict V)
    (k : pystr) (v : V) :
  List.find f d = Some (k, v) -> str_in k (dict_keys d) = true.
Proof.
  intros H. apply find_some in H. destruct H as [H _].
  apply str_in_In. unfold dict_keys. apply in_map_iff.
  exists (k, v); auto.
Qed.

Lemma detect_subcategory_in (section_name text : pystr) :
  categorized section_name = true ->
  exists k, detect_subcategory lower text section_name subcategory_mapping
            = Ok k
            /\ str_in k (section_keys section_name) = true.
Proof.
  intros Hc. unfold detect_subcategory, section_keys, dict_lookup.
  destruct (categorized_cases _ Hc) as [-> | [-> | ->]].
  - change (dict_get (py "BUSINESS") subcategory_mapping)
      with (Some (snd (nth 0 subcategory_mapping ([], [])))).
    cbn [bind]. set (table := snd (nth 0 subcategory_mapping ([], []))).
    destruct (List.find _ table) as [[k kws]|] eqn:E.
    + exists k; split; [reflexivity | exact (find_fst_in _ _ _ _ E)].
    + eexists; split; reflexivity.
  - change (dict_get (py "TECHNOLOGY") subcategory_mapping)
      with (Some (snd (nth 1 subcategory_mapping ([], [])))).
    cbn [bind]. set (table := snd (nth 1 subcategory_mapping ([], []))).
    destruct (List.find _ table) as [[k kws]|] eqn:E.
    + exists k; split; [reflexivity | exact (find_fst_in _ _ _ _ E)].
    + eexists; split; reflexivity.
  - change (dict_get (py "RESEARCH") subcategory_mapping)
      with (Some (snd (nth 2 subcategory_mapping ([], [])))).
    cbn [bind]. set (table := snd (nth 2 subcategory_mapping ([], []))).
    destruct (List.find _ table) as [[k kws]|] eqn:E.
    + exists k; split; [reflexivity | exact (find_fst_in _ _ _ _ E)].
    + eexists; split; reflexivity.
Qed.

Lemma auto_subcategory_wf (section_name : pystr) (cur : option pystr)
    (text : pystr) :
  categorized section_name = true ->
  match cur with
  | Some k => str_in k (section_keys section_name) = true
  | None => True
  end ->
  exists sub, auto_subcategory lower section_name cur text = Ok sub
              /\ match sub with
                 | Some k => str_in k (section_keys section_name) = true
                 | None => True
                 end.
Proof.
  intros Hc Hcur. unfold auto_subcategory.
  destruct (truthy cur); [eauto|].
  destruct (detect_subcategory_in section_name text Hc) as (k & -> & Hk).
  cbn [bind]. eauto.
Qed.

Lemma categorized_table (section_name : pystr) :
  categorized section_name = true ->
  exists table, dict_get section_name subcategory_mapping = Some table.
Proof.
  intros Hc. destruct (categorized_cases _ Hc) as [-> | [-> | ->]];
    eexists; reflexivity.
Qed.

Lemma header_step_wf (section_name : pystr) (st : cat_state) (line : pystr)
    (next : option pystr) :
  categorized section_name = true -> cat_wf section_name st ->
  exists h, header_step lower section_name st line next = Ok h
            /\ match h with
               | Some r => cat_wf section_name (fst r)
               | None => True
               end.
Proof.
  intros Hc (Hk & Hl & Hs).
  destruct (categorized_table _ Hc) as [table Ht].
  unfold header_step, dict_lookup. rewrite Ht. cbn [bind].
  destruct (List.find _ (dict_keys table)) as [k|] eqn:E.
  - eexists; split; [reflexivity|]. simpl.
    repeat split; [exact Hk | exact Hl |].
    simpl. unfold section_keys. rewrite Ht.
    apply str_in_In. apply find_some in E. exact (proj1 E).
  - eexists; split; [reflexivity | exact I].
Qed.

Lemma business_redirect_wf (st : cat_state) (line : pystr)
    (next : option pystr) (r : cat_state * bool) :
  cat_wf (py "BUSINESS") st ->
  business_redirect_step lower st line next = Some r ->
  cat_wf (py "BUSINESS") (fst r).
Proof.
  intros (Hk & Hl & Hs). unfold business_redirect_step.
  destruct (_ && dash_line next).
  - intros [= <-]. repeat split; [exact Hk | exact Hl].
  - destruct (_ && dash_line next); [|discriminate].
    intros [= <-]. repeat split; [exact Hk | exact Hl].
Qed.

Lemma step_ok_same (section_name : pystr) (st : cat_state) (two : bool) :
  cat_wf section_name st -> step_ok section_name (Ok (st, two)).
Proof. intros H; exists st, two; auto. Qed.

(** A step that changes the open item only. *)
Lemma step_ok_item (section_name : pystr) (st : cat_state)
    (it : option item) (two : bool) :
  cat_wf section_name st ->
  step_ok section_name
    (Ok (mkcat (c_result st) (c_current_subcategory st) it, two)).
Proof. intros H; eexists _, two; split; [reflexivity | exact H]. Qed.

(** A step that finalises the open item and opens another. *)
Lemma flush_open_wf (section_name : pystr) (st : cat_state) (text : pystr)
    (it : item) (two : bool) :
  categorized section_name = true -> cat_wf section_name st ->
  (str_eqb section_name (py "RESEARCH") = true -> c_current_item st = None) ->
  step_ok section_name
    (r <- flush_item section_name st ;;
     sub <- auto_subcategory lower section_name (c_current_subcategory st)
              text ;;
     Ok (mkcat r sub (Some it), two)).
Proof.
  intros Hc Hwf Hr.
  destruct (flush_item_wf _ _ Hwf Hr) as (r' & -> & Hk' & Hl').
  destruct (auto_subcategory_wf section_name (c_current_subcategory st) text
              Hc (proj2 (proj2 Hwf))) as (sub & -> & Hsub).
  cbn [bind]. eexists _, two; split; [reflexivity|].
  repeat split; assumption.
Qed.

Lemma bullet_step_wf (section_name : pystr) (st : cat_state) (line : pystr) :
  categorized section_name = true -> cat_wf section_name st ->
  (str_eqb section_name (py "RESEARCH") = true -> c_current_item st = None) ->
  step_ok section_name (bullet_step lower section_name st line).
Proof.
  intros Hc Hwf Hr. unfold bullet_step.
  destruct (if str_eqb section_name (py "BUSINESS")
            then c_current_item st else None).
  - apply step_ok_item; exact Hwf.
  - apply flush_open_wf; assumption.
Qed.

Lemma general_step_wf (section_name : pystr) (st : cat_state) (line : pystr)
    (next : option pystr) :
  categorized section_name = true -> cat_wf section_name st ->
  (str_eqb section_name (py "RESEARCH") = true -> c_current_item st = None) ->
  step_ok section_name (general_step lower section_name st line next).
Proof.
  intros Hc Hwf Hr. unfold general_step.
  destruct (header_step_wf section_name st line next Hc Hwf)
    as (h & -> & Hh).
  cbn [bind]. destruct h as [[st1 two1]|].
  { exists st1, two1; auto. }
  destruct (str_eqb section_name (py "BUSINESS")) eqn:EB.
  - apply str_eqb_eq in EB. subst section_name.
    destruct (business_redirect_step lower st line next) as [[st1 two1]|] eqn:E.
    { exists st1, two1; split;
        [reflexivity | exact (business_redirect_wf _ _ _ _ Hwf E)]. }
    change (str_eqb (py "BUSINESS") (py "TECHNOLOGY")) with false.
    cbn [andb].
    destruct (_ && dash_underline 10 next).
    { unfold title_dashes_step. apply flush_open_wf; assumption. }
    destruct (item_header line) as [[t d]|].
    { unfold item_header_step. apply flush_open_wf; assumption. }
    destruct (str_in (strip line) business_subcategory_names);
      [apply step_ok_same; exact Hwf|].
    destruct (is_bullet line); [apply bullet_step_wf; assumption|].
    unfold content_step.
    destruct (c_current_item st); [|apply step_ok_same; exact Hwf].
    destruct (_ && _); [apply step_ok_item | apply step_ok_same]; exact Hwf.
  - destruct (_ && technology_noise lower line);
      [apply step_ok_same; exact Hwf|].
    destruct (_ && dash_underline 10 next).
    { unfold title_dashes_step. apply flush_open_wf; assumption. }
    destruct (item_header line) as [[t d]|].
    { unfold item_header_step. apply flush_open_wf; assumption. }
    cbn [andb].
    destruct (is_bullet line); [apply bullet_step_wf; assumption|].
    unfold content_step.
    destruct (c_current_item st); [|apply step_ok_same; exact Hwf].
    destruct (_ && _); [apply step_ok_item | apply step_ok_same]; exact Hwf.
Qed.

Lemma research_step_wf (st : cat_state) (line : pystr) (next : option pystr)
    (r : step_result) :
  cat_wf (py "RESEARCH") st ->
  research_step lower digit st line next = Some r ->
  step_ok (py "RESEARCH") r.
Proof.
  intros Hwf. pose proof Hwf as (Hk & Hl & Hs). unfold research_step.
  destruct (contains (py "paper of the day") (lower line)).
  { intros [= <-]. eexists _, _; split; [reflexivity|].
    repeat split; assumption. }
  destruct (contains (py "notable research") (lower line)).
  { intros [= <-].
    destruct (c_current_item st) as [it|];
      [|cbn [bind]; eexists _, _; split; [reflexivity|];
        repeat split; assumption].
    destruct (c_current_subcategory st) as [k|];
      [|cbn [bind]; eexists _, _; split; [reflexivity|];
        repeat split; assumption].
    destruct (str_eqb k (py "Paper of the Week"));
      [|cbn [bind]; eexists _, _; split; [reflexivity|];
        repeat split; assumption].
    destruct (result_append_wf _ _ k it Hk Hl Hs) as (r' & -> & Hk' & Hl').
    cbn [bind]. eexists _, _; split; [reflexivity|].
    repeat split; assumption. }
  destruct (_ && contains (py ")") line).
  { intros [= <-].
    destruct (flush_append_wf _ _ Hwf) as (r' & -> & Hk' & Hl').
    cbn [bind]. eexists _, _; split; [reflexivity|].
    repeat split; [exact Hk' | exact Hl' |]. simpl.
    destruct (c_current_subcategory st) as [k|]; simpl.
    - destruct (nonempty k); [exact Hs | reflexivity].
    - reflexivity. }
  destruct (_ || _).
  { intros [= <-]. apply step_ok_item; exact Hwf. }
  destruct (c_current_item st) as [it|]; [|discriminate].
  destruct (nonempty line); [|discriminate].
  intros [= <-]. apply step_ok_item; exact Hwf.
Qed.

(** In RESEARCH an open item absorbs every line the earlier rules leave. *)
Lemma research_step_none (st : cat_state) (line : pystr)
    (next : option pystr) :
  nonempty line = true ->
  research_step lower digit st line next = None ->
  c_current_item st = None.
Proof.
  intros Hne. unfold research_step. rewrite Hne.
  repeat match goal with
         | |- context [if ?b then _ else _] => destruct b; try discriminate
         end.
  destruct (c_current_item st); [discriminate | reflexivity].
Qed.

Lemma cat_step_wf (section_name : pystr) (st : cat_state) (raw : pystr)
    (next : option pystr) :
  categorized section_name = true -> cat_wf section_name st ->
  step_ok section_name (cat_step lower digit section_name st raw next).
Proof.
  intros Hc Hwf. unfold cat_step.
  destruct (nonempty (strip raw)) eqn:Hne;
    [|apply step_ok_same; exact Hwf].
  cbn [negb].
  destruct (is_delimiter (strip raw)); [apply step_ok_same; exact Hwf|].
  destruct (str_eqb section_name (py "RESEARCH")) eqn:ER.
  - pose proof ER as ER'. apply str_eqb_eq in ER'. subst section_name.
    destruct (research_step lower digit st (strip raw) next) as [r|] eqn:E.
    + exact (research_step_wf _ _ _ _ Hwf E).
    + apply general_step_wf; [exact Hc | exact Hwf |].
      intros _. exact (research_step_none _ _ _ Hne E).
  - apply general_step_wf; [exact Hc | exact Hwf | congruence].
Qed.

Lemma cat_loop_wf (section_name : pystr) (lines : list pystr) :
  categorized section_name = true ->
  forall st, cat_wf section_name st ->
  exists st', cat_loop lower digit section_name st lines = Ok st'
              /\ cat_wf section_name st'.
Proof.
  intros Hc.
  assert (H : forall n lines, (length lines <= n)%nat ->
            forall st, cat_wf section_name st ->
            exists st', cat_loop lower digit section_name st lines = Ok st'
                        /\ cat_wf section_name st').
  { induction n as [|n IH]; intros ls Hn st Hwf.
    - destruct ls; [exists st; auto | simpl in Hn; lia].
    - destruct ls as [|raw rest]; [exists st; auto|].
      cbn [cat_loop]. simpl in Hn.
      destruct (cat_step_wf section_name st raw (hd_error rest) Hc Hwf)
        as (st1 & two & -> & Hwf1).
      cbn [bind]. destruct two.
      + destruct rest as [|l rest']; [exists st1; auto|].
        apply IH; [simpl in Hn; lia | exact Hwf1].
      + apply IH; [lia | exact Hwf1]. }
  exact (H (length lines) lines (le_n _)).
Qed.

Lemma clean_result_total (r : dict rvalue) :
  all_lists r ->
  exists d, clean_result r = Ok d /\ dict_keys d = dict_keys r.
Proof.
  unfold all_lists. induction r as [|[k v] r IH]; intros H.
  - exists []; auto.
  - inversion H as [|? ? [l Hv] Hr]; subst. simpl in Hv; subst v.
    destruct (IH Hr) as (d & Hd & Hk).
    cbn [clean_result clean_value bind]. rewrite Hd. cbn [bind].
    eexists; split; [reflexivity|]. simpl. rewrite Hk; reflexivity.
Qed.

Lemma start_state_wf (section_name : pystr) :
  cat_wf section_name (start_state section_name).
Proof.
  unfold start_state, cat_wf, section_keys.
  destruct (dict_get section_name subcategory_mapping) as [table|]; simpl.
  - repeat split.
    + unfold dict_keys. rewrite map_map. simpl. apply map_id.
    + unfold all_lists. apply Forall_map. apply Forall_forall.
      intros k _. exists []; reflexivity.
  - repeat split. constructor.
Qed.

(** The categorized parser never raises, and returns the subcategories of
    its section in table order. *)
Lemma parse_categorized_section_total (content section_name : pystr) :
  categorized section_name = true ->
  exists d, parse_categorized_section lower digit content section_name = Ok d
            /\ dict_keys d = section_keys section_name.
Proof.
  intros Hc. destruct (categorized_table _ Hc) as [table Ht].
  pose proof (start_state_wf section_name) as Hwf0.
  unfold parse_categorized_section, dict_lookup.
  unfold start_state in Hwf0. rewrite Ht in *. cbn [bind].
  destruct (cat_loop_wf section_name (split_on newline content) Hc _ Hwf0)
    as (st & -> & Hwf).
  cbn [bind].
  destruct (flush_append_wf _ _ Hwf) as (r & -> & Hk & Hl).
  cbn [bind].
  destruct (clean_result_total r Hl) as (d & -> & Hd).
  exists d; split; [reflexivity | congruence].
Qed.

End Categorized.

(** ** The aggregator computes the aggregate *)

Section Aggregator.
Variable lower : pystr -> pystr.
Variable digit : char -> option Z.

Lemma parse_markdown_file_ok (read : pystr -> pystr) (filepath : pystr) :
  file_ok (parse_markdown_file read filepath).
Proof.
  unfold file_ok, parse_markdown_file, split_sections, sections_of_lines.
  simpl. apply save_section_keys. apply split_loop_keys. reflexivity.
Qed.

Lemma file_ok_get (f : parsed_file) (section : pystr) :
  file_ok f -> str_in section (dict_keys sections0) = true ->
  exists text, dict_get section (p_sections f) = Some text.
Proof.
  intros Hf Hs.
  assert (Hm : dict_mem section (p_sections f) = true)
    by (rewrite dict_mem_keys, Hf; exact Hs).
  unfold dict_mem in Hm.
  destruct (dict_get section (p_sections f)) as [text|]; [eauto | discriminate].
Qed.

Lemma shape_ext (hs ps : list item) (bs bs' ts ts' rs rs' : pystr -> list item) :
  (forall k, bs k = bs' k) -> (forall k, ts k = ts' k) ->
  (forall k, rs k = rs' k) ->
  shape hs bs ps ts rs = shape hs bs' ps ts' rs'.
Proof.
  intros Hb Ht Hr. unfold shape.
  rewrite (map_ext _ _ (fun k => f_equal (pair k) (Hb k))).
  rewrite (map_ext _ _ (fun k => f_equal (pair k) (Ht k))).
  rewrite (map_ext _ _ (fun k => f_equal (pair k) (Hr k))).
  reflexivity.
Qed.

Lemma merge_file_highlights (f : parsed_file) (hs ps : list item)
    (bs ts rs : pystr -> list item) :
  file_ok f ->
  merge_file_section lower digit (py "HIGHLIGHTS") f (shape hs bs ps ts rs)
  = Ok (shape (hs ++ file_items (py "HIGHLIGHTS") f) bs ps ts rs).
Proof.
  intros Hf.
  destruct (file_ok_get f (py "HIGHLIGHTS") Hf eq_refl) as [text Ht].
  unfold merge_file_section, file_items, dict_lookup. rewrite Ht.
  cbn [bind].
  destruct (nonempty (strip text)); [|rewrite app_nil_r; reflexivity].
  reflexivity.
Qed.

Lemma merge_file_products (f : parsed_file) (hs ps : list item)
    (bs ts rs : pystr -> list item) :
  file_ok f ->
  merge_file_section lower digit (py "PRODUCTS") f (shape hs bs ps ts rs)
  = Ok (shape hs bs (ps ++ file_items (py "PRODUCTS") f) ts rs).
Proof.
  intros Hf.
  destruct (file_ok_get f (py "PRODUCTS") Hf eq_refl) as [text Ht].
  unfold merge_file_section, file_items, dict_lookup. rewrite Ht.
  cbn [bind].
  destruct (nonempty (strip text)); [|rewrite app_nil_r; reflexivity].
  reflexivity.
Qed.

(** What [file_sub_items] is for a document with a non-blank text. *)
Lemma file_sub_items_eq (section k text : pystr) (f : parsed_file)
    (d : dict (list item)) :
  dict_get section (p_sections f) = Some text ->
  nonempty (strip text) = true ->
  parse_categorized_section lower digit text section = Ok d ->
  file_sub_items lower digit section k f
  = match dict_get k d with
    | Some l => l
    | None => []
    end.
Proof.
  intros Ht En Hd. unfold file_sub_items. rewrite Ht, En, Hd. reflexivity.
Qed.

Lemma file_sub_items_blank (section k text : pystr) (f : parsed_file) :
  dict_get section (p_sections f) = Some text ->
  nonempty (strip text) = false ->
  file_sub_items lower digit section k f = [].
Proof.
  intros Ht En. unfold file_sub_items. rewrite Ht, En. reflexivity.
Qed.

Ltac merge_categorized section f Hf mk :=
  let text := fresh "text" in
  let Ht := fresh "Ht" in
  let En := fresh "En" in
  let d := fresh "d" in
  let Hd := fresh "Hd" in
  let Hk := fresh "Hk" in
  destruct (file_ok_get f section Hf eq_refl) as [text Ht];
  unfold merge_file_section, dict_lookup; rewrite Ht; cbn [bind];
  destruct (nonempty (strip text)) eqn:En;
  [ destruct (parse_categorized_section_total lower digit text section
                eq_refl) as (d & Hd & Hk);
    unfold parse_section_items;
    change (str_in section [py "HIGHLIGHTS"; py "PRODUCTS"]) with false;
    change (str_in section [py "BUSINESS"; py "TECHNOLOGY"; py "RESEARCH"])
      with true;
    cbv iota; rewrite Hd; cbn [bind];
    repeat (let k := fresh "k" in
            let l := fresh "l" in
            destruct d as [|[k l] d]; [discriminate Hk|];
            apply (f_equal (@tl pystr)) in Hk as Hk';
            apply (f_equal (@hd_error pystr)) in Hk;
            injection Hk as ->; cbn [tl dict_keys map] in Hk';
            rename Hk' into Hk);
    destruct d; [|discriminate Hk];
    match type of Hd with
    | _ = Ok ?dd =>
        transitivity
          (Ok (mk (fun k => match dict_get k dd with
                            | Some l => l
                            | None => []
                            end)));
        [ reflexivity
        | cbv beta; f_equal; apply shape_ext; intros k;
          try reflexivity;
          rewrite (file_sub_items_eq section k text f _ Ht En Hd);
          reflexivity ]
    end
  | f_equal; apply shape_ext; intros k; try reflexivity;
    rewrite (file_sub_items_blank section k text f Ht En);
    symmetry; apply app_nil_r ].

Lemma merge_file_business (f : parsed_file) (hs ps : list item)
    (bs ts rs : pystr -> list item) :
  file_ok f ->
  merge_file_section lower digit (py "BUSINESS") f (shape hs bs ps ts rs)
  = Ok (shape hs
          (fun k => bs k ++ file_sub_items lower digit (py "BUSINESS") k f)
          ps ts rs).
Proof.
  intros Hf.
  merge_categorized (py "BUSINESS") f Hf
    (fun g : pystr -> list item => shape hs (fun k => bs k ++ g k) ps ts rs).
Qed.

Lemma merge_file_technology (f : parsed_file) (hs ps : list item)
    (bs ts rs : pystr -> list item) :
  file_ok f ->
  merge_file_section lower digit (py "TECHNOLOGY") f (shape hs bs ps ts rs)
  = Ok (shape hs bs ps
          (fun k => ts k ++ file_sub_items lower digit (py "TECHNOLOGY") k f)
          rs).
Proof.
  intros Hf.
  merge_categorized (py "TECHNOLOGY") f Hf
    (fun g : pystr -> list item => shape hs bs ps (fun k => ts k ++ g k) rs).
Qed.

Lemma merge_file_research (f : parsed_file) (hs ps : list item)
    (bs ts rs : pystr -> list item) :
  file_ok f ->
  merge_file_section lower digit (py "RESEARCH") f (shape hs bs ps ts rs)
  = Ok (shape hs bs ps ts
          (fun k => rs k ++ file_sub_items lower digit (py "RESEARCH") k f)).
Proof.
  intros Hf.
  merge_categorized (py "RESEARCH") f Hf
    (fun g : pystr -> list item => shape hs bs ps ts (fun k => rs k ++ g k)).
Qed.

Lemma merge_section_highlights (files : list parsed_file) :
  Forall file_ok files ->
  forall hs ps bs ts rs,
  merge_section lower digit (py "HIGHLIGHTS") files (shape hs bs ps ts rs)
  = Ok (shape (hs ++ flat_map (file_items (py "HIGHLIGHTS")) files)
              bs ps ts rs).
Proof.
  induction 1 as [|f files Hf _ IH]; intros hs ps bs ts rs.
  - simpl. rewrite app_nil_r. reflexivity.
  - cbn [merge_section flat_map]. rewrite merge_file_highlights by exact Hf.
    cbn [bind]. rewrite IH, app_assoc. reflexivity.
Qed.

Lemma merge_section_products (files : list parsed_file) :
  Forall file_ok files ->
  forall hs ps bs ts rs,
  merge_section lower digit (py "PRODUCTS") files (shape hs bs ps ts rs)
  = Ok (shape hs bs (ps ++ flat_map (file_items (py "PRODUCTS")) files)
              ts rs).
Proof.
  induction 1 as [|f files Hf _ IH]; intros hs ps bs ts rs.
  - simpl. rewrite app_nil_r. reflexivity.
  - cbn [merge_section flat_map]. rewrite merge_file_products by exact Hf.
    cbn [bind]. rewrite IH, app_assoc. reflexivity.
Qed.

Lemma merge_section_business (files : list parsed_file) :
  Forall file_ok files ->
  forall hs ps bs ts rs,
  merge_section lower digit (py "BUSINESS") files (shape hs bs ps ts rs)
  = Ok (shape hs
          (fun k => bs k ++ flat_map (file_sub_items lower digit
                                        (py "BUSINESS") k) files)
          ps ts rs).
Proof.
  induction 1 as [|f files Hf _ IH]; intros hs ps bs ts rs.
  - simpl. f_equal. apply shape_ext; intros k; try reflexivity.
    symmetry; apply app_nil_r.
  - cbn [merge_section]. rewrite merge_file_business by exact Hf.
    cbn [bind]. rewrite IH. f_equal.
    apply shape_ext; intros k; try reflexivity.
    cbn [flat_map]. symmetry; apply app_assoc.
Qed.

Lemma merge_section_technology (files : list parsed_file) :
  Forall file_ok files ->
  forall hs ps bs ts rs,
  merge_section lower digit (py "TECHNOLOGY") files (shape hs bs ps ts rs)
  = Ok (shape hs bs ps
          (fun k => ts k ++ flat_map (file_sub_items lower digit
                                        (py "TECHNOLOGY") k) files)
          rs).
Proof.
  induction 1 as [|f files Hf _ IH]; intros hs ps bs ts rs.
  - simpl. f_equal. apply shape_ext; intros k; try reflexivity.
    symmetry; apply app_nil_r.
  - cbn [merge_section]. rewrite merge_file_technology by exact Hf.
    cbn [bind]. rewrite IH. f_equal.
    apply shape_ext; intros k; try reflexivity.
    cbn [flat_map]. symmetry; apply app_assoc.
Qed.

Lemma merge_section_research (files : list parsed_file) :
  Forall file_ok files ->
  forall hs ps bs ts rs,
  merge_section lower digit (py "RESEARCH") files (shape hs bs ps ts rs)
  = Ok (shape hs bs ps ts
          (fun k => rs k ++ flat_map (file_sub_items lower digit
                                        (py "RESEARCH") k) files)).
Proof.
  induction 1 as [|f files Hf _ IH]; intros hs ps bs ts rs.
  - simpl. f_equal. apply shape_ext; intros k; try reflexivity.
    symmetry; apply app_nil_r.
  - cbn [merge_section]. rewrite merge_file_research by exact Hf.
    cbn [bind]. rewrite IH. f_equal.
    apply shape_ext; intros k; try reflexivity.
    cbn [flat_map]. symmetry; apply app_assoc.
Qed.

(** The aggregator never raises and builds the aggregate of the
    specification: seeded keys, concatenation in document order. *)
Lemma merge_parsed_aggregate (files : list parsed_file) :
  Forall file_ok files ->
  merge_parsed lower digit files = Ok (aggregate lower digit files).
Proof.
  intros Hf. unfold merge_parsed.
  change json_data0
    with (shape [] (fun _ => []) [] (fun _ => []) (fun _ => [])).
  change target_sections
    with [py "HIGHLIGHTS"; py "BUSINESS"; py "PRODUCTS"; py "TECHNOLOGY";
          py "RESEARCH"].
  cbn [merge_sections].
  rewrite merge_section_highlights by exact Hf. cbn [bind].
  rewrite merge_section_business by exact Hf. cbn [bind].
  rewrite merge_section_products by exact Hf. cbn [bind].
  rewrite merge_section_technology by exact Hf. cbn [bind].
  rewrite merge_section_research by exact Hf. cbn [bind].
  reflexivity.
Qed.

(** The whole run, in closed form. *)
Lemma merge_files_to_json_aggregate (now : datetime) (folder_path : pystr)
    (listing : list pystr) (read : pystr -> pystr) :
  merge_files_to_json lower digit now folder_path listing read
  = match filter (fun file => endswith file (py ".md")) listing with
    | [] => Ok None
    | md_files =>
        sorted <- sort_files_by_date digit now md_files folder_path ;;
        Ok (Some (aggregate lower digit
                    (map (fun file =>
                            parse_markdown_file read
                              (path_join folder_path file)) sorted)))
    end.
Proof.
  unfold merge_files_to_json.
  destruct (filter _ listing) as [|file files]; [reflexivity|].
  destruct (sort_files_by_date digit now (file :: files) folder_path)
    as [sorted|e]; [|reflexivity].
  cbn [bind]. rewrite merge_parsed_aggregate; [reflexivity|].
  apply Forall_map. apply Forall_forall. intros x _.
  apply parse_markdown_file_ok.
Qed.

End Aggregator.

(** ** The output structure *)

Section Output.
Variable lower : pystr -> pystr.
Variable digit : char -> option Z.

Lemma run_output (now : datetime) (folder_path : pystr)
    (listing : list pystr) (read : pystr -> pystr) (out : dict jvalue) :
  merge_files_to_json lower digit now folder_path listing read
  = Ok (Some out) ->
  exists sorted,
    sort_files_by_date digit now (md_files_of listing) folder_path
    = Ok sorted
    /\ out = aggregate lower digit (documents read folder_path sorted).
Proof.
  rewrite merge_files_to_json_aggregate. unfold md_files_of, documents.
  destruct (filter _ listing) as [|file files]; [discriminate|].
  destruct (sort_files_by_date digit now (file :: files) folder_path)
    as [sorted|e]; [|discriminate].
  cbn [bind]. intros [= <-]. exists sorted; auto.
Qed.

(** C8.  Whenever the run writes an output, the output holds the five
    section keys in order, and under BUSINESS, TECHNOLOGY and RESEARCH every
    fixed subcategory key, each mapped to a list of items. *)
Theorem output_has_fixed_keys (now : datetime) (folder_path : pystr)
    (listing : list pystr) (read : pystr -> pystr) (out : dict jvalue) :
  merge_files_to_json lower digit now folder_path listing read
  = Ok (Some out) ->
  exists hs b1 b2 b3 b4 ps t1 t2 t3 r1 r2 : list item,
    out = [ (py "HIGHLIGHTS", JList hs);
            (py "BUSINESS",
             JDict [ (py "Funding & Investment", b1);
                     (py "Company Updates", b2);
                     (py "Regulatory Developments", b3);
                     (py "Market Trends", b4) ]);
            (py "PRODUCTS", JList ps);
            (py "TECHNOLOGY",
             JDict [ (py "Open Source Projects", t1);
                     (py "Models & Datasets", t2);
                     (py "Developer Tools & Demos", t3) ]);
            (py "RESEARCH",
             JDict [ (py "Paper of the Week", r1);
                     (py "Notable Research", r2) ]) ].
Proof.
  intros H. apply run_output in H. destruct H as (sorted & _ & ->).
  unfold aggregate, shape.
  do 11 eexists. reflexivity.
Qed.

(** *** Items of the output *)

Lemma dict_get_in {V : Type} (k : pystr) (v : V) (d : dict V) :
  dict_get k d = Some v -> exists k', In (k', v) d.
Proof.
  induction d as [|[k0 v0] d IH]; simpl; [discriminate|].
  destruct (str_eqb k k0).
  - intros [= <-]. exists k0; auto.
  - intros H. destruct (IH H) as [k' Hk']. exists k'; auto.
Qed.

Lemma clean_result_clean (r : dict rvalue) (d : dict (list item)) :
  clean_result r = Ok d ->
  Forall (fun e => exists l, snd e = clean_items l) d.
Proof.
  revert d; induction r as [|[k v] r IH]; intros d; simpl.
  - intros [= <-]. constructor.
  - destruct v as [l|it]; simpl; [|discriminate].
    destruct (clean_result r) as [d'|]; simpl; [|discriminate].
    intros [= <-]. constructor; [exists l; reflexivity | apply IH; reflexivity].
Qed.

Lemma parse_categorized_section_clean (content section_name : pystr)
    (d : dict (list item)) :
  parse_categorized_section lower digit content section_name = Ok d ->
  Forall (fun e => exists l, snd e = clean_items l) d.
Proof.
  unfold parse_categorized_section.
  destruct (dict_lookup section_name subcategory_mapping); [|discriminate].
  cbn [bind]. destruct (cat_loop _ _ _ _ _) as [st|]; [|discriminate].
  cbn [bind]. destruct (flush_append st) as [r|]; [|discriminate].
  cbn [bind]. apply clean_result_clean.
Qed.

Lemma file_items_ok (section : pystr) (f : parsed_file) (it : item) :
  In it (file_items section f) ->
  description it <> [] /\ title it <> Some [].
Proof.
  unfold file_items.
  destruct (dict_get section (p_sections f)) as [text|]; [|intros []].
  destruct (nonempty (strip text)); [|intros []].
  unfold parse_simple_section. apply clean_items_ok.
Qed.

Lemma file_sub_items_ok (section k : pystr) (f : parsed_file) (it : item) :
  In it (file_sub_items lower digit section k f) ->
  description it <> [] /\ title it <> Some [].
Proof.
  unfold file_sub_items.
  destruct (dict_get section (p_sections f)) as [text|]; [|intros []].
  destruct (nonempty (strip text)); [|intros []].
  destruct (parse_categorized_section lower digit text section) as [d|] eqn:E;
    [|intros []].
  destruct (dict_get k d) as [l|] eqn:El; [|intros []].
  apply parse_categorized_section_clean in E.
  destruct (dict_get_in _ _ _ El) as [k' Hin].
  rewrite Forall_forall in E. destruct (E _ Hin) as [l0 Hl0].
  simpl in Hl0. subst l. apply clean_items_ok.
Qed.

Lemma all_items_shape (hs ps : list item) (bs ts rs : pystr -> list item)
    (it : item) :
  In it (all_items (shape hs bs ps ts rs)) ->
  In it hs \/ In it ps
  \/ exists k, In it (bs k) \/ In it (ts k) \/ In it (rs k).
Proof.
  assert (Hd : forall (g : pystr -> list item) keys,
             In it (flat_map snd (map (fun k => (k, g k)) keys)) ->
             exists k, In it (g k)).
  { intros g keys H. apply in_flat_map in H. destruct H as ([k l] & He & Hl).
    apply in_map_iff in He. destruct He as (k0 & [= <- <-] & _).
    exists k0; exact Hl. }
  unfold all_items, shape. cbn [flat_map snd].
  rewrite !in_app_iff.
  intros [H | [H | [H | [H | [H | []]]]]]; auto;
    apply Hd in H; destruct H as [k H]; right; right; exists k; auto.
Qed.

(** C1.  Every item of a written output has a non-empty description and,
    when it carries a title, a non-empty title; and a raw item whose title
    and description are both empty once link markup is replaced by the link
    text is dropped by the normaliser. *)
Theorem output_items_nonempty (now : datetime) (folder_path : pystr)
    (listing : list pystr) (read : pystr -> pystr) (out : dict jvalue) :
  merge_files_to_json lower digit now folder_path listing read
  = Ok (Some out) ->
  (forall it, In it (all_items out) ->
     description it <> [] /\ title it <> Some [])
  /\ (forall raw before after,
        sub_links (get_title raw) = [] -> sub_links (description raw) = [] ->
        clean_items (before ++ raw :: after)
        = clean_items before ++ clean_items after).
Proof.
  intros H. apply run_output in H. destruct H as (sorted & _ & ->). split.
  - intros it Hin. unfold aggregate in Hin.
    apply all_items_shape in Hin.
    destruct Hin as [Hin | [Hin | [k [Hin | [Hin | Hin]]]]].
    + apply in_flat_map in Hin. destruct Hin as (f & _ & Hin).
      exact (file_items_ok _ _ _ Hin).
    + apply in_flat_map in Hin. destruct Hin as (f & _ & Hin).
      exact (file_items_ok _ _ _ Hin).
    + apply in_flat_map in Hin. destruct Hin as (f & _ & Hin).
      exact (file_sub_items_ok _ _ _ _ Hin).
    + apply in_flat_map in Hin. destruct Hin as (f & _ & Hin).
      exact (file_sub_items_ok _ _ _ _ Hin).
    + apply in_flat_map in Hin. destruct Hin as (f & _ & Hin).
      exact (file_sub_items_ok _ _ _ _ Hin).
  - intros raw before after Ht Hd.
    rewrite clean_items_app. cbn [clean_items].
    rewrite (clean_item_empty raw Ht Hd). reflexivity.
Qed.

(** *** Dependence on the clock *)

Lemma sort_files_by_date_year (now1 now2 : datetime) (md_files : list pystr)
    (folder_path : pystr) :
  dt_year now1 = dt_year now2 ->
  sort_files_by_date digit now1 md_files folder_path
  = sort_files_by_date digit now2 md_files folder_path.
Proof.
  intros Hy. unfold sort_files_by_date.
  assert (Hr : get_date_range_from_folder digit now1 folder_path
               = get_date_range_from_folder digit now2 folder_path).
  { unfold get_date_range_from_folder. rewrite Hy. reflexivity. }
  rewrite Hr.
  destruct (get_date_range_from_folder digit now2 folder_path)
    as [[[sd ed] y]|e]; [|reflexivity].
  cbn [bind].
  assert (Hf : file_dates_of digit now1 sd ed y md_files
               = file_dates_of digit now2 sd ed y md_files).
  { induction md_files as [|file files IH]; [reflexivity|].
    cbn [file_dates_of]. rewrite IH. reflexivity. }
  rewrite Hf. reflexivity.
Qed.

(** C9 (amended).  Two runs on the same folder whose clocks read the same
    year return the same result; and a written output is the aggregate of
    the documents in file order: every sequence is a concatenation of what
    each document contributes, so an item repeated across documents is
    repeated in the output. *)
Theorem rerun_same_year (now1 now2 : datetime) (folder_path : pystr)
    (listing : list pystr) (read : pystr -> pystr) :
  dt_year now1 = dt_year now2 ->
  merge_files_to_json lower digit now1 folder_path listing read
  = merge_files_to_json lower digit now2 folder_path listing read
  /\ (forall out,
        merge_files_to_json lower digit now1 folder_path listing read
        = Ok (Some out) ->
        exists sorted,
          sort_files_by_date digit now1 (md_files_of listing) folder_path
          = Ok sorted
          /\ out = aggregate lower digit (documents read folder_path sorted)).
Proof.
  intros Hy. split.
  - rewrite !merge_files_to_json_aggregate.
    destruct (filter _ listing) as [|file files]; [reflexivity|].
    rewrite (sort_files_by_date_year now1 now2 _ _ Hy). reflexivity.
  - intros out. apply run_output.
Qed.

End Output.

(** ** Runs on concrete folders *)

(** Scenario A: the same item in two documents appears twice. *)
Lemma scenario_a :
  merge_files_to_json lower_ascii digit_ascii (clock 2026) (py "7.6-7.12")
    [py "7-7.md"; py "notes.txt"; py "7-6.md"] scenario_a_read
  = Ok (Some scenario_a_output).
Proof. vm_compute. reflexivity. Qed.

Lemma output_items_nonempty_witness :
  (forall it, In it (all_items scenario_a_output) ->
     description it <> [] /\ title it <> Some [])
  /\ (forall raw before after,
        sub_links (get_title raw) = [] -> sub_links (description raw) = [] ->
        clean_items (before ++ raw :: after)
        = clean_items before ++ clean_items after).
Proof.
  exact (output_items_nonempty lower_ascii digit_ascii (clock 2026)
           (py "7.6-7.12") [py "7-7.md"; py "notes.txt"; py "7-6.md"]
           scenario_a_read scenario_a_output scenario_a).
Defined.

Lemma output_has_fixed_keys_witness :
  exists hs b1 b2 b3 b4 ps t1 t2 t3 r1 r2 : list item,
    scenario_a_output
    = [ (py "HIGHLIGHTS", JList hs);
        (py "BUSINESS",
         JDict [ (py "Funding & Investment", b1);
                 (py "Company Updates", b2);
                 (py "Regulatory Developments", b3);
                 (py "Market Trends", b4) ]);
        (py "PRODUCTS", JList ps);
        (py "TECHNOLOGY",
         JDict [ (py "Open Source Projects", t1);
                 (py "Models & Datasets", t2);
                 (py "Developer Tools & Demos", t3) ]);
        (py "RESEARCH",
         JDict [ (py "Paper of the Week", r1);
                 (py "Notable Research", r2) ]) ].
Proof.
  exact (output_has_fixed_keys lower_ascii digit_ascii (clock 2026)
           (py "7.6-7.12") [py "7-7.md"; py "notes.txt"; py "7-6.md"]
           scenario_a_read scenario_a_output scenario_a).
Defined.

Lemma rerun_same_year_witness :
  merge_files_to_json lower_ascii digit_ascii (clock 2026) (py "7.6-7.12")
    [py "7-7.md"; py "notes.txt"; py "7-6.md"] scenario_a_read
  = merge_files_to_json lower_ascii digit_ascii
      (mkdatetime 2026 12 31 23 59 59) (py "7.6-7.12")
      [py "7-7.md"; py "notes.txt"; py "7-6.md"] scenario_a_read
  /\ (forall out,
        merge_files_to_json lower_ascii digit_ascii (clock 2026)
          (py "7.6-7.12") [py "7-7.md"; py "notes.txt"; py "7-6.md"]
          scenario_a_read
        = Ok (Some out) ->
        exists sorted,
          sort_files_by_date digit_ascii (clock 2026)
            (md_files_of [py "7-7.md"; py "notes.txt"; py "7-6.md"])
            (py "7.6-7.12")
          = Ok sorted
          /\ out = aggregate lower_ascii digit_ascii
                     (documents scenario_a_read (py "7.6-7.12") sorted)).
Proof.
  exact (rerun_same_year lower_ascii digit_ascii (clock 2026)
           (mkdatetime 2026 12 31 23 59 59) (py "7.6-7.12")
           [py "7-7.md"; py "notes.txt"; py "7-6.md"] scenario_a_read
           eq_refl).
Defined.

(** C9 as stated fails: the same folder, listed in the same order, gives
    another output when the clock reads another year, because 29 February
    is a date in 2028 and not in 2029. *)
Lemma rerun_other_year_differs :
  ~ (forall (now1 now2 : datetime) (folder_path : pystr)
            (listing : list pystr) (read : pystr -> pystr),
        merge_files_to_json lower_ascii digit_ascii now1 folder_path listing
          read
        = merge_files_to_json lower_ascii digit_ascii now2 folder_path
            listing read).
Proof.
  intros H.
  specialize (H (clock 2028) (clock 2029) (py "news")
                [py "2-29.md"; py "3-1.md"] leap_read).
  vm_compute in H. discriminate H.
Qed.

Example leap_folder_2028 :
  merge_files_to_json lower_ascii digit_ascii (clock 2028) (py "news")
    [py "2-29.md"; py "3-1.md"] leap_read
  = Ok (Some (shape [mkitem None (py "A") None; mkitem None (py "B") None]
                    (fun _ => []) [] (fun _ => []) (fun _ => []))).
Proof. vm_compute. reflexivity. Qed.

Example leap_folder_2029 :
  merge_files_to_json lower_ascii digit_ascii (clock 2029) (py "news")
    [py "2-29.md"; py "3-1.md"] leap_read
  = Ok (Some (shape [mkitem None (py "B") None; mkitem None (py "A") None]
                    (fun _ => []) [] (fun _ => []) (fun _ => []))).
Proof. vm_compute. reflexivity. Qed.

(** ** Stable sorting *)

Section SortProps.
Context {A : Type} (lt : A -> A -> bool).
Hypothesis lt_asym : forall a b, lt a b = true -> lt b a = false.
Hypothesis le_trans :
  forall a b c, lt b a = false -> lt c b = false -> lt c a = false.

Lemma insert_sorted_perm (x : A) (l : list A) :
  Permutation (insert_sorted lt x l) (x :: l).
Proof.
  induction l as [|y l IH]; simpl; [apply Permutation_refl|].
  destruct (lt y x); [|apply Permutation_refl].
  eapply perm_trans; [apply perm_skip; exact IH | apply perm_swap].
Qed.

Lemma stable_sort_perm (l : list A) : Permutation (stable_sort lt l) l.
Proof.
  induction l as [|x l IH]; simpl; [constructor|].
  eapply perm_trans; [apply insert_sorted_perm | apply perm_skip; exact IH].
Qed.

Lemma insert_sorted_sorted (x : A) (l : list A) :
  StronglySorted (fun a b => lt b a = false) l ->
  StronglySorted (fun a b => lt b a = false) (insert_sorted lt x l).
Proof.
  induction 1 as [|y l Hs IH Hy]; simpl.
  - constructor; constructor.
  - destruct (lt y x) eqn:E.
    + constructor; [exact IH|].
      apply (Permutation_Forall (Permutation_sym (insert_sorted_perm x l))).
      constructor; [apply lt_asym; exact E | exact Hy].
    + constructor; [constructor; assumption|].
      constructor; [exact E|].
      rewrite Forall_forall in Hy |- *. intros z Hz.
      exact (le_trans x y z E (Hy z Hz)).
Qed.

Lemma stable_sort_sorted (l : list A) :
  StronglySorted (fun a b => lt b a = false) (stable_sort lt l).
Proof.
  induction l as [|x l IH]; simpl; [constructor|].
  apply insert_sorted_sorted; exact IH.
Qed.

(** Elements that the order does not separate keep their input order. *)
Lemma insert_sorted_filter (x a : A) (l : list A) :
  filter (fun y => negb (lt x y) && negb (lt y x)) (insert_sorted lt a l)
  = filter (fun y => negb (lt x y) && negb (lt y x)) (a :: l).
Proof.
  induction l as [|y l IH]; [reflexivity|].
  cbn [insert_sorted]. destruct (lt y a) eqn:E; [|reflexivity].
  cbn [filter] in *. rewrite IH.
  destruct (negb (lt x a) && negb (lt a x)) eqn:Ea; [|reflexivity].
  destruct (negb (lt x y) && negb (lt y x)) eqn:Ey; [|reflexivity].
  exfalso.
  apply andb_true_iff in Ea, Ey. destruct Ea as [Hxa _], Ey as [_ Hyx].
  apply negb_true_iff in Hxa, Hyx.
  rewrite (le_trans a x y Hxa Hyx) in E. discriminate.
Qed.

Lemma stable_sort_stable (x : A) (l : list A) :
  filter (fun y => negb (lt x y) && negb (lt y x)) (stable_sort lt l)
  = filter (fun y => negb (lt x y) && negb (lt y x)) l.
Proof.
  induction l as [|a l IH]; [reflexivity|].
  cbn [stable_sort]. rewrite insert_sorted_filter.
  cbn [filter]. rewrite IH. reflexivity.
Qed.

End SortProps.

(** ** The file ordering, when it returns *)

Lemma date_ltb_lt (a b : date) :
  date_ltb a b = true <->
  (year a < year b
   \/ (year a = year b
       /\ (month a < month b \/ (month a = month b /\ day a < day b))))%Z.
Proof.
  unfold date_ltb.
  rewrite !orb_true_iff, !andb_true_iff, orb_true_iff, andb_true_iff,
    !Z.ltb_lt, !Z.eqb_eq.
  reflexivity.
Qed.

Lemma date_ltb_asym (a b : date) : date_ltb a b = true -> date_ltb b a = false.
Proof.
  intros H. apply date_ltb_lt in H.
  apply not_true_iff_false. rewrite date_ltb_lt. lia.
Qed.

Lemma date_leb_trans (a b c : date) :
  date_ltb b a = false -> date_ltb c b = false -> date_ltb c a = false.
Proof.
  rewrite <- !not_true_iff_false, !date_ltb_lt. lia.
Qed.

Section Ordering.
Variable digit : char -> option Z.

Lemma file_dates_of_names (now : datetime) (sd ed : option date) (y : Z)
    (md_files : list pystr) (file_dates : list (date * pystr)) :
  file_dates_of digit now sd ed y md_files = Ok file_dates ->
  map snd file_dates = md_files.
Proof.
  revert file_dates; induction md_files as [|f fs IH]; intros fd; simpl.
  - intros [= <-]; reflexivity.
  - destruct (file_date_entry digit now sd ed y f) as [e|] eqn:Ee;
      [|discriminate].
    cbn [bind].
    destruct (file_dates_of digit now sd ed y fs) as [es|]; [|discriminate].
    cbn [bind]. intros [= <-]. simpl. rewrite (IH es eq_refl). f_equal.
    unfold file_date_entry in Ee.
    destruct (extract_date_from_filename digit now f (Some y)) as [d|];
      [|injection Ee as <-; reflexivity].
    destruct sd as [s|]; [|injection Ee as <-; reflexivity].
    destruct ed as [e0|]; [|injection Ee as <-; reflexivity].
    destruct (month d <? month s)%Z; [|injection Ee as <-; reflexivity].
    destruct (date_replace_year d (y + 1)); [|discriminate].
    injection Ee as <-; reflexivity.
Qed.

(** A name that is not a date of the reference year gets the sentinel. *)
Lemma unparseable_gets_sentinel (now : datetime) (sd ed : option date)
    (y : Z) (filename : pystr) :
  extract_date_from_filename digit now filename (Some y) = None ->
  file_date_entry digit now sd ed y filename = Ok (date_max, filename).
Proof. intros H. unfold file_date_entry. rewrite H. reflexivity. Qed.

(** X27.  When the ordering returns, it returns the names stably sorted
    by candidate date: a permutation of the input, ascending, in which
    entries of equal date keep their input order. *)
Lemma sort_files_by_date_sorted (now : datetime) (md_files : list pystr)
    (folder_path : pystr) (sorted : list pystr) :
  sort_files_by_date digit now md_files folder_path = Ok sorted ->
  exists sd ed y file_dates,
    get_date_range_from_folder digit now folder_path = Ok (sd, ed, y)
    /\ file_dates_of digit now sd ed y md_files = Ok file_dates
    /\ map snd file_dates = md_files
    /\ sorted = map snd (stable_sort entry_ltb file_dates)
    /\ Permutation sorted md_files
    /\ StronglySorted (fun a b => date_leb (fst a) (fst b) = true)
         (stable_sort entry_ltb file_dates)
    /\ forall d, filter (same_date d) (stable_sort entry_ltb file_dates)
                 = filter (same_date d) file_dates.
Proof.
  unfold sort_files_by_date.
  destruct (get_date_range_from_folder digit now folder_path)
    as [[[sd ed] y]|]; [|discriminate].
  cbn [bind].
  destruct (file_dates_of digit now sd ed y md_files) as [fd|] eqn:Ef;
    [|discriminate].
  cbn [bind]. intros [= <-].
  pose proof (file_dates_of_names _ _ _ _ _ _ Ef) as Hn.
  exists sd, ed, y, fd. repeat split; try assumption.
  - rewrite <- Hn. apply Permutation_map.
    exact (stable_sort_perm entry_ltb fd).
  - pose proof (stable_sort_sorted entry_ltb
                  (fun a b => date_ltb_asym (fst a) (fst b))
                  (fun a b c => date_leb_trans (fst a) (fst b) (fst c)) fd)
      as Hs.
    eapply StronglySorted_ind with (P := fun l =>
      StronglySorted (fun a b => date_leb (fst a) (fst b) = true) l);
      [constructor | | exact Hs].
    intros a l _ IH Ha. constructor; [exact IH|].
    rewrite Forall_forall in Ha |- *. intros b Hb.
    pose proof (Ha b Hb) as Hba. unfold entry_ltb in Hba.
    unfold date_leb. rewrite Hba. reflexivity.
  - intros d.
    exact (stable_sort_stable entry_ltb
             (fun a b c => date_leb_trans (fst a) (fst b) (fst c))
             (d, []) fd).
Qed.

End Ordering.

(** * Further properties of the code *)

(** ** Trimming *)

Lemma lstrip_head (s : pystr) :
  lstrip s = [] \/ exists c t, lstrip s = c :: t /\ isspace c = false.
Proof.
  induction s as [|c s IH]; simpl; [left; reflexivity|].
  destruct (isspace c) eqn:E; [exact IH|].
  right; exists c, s; auto.
Qed.

Lemma rstrip_last (s : pystr) :
  rstrip s = [] \/ exists x c, rstrip s = x ++ [c] /\ isspace c = false.
Proof.
  unfold rstrip. destruct (lstrip_head (rev s)) as [-> | (c & t & -> & Hc)].
  - left; reflexivity.
  - right; exists (rev t), c; auto.
Qed.

Lemma rstrip_snoc_nonspace (x : pystr) (c : char) :
  isspace c = false -> rstrip (x ++ [c]) = x ++ [c].
Proof.
  intros Hc. unfold rstrip. rewrite rev_app_distr. simpl. rewrite Hc.
  simpl. rewrite rev_involutive. reflexivity.
Qed.

Lemma rstrip_cons_nonspace (c : char) (s : pystr) :
  isspace c = false -> exists t, rstrip (c :: s) = c :: t.
Proof.
  intros Hc. unfold rstrip. simpl rev.
  destruct (lstrip_snoc (rev s) c Hc) as [x ->].
  exists (rev x). rewrite rev_app_distr. reflexivity.
Qed.

(** What [strip] returns is empty or begins and ends with a character that
    is not white space. *)
Lemma strip_shape (s : pystr) :
  strip s = []
  \/ exists c t x d, strip s = c :: t /\ strip s = x ++ [d]
                     /\ isspace c = false /\ isspace d = false.
Proof.
  unfold strip. destruct (lstrip_head s) as [-> | (c & t & -> & Hc)].
  - left; reflexivity.
  - right. destruct (rstrip_cons_nonspace c t Hc) as [t' Ht'].
    destruct (rstrip_last (c :: t)) as [E | (x & d & E & Hd)].
    + rewrite E in Ht'; discriminate.
    + exists c, t', x, d; auto.
Qed.

Lemma strip_idempotent (s : pystr) : strip (strip s) = strip s.
Proof.
  destruct (strip_shape s) as [-> | (c & t & x & d & E1 & E2 & Hc & Hd)];
    [reflexivity|].
  unfold strip at 1. rewrite E1. simpl lstrip. rewrite Hc.
  rewrite <- E1, E2. apply rstrip_snoc_nonspace; exact Hd.
Qed.

(** ** The section splitter: keys, trimming, marker, preamble *)

Lemma dict_set_idem {V : Type} (k : pystr) (v : V) (d : dict V) :
  dict_set k v (dict_set k v d) = dict_set k v d.
Proof.
  induction d as [|[k' v'] d IH]; simpl.
  - rewrite str_eqb_refl; reflexivity.
  - destruct (str_eqb k k') eqn:E; simpl; rewrite E; [reflexivity|].
    rewrite IH; reflexivity.
Qed.

Lemma dict_mem_set {V : Type} (k k' : pystr) (v : V) (d : dict V) :
  dict_mem k' d = true -> dict_mem k (dict_set k' v d) = dict_mem k d.
Proof.
  intros H. rewrite !dict_mem_keys, dict_keys_set by exact H. reflexivity.
Qed.

Lemma section_open_mem (st : split_state) (k : pystr) :
  section_open st = Some k -> dict_mem k (m_sections st) = true.
Proof.
  unfold section_open. destruct (m_current_section st) as [k'|]; [|discriminate].
  destruct (nonempty k'); [|discriminate]. simpl.
  destruct (dict_mem k' (m_sections st)) eqn:E; [|discriminate].
  intros [= <-]; exact E.
Qed.

(** Saving twice is saving once. *)
Lemma save_section_twice (st : split_state) :
  save_section (mksplit (save_section st) (m_current_section st)
                        (m_section_content st) (m_skip_next_dashes st))
  = save_section st.
Proof.
  unfold save_section, section_open.
  cbn [m_sections m_current_section m_section_content m_skip_next_dashes].
  destruct (m_current_section st) as [k|]; [|reflexivity].
  destruct (nonempty k); [|reflexivity]. cbn [andb].
  destruct (dict_mem k (m_sections st)) eqn:Em.
  - rewrite dict_mem_set by exact Em. rewrite Em. apply dict_set_idem.
  - rewrite Em. reflexivity.
Qed.

(** A line that starts the terminal marker stops the scan. *)
Lemma split_step_marker (st : split_state) (m : pystr) :
  keys_ok st ->
  startswith (strip m) (py "LOOKING AHEAD") = true ->
  split_step st m
  = (mksplit (save_section st) (m_current_section st) (m_section_content st)
             (m_skip_next_dashes st), true).
Proof.
  intros K Hm. unfold split_step. rewrite K, Hm.
  apply startswith_app in Hm. destruct Hm as [r ->].
  replace (all_dashes (py "LOOKING AHEAD" ++ r)) with false by reflexivity.
  rewrite andb_false_r. reflexivity.
Qed.

(** X1.  Nothing after a line that starts with the terminal marker is
    read: the sections are those of the lines before it. *)
Theorem nothing_read_after_marker (pre post : list pystr) (m : pystr) :
  startswith (strip m) (py "LOOKING AHEAD") = true ->
  sections_of_lines (pre ++ m :: post) = sections_of_lines pre.
Proof.
  intros Hm. unfold sections_of_lines.
  assert (H : forall st, keys_ok st ->
            save_section (split_loop st (pre ++ m :: post))
            = save_section (split_loop st pre)).
  { induction pre as [|l pre IH]; intros st K.
    - simpl. rewrite (split_step_marker st m K Hm). apply save_section_twice.
    - simpl. pose proof (split_step_keys st l K) as K'.
      destruct (split_step st l) as [st1 stop]. simpl in K'.
      destruct stop; [reflexivity | apply IH; exact K']. }
  apply H. reflexivity.
Qed.

Lemma nothing_read_after_marker_witness :
  sections_of_lines
    (map py ["HIGHLIGHTS"; "news"]%string
     ++ py "  LOOKING AHEAD to next week"
     :: map py ["BUSINESS"; "late deal"]%string)
  = sections_of_lines (map py ["HIGHLIGHTS"; "news"]%string).
Proof.
  exact (nothing_read_after_marker (map py ["HIGHLIGHTS"; "news"]%string)
           (map py ["BUSINESS"; "late deal"]%string)
           (py "  LOOKING AHEAD to next week") eq_refl).
Defined.

Lemma split_step_preamble (l : pystr) :
  plain_line l = true ->
  split_step (mksplit sections0 None [] false) l
  = (mksplit sections0 None [] false, false).
Proof.
  unfold plain_line. rewrite andb_true_iff, !negb_true_iff.
  intros [Hh Hm]. unfold split_step.
  cbn [m_sections m_current_section m_section_content m_skip_next_dashes].
  rewrite Hh, Hm. cbn [andb truthy section_open].
  destruct (str_eqb (strip l) (py "* * *")); reflexivity.
Qed.

(** X2.  Lines before the first section header are dropped, as long as
    none starts the terminal marker. *)
Theorem preamble_is_dropped (pre rest : list pystr) :
  forallb plain_line pre = true ->
  sections_of_lines (pre ++ rest) = sections_of_lines rest.
Proof.
  intros H. unfold sections_of_lines. f_equal.
  induction pre as [|l pre IH]; [reflexivity|].
  simpl in H. apply andb_true_iff in H. destruct H as [Hl Hpre].
  simpl. rewrite (split_step_preamble l Hl). exact (IH Hpre).
Qed.

Lemma preamble_is_dropped_witness :
  sections_of_lines
    (map py ["Title: Daily"; ""; "* * *"; "intro text"]%string
     ++ map py ["HIGHLIGHTS"; "news"]%string)
  = sections_of_lines (map py ["HIGHLIGHTS"; "news"]%string).
Proof.
  exact (preamble_is_dropped
           (map py ["Title: Daily"; ""; "* * *"; "intro text"]%string)
           (map py ["HIGHLIGHTS"; "news"]%string) eq_refl).
Defined.

Lemma all_trimmed_set (k v : pystr) (d : dict pystr) :
  Forall (fun e => trimmed (snd e)) d -> trimmed v ->
  Forall (fun e => trimmed (snd e)) (dict_set k v d).
Proof.
  intros H Hv. induction d as [|[k' v'] d IH]; simpl.
  - constructor; [exact Hv | constructor].
  - inversion H as [|? ? Hv' Hd]; subst.
    destruct (str_eqb k k'); constructor; auto.
Qed.

Lemma save_section_trimmed (st : split_state) :
  Forall (fun e => trimmed (snd e)) (m_sections st) ->
  Forall (fun e => trimmed (snd e)) (save_section st).
Proof.
  intros H. unfold save_section. destruct (section_open st); [|exact H].
  apply all_trimmed_set; [exact H | apply strip_idempotent].
Qed.

Lemma split_step_trimmed (st : split_state) (line : pystr) :
  Forall (fun e => trimmed (snd e)) (m_sections st) ->
  Forall (fun e => trimmed (snd e)) (m_sections (fst (split_step st line))).
Proof.
  intros H. unfold split_step.
  repeat match goal with
         | |- context [if ?b then _ else _] => destruct b
         | |- context [match section_open ?s with _ => _ end] =>
             destruct (section_open s)
         end; simpl; try exact H; apply save_section_trimmed; exact H.
Qed.

Lemma split_loop_trimmed (lines : list pystr) (st : split_state) :
  Forall (fun e => trimmed (snd e)) (m_sections st) ->
  Forall (fun e => trimmed (snd e)) (m_sections (split_loop st lines)).
Proof.
  revert st; induction lines as [|l lines IH]; intros st H; [exact H|].
  simpl. pose proof (split_step_trimmed st l H) as H'.
  destruct (split_step st l) as [st' stop]; simpl in H'.
  destruct stop; [exact H' | apply IH; exact H'].
Qed.

(** X3.  The splitter returns the five section names, in the fixed order,
    each with a text that has no white space at either end. *)
Theorem split_sections_keys_trimmed (content : pystr) :
  dict_keys (split_sections content)
  = [py "HIGHLIGHTS"; py "BUSINESS"; py "PRODUCTS"; py "TECHNOLOGY";
     py "RESEARCH"]
  /\ forall k t, dict_get k (split_sections content) = Some t -> strip t = t.
Proof.
  unfold split_sections, sections_of_lines. split.
  - apply save_section_keys. apply split_loop_keys. reflexivity.
  - intros k t Hget.
    assert (H : Forall (fun e => trimmed (snd e))
                  (save_section
                     (split_loop (mksplit sections0 None [] false)
                                 (split_on newline content)))).
    { apply save_section_trimmed. apply split_loop_trimmed.
      repeat constructor. }
    destruct (dict_get_in _ _ _ Hget) as [k' Hin].
    rewrite Forall_forall in H. exact (H _ Hin).
Qed.

Section Decoration.
Variable name : pystr.
Hypothesis name_known : str_in name (dict_keys sections0) = true.

Lemma dashes_not_header (t : pystr) :
  nonempty t && all_dashes t = true ->
  str_in t (dict_keys sections0) = false.
Proof.
  destruct t as [|c t]; [discriminate|]. simpl nonempty. cbn [andb].
  unfold all_dashes. cbn [forallb]. rewrite andb_true_iff, N.eqb_eq.
  intros [<- _]. reflexivity.
Qed.

(** X4.  The line of dashes right under a section header is not part of
    the section text: with content lines after it, the text is those lines,
    joined and trimmed. *)
Theorem header_decoration_dropped (pre post : list pystr) (h d : pystr) :
  str_eqb (strip h) name = true ->
  nonempty (strip d) && all_dashes (strip d) = true ->
  forallb (fun l => negb (startswith (strip l) (py "LOOKING AHEAD"))) pre
  = true ->
  forallb content_line post = true ->
  dict_get name (sections_of_lines (pre ++ h :: d :: post))
  = Some (strip (join [newline] post)).
Proof.
  intros Hh Hd Hpre Hpost. apply str_eqb_eq in Hh.
  unfold sections_of_lines. rewrite split_loop_app by exact Hpre.
  set (st0 := mksplit sections0 None [] false).
  assert (K : keys_ok (split_loop st0 pre))
    by (apply split_loop_keys; reflexivity).
  set (st := split_loop st0 pre) in *.
  pose proof (save_section_keys st K) as K1.
  cbn [split_loop].
  replace (split_step st h)
    with (mksplit (save_section st) (Some name) [] true, false)
    by (unfold split_step; rewrite K, Hh, name_known; reflexivity).
  replace (split_step (mksplit (save_section st) (Some name) [] true) d)
    with (mksplit (save_section st) (Some name) [] false, false).
  2:{ unfold split_step.
      cbn [m_sections m_current_section m_section_content
           m_skip_next_dashes].
      rewrite K1, (dashes_not_header _ Hd).
      apply andb_true_iff in Hd. destruct Hd as [-> ->]. reflexivity. }
  destruct (content_loop name name_known post
              (mksplit (save_section st) (Some name) [] false)
              K1 eq_refl Hpost) as [flag ->].
  exact (save_section_open name name_known
           (mksplit (save_section st) (Some name) post flag) K1 eq_refl).
Qed.

End Decoration.

Lemma header_decoration_dropped_witness :
  dict_get (py "BUSINESS")
    (sections_of_lines
       (map py ["HIGHLIGHTS"; "news"; "BUSINESS"; "--------"; "deal one";
                ""; "deal two"]%string))
  = Some (strip (join [newline] (map py ["deal one"; ""; "deal two"]%string))).
Proof.
  exact (header_decoration_dropped (py "BUSINESS") eq_refl
           (map py ["HIGHLIGHTS"; "news"]%string)
           (map py ["deal one"; ""; "deal two"]%string)
           (py "BUSINESS") (py "--------") eq_refl eq_refl eq_refl eq_refl).
Defined.

(** ** Link markup *)

Lemma match_link_none_cons (c : char) (s : pystr) :
  N.eqb c (ch "[") = false -> match_link (c :: s) = None.
Proof. intros H. unfold match_link. rewrite H. reflexivity. Qed.

Lemma span_all (p : char -> bool) (a b : pystr) :
  forallb p a = true ->
  match b with
  | [] => True
  | c :: _ => p c = false
  end ->
  span p (a ++ b) = (a, b).
Proof.
  intros Ha Hb. induction a as [|x a IH]; simpl in *.
  - destruct b as [|c b]; [reflexivity|]. simpl. rewrite Hb. reflexivity.
  - apply andb_true_iff in Ha. destruct Ha as [-> Ha].
    rewrite (IH Ha). reflexivity.
Qed.

(** A well-formed link at the start of a string is matched. *)
Lemma match_link_at (text url rest : pystr) :
  text <> [] -> url <> [] ->
  forallb (fun c : char => negb (N.eqb c (ch "]"))) text = true ->
  forallb (fun c : char => negb (N.eqb c (ch ")"))) url = true ->
  match_link (py "[" ++ text ++ py "](" ++ url ++ py ")" ++ rest)
  = Some (text, url, rest).
Proof.
  intros Ht Hu Hft Hfu. unfold match_link.
  change (py "[" ++ text ++ py "](" ++ url ++ py ")" ++ rest)
    with (ch "[" :: text ++ ch "]" :: ch "(" :: url ++ ch ")" :: rest).
  cbv beta iota. rewrite N.eqb_refl.
  rewrite (span_all _ text (ch "]" :: ch "(" :: url ++ ch ")" :: rest) Hft)
    by reflexivity.
  destruct text as [|t0 text]; [congruence|].
  cbv beta iota. rewrite !N.eqb_refl. cbn [andb].
  rewrite (span_all _ url (ch ")" :: rest) Hfu) by reflexivity.
  destruct url as [|u0 url]; [congruence|].
  cbv beta iota. rewrite N.eqb_refl. reflexivity.
Qed.

Lemma extract_link_skip (pre s : pystr) :
  forallb (fun c => negb (N.eqb c (ch "["))) pre = true ->
  extract_link_from_text (pre ++ s) = extract_link_from_text s.
Proof.
  intros H. induction pre as [|c pre IH]; [reflexivity|].
  simpl in H. apply andb_true_iff in H. destruct H as [Hc Hpre].
  apply negb_true_iff in Hc.
  cbn [app extract_link_from_text].
  rewrite (match_link_none_cons c (pre ++ s) Hc). exact (IH Hpre).
Qed.

Lemma sub_links_skip (pre s : pystr) :
  forallb (fun c => negb (N.eqb c (ch "["))) pre = true ->
  sub_links (pre ++ s) = pre ++ sub_links s.
Proof.
  intros H. induction pre as [|c pre IH]; [reflexivity|].
  simpl in H. apply andb_true_iff in H. destruct H as [Hc Hpre].
  apply negb_true_iff in Hc.
  rewrite sub_links_eq. cbn [app].
  rewrite (match_link_none_cons c (pre ++ s) Hc), (IH Hpre). reflexivity.
Qed.

(** X5.  The first link of a text wins: for a text without bracket before
    its first well-formed link, the target of that link is extracted and
    the markup is replaced by the link text. *)
Theorem first_link_wins (pre text url rest : pystr) :
  forallb (fun c => negb (N.eqb c (ch "["))) pre = true ->
  text <> [] -> url <> [] ->
  forallb (fun c : char => negb (N.eqb c (ch "]"))) text = true ->
  forallb (fun c : char => negb (N.eqb c (ch ")"))) url = true ->
  extract_link_from_text
    (pre ++ py "[" ++ text ++ py "](" ++ url ++ py ")" ++ rest)
  = Some url
  /\ sub_links (pre ++ py "[" ++ text ++ py "](" ++ url ++ py ")" ++ rest)
     = pre ++ text ++ sub_links rest.
Proof.
  intros Hpre Ht Hu Hft Hfu. split.
  - rewrite extract_link_skip by exact Hpre.
    destruct (py "[" ++ text ++ py "](" ++ url ++ py ")" ++ rest) eqn:E;
      [discriminate E|]. rewrite <- E.
    assert (Hm := match_link_at text url rest Ht Hu Hft Hfu).
    rewrite E in *. cbn [extract_link_from_text]. rewrite Hm. reflexivity.
  - rewrite sub_links_skip by exact Hpre. f_equal.
    rewrite sub_links_eq, (match_link_at text url rest Ht Hu Hft Hfu).
    reflexivity.
Qed.

Lemma first_link_wins_witness :
  extract_link_from_text
    (py "See " ++ py "[" ++ py "here" ++ py "](" ++ py "https://x.com"
     ++ py ")" ++ py " and [there](https://y.com)")
  = Some (py "https://x.com")
  /\ sub_links
       (py "See " ++ py "[" ++ py "here" ++ py "](" ++ py "https://x.com"
        ++ py ")" ++ py " and [there](https://y.com)")
     = py "See " ++ py "here" ++ sub_links (py " and [there](https://y.com)").
Proof.
  apply (first_link_wins (py "See ") (py "here") (py "https://x.com")
           (py " and [there](https://y.com)") eq_refl);
    [discriminate | discriminate | reflexivity | reflexivity].
Defined.

Lemma span_forallb (p : char -> bool) (s a b : pystr) :
  span p s = (a, b) -> forallb p a = true.
Proof.
  revert a b; induction s as [|c s IH]; simpl; intros a b.
  - intros [= <- <-]; reflexivity.
  - destruct (p c) eqn:E.
    + destruct (span p s) as [a' b']. intros [= <- <-].
      simpl. rewrite E. exact (IH a' b' eq_refl).
    + intros [= <- <-]; reflexivity.
Qed.

(** What a match of the link pattern looks like. *)
Lemma match_link_shape (s text url rest : pystr) :
  match_link s = Some (text, url, rest) ->
  s = py "[" ++ text ++ py "](" ++ url ++ py ")" ++ rest
  /\ text <> [] /\ url <> []
  /\ forallb (fun c : char => negb (N.eqb c (ch "]"))) text = true
  /\ forallb (fun c : char => negb (N.eqb c (ch ")"))) url = true.
Proof.
  unfold match_link. destruct s as [|c s1]; [discriminate|].
  destruct (N.eqb c (ch "[")) eqn:Ec; [|discriminate].
  apply N.eqb_eq in Ec. subst c.
  destruct (span _ s1) as [t s2] eqn:E1.
  pose proof (span_forallb _ _ _ _ E1) as Ft. apply span_app in E1. subst s1.
  destruct t as [|t0 t]; [discriminate|].
  destruct s2 as [|rb [|lp s3]]; try discriminate.
  destruct (N.eqb rb (ch "]")) eqn:Er; [|discriminate].
  destruct (N.eqb lp (ch "(")) eqn:El; [|discriminate].
  apply N.eqb_eq in Er, El. subst rb lp. cbn [andb].
  destruct (span _ s3) as [u s4] eqn:E2.
  pose proof (span_forallb _ _ _ _ E2) as Fu. apply span_app in E2. subst s3.
  destruct u as [|u0 u]; [discriminate|].
  destruct s4 as [|rp s5]; [discriminate|].
  destruct (N.eqb rp (ch ")")) eqn:Ep; [|discriminate].
  apply N.eqb_eq in Ep. subst rp.
  intros [= <- <- <-].
  repeat split; try discriminate; assumption.
Qed.

(** X6.  A reference link is never empty and never made up: it is the
    target of a complete [[text](target)] that stands in the text, without
    closing parenthesis inside. *)
Theorem extracted_link_comes_from_text (s url : pystr) :
  extract_link_from_text s = Some url ->
  url <> []
  /\ forallb (fun c : char => negb (N.eqb c (ch ")"))) url = true
  /\ exists pre text rest,
       s = pre ++ py "[" ++ text ++ py "](" ++ url ++ py ")" ++ rest
       /\ text <> [].
Proof.
  induction s as [|c s IH].
  - simpl. discriminate.
  - cbn [extract_link_from_text].
    destruct (match_link (c :: s)) as [[[text u] rest]|] eqn:E.
    + intros [= <-]. apply match_link_shape in E.
      destruct E as (Es & Ht & Hu & _ & Fu).
      repeat split; try assumption.
      exists [], text, rest. split; [exact Es | exact Ht].
    + intros H. destruct (IH H) as (Hu & Fu & pre & text & rest & Es & Ht).
      repeat split; try assumption.
      exists (c :: pre), text, rest. rewrite Es. split; [reflexivity | exact Ht].
Qed.

Lemma extracted_link_comes_from_text_witness :
  py "u" <> []
  /\ forallb (fun c : char => negb (N.eqb c (ch ")"))) (py "u") = true
  /\ exists pre text rest,
       py "a [b](u) c" = pre ++ py "[" ++ text ++ py "](" ++ py "u" ++ py ")"
                         ++ rest
       /\ text <> [].
Proof.
  exact (extracted_link_comes_from_text (py "a [b](u) c") (py "u") eq_refl).
Defined.

Lemma sub_links_length (n : nat) (s : pystr) :
  (length s <= n)%nat -> (length (sub_links s) <= length s)%nat.
Proof.
  revert s; induction n as [|n IH]; intros s Hn.
  - destruct s; [apply le_n | simpl in Hn; lia].
  - rewrite sub_links_eq.
    destruct (match_link s) as [[[text url] rest]|] eqn:E.
    + apply match_link_shape in E. destruct E as (-> & _).
      repeat (rewrite ?length_app in *; simpl in * ).
      assert (length (sub_links rest) <= length rest)%nat
        by (apply IH; lia).
      lia.
    + destruct s as [|c s']; [apply le_n|].
      simpl in *. assert (length (sub_links s') <= length s')%nat
        by (apply IH; lia). lia.
Qed.

(** X7.  Replacing link markup leaves a text unchanged exactly when no
    link can be extracted from it. *)
Theorem no_link_iff_unchanged (s : pystr) :
  extract_link_from_text s = None <-> sub_links s = s.
Proof.
  split.
  - induction s as [|c s IH]; [reflexivity|].
    cbn [extract_link_from_text]. rewrite sub_links_eq.
    destruct (match_link (c :: s)) as [[[text url] rest]|]; [discriminate|].
    intros H. rewrite (IH H). reflexivity.
  - intros H.
    destruct (extract_link_from_text s) as [u|] eqn:E; [|reflexivity].
    exfalso.
    assert (Hlt : (length (sub_links s) < length s)%nat).
    { clear H. revert u E. induction s as [|c s IH]; intros u.
      - simpl. discriminate.
      - cbn [extract_link_from_text]. rewrite sub_links_eq.
        destruct (match_link (c :: s)) as [[[text url] rest]|] eqn:Em.
        + intros _. apply match_link_shape in Em. destruct Em as (Es & _).
          pose proof (sub_links_length _ rest (le_n _)) as Hr.
          rewrite Es. repeat (rewrite ?length_app; simpl). lia.
        + intros E. specialize (IH u E). simpl. lia. }
    rewrite H in Hlt. lia.
Qed.

(** ** Item normalisation: what is kept *)

(** X8.  An item is dropped exactly when its description is blank and it
    has no title.  A kept item with a blank description gets its title as
    description and no title; a kept item with a description keeps its
    title and gets the description trimmed, with link markup replaced. *)
Theorem clean_item_outcome (it : item) :
  (clean_item it = None
   <-> strip (description it) = [] /\ get_title it = [])
  /\ (forall c, clean_item it = Some c ->
        if nonempty (strip (description it))
        then description c = sub_links (strip (description it))
             /\ get_title c = get_title it
        else description c = get_title it /\ title c = None).
Proof.
  unfold clean_item.
  destruct (strip (description it)) as [|x l] eqn:Ed.
  - change (sub_links []) with (@nil char). simpl.
    destruct (get_title it) as [|y t]; simpl.
    + split; [split; auto | discriminate].
    + split; [split; [discriminate | intros [_ H]; discriminate H]|].
      intros c [= <-]. auto.
  - destruct (sub_links (x :: l)) as [|x' l'] eqn:Es.
    + apply sub_links_nil in Es. discriminate Es.
    + simpl. split; [split; [discriminate | intros [H _]; discriminate H]|].
      intros c [= <-]. simpl. split; [reflexivity|].
      unfold get_title at 1. simpl.
      destruct (get_title it); reflexivity.
Qed.

(** ** Calendar dates *)

Lemma date_new_valid (y m d : Z) (dt : date) :
  date_new y m d = Ok dt -> dt = mkdate y m d /\ valid_date dt.
Proof.
  unfold date_new.
  destruct (_ && _) eqn:E; [|discriminate]. intros [= <-].
  split; [reflexivity|]. unfold valid_date; simpl.
  repeat (apply andb_true_iff in E; destruct E as [E ?]).
  rewrite Z.leb_le in *. lia.
Qed.

Section Dates.
Variable digit : char -> option Z.

(** X9.  A file name gives the date [d] exactly when it begins with a
    month and a day, as [month-day.md], that make [d] a date of the
    calendar in the year asked for (the clock's when none is). *)
Theorem file_date_is_calendar_date (now : datetime) (filename : pystr)
    (y : option Z) (d : date) :
  extract_date_from_filename digit now filename y = Some d
  <-> valid_date d
      /\ year d = match y with
                  | Some y0 => y0
                  | None => dt_year now
                  end
      /\ match_filename digit filename = Some (month d, day d).
Proof.
  unfold extract_date_from_filename. split.
  - destruct (match_filename digit filename) as [[m dd]|]; [|discriminate].
    destruct (date_new _ m dd) as [dt|] eqn:E; [|discriminate].
    intros [= <-]. apply date_new_valid in E. destruct E as [-> Hv].
    simpl. auto.
  - intros (Hv & Hy & ->).
    replace (match y with
             | Some y0 => y0
             | None => dt_year now
             end) with (year d)
      by (rewrite Hy; destruct y; reflexivity).
    unfold valid_date in Hv. unfold date_new.
    replace ((MINYEAR <=? year d) && (year d <=? MAXYEAR)
             && (1 <=? month d) && (month d <=? 12) && (1 <=? day d)
             && (day d <=? days_in_month (year d) (month d)))%Z with true.
    + destruct d; reflexivity.
    + symmetry. rewrite !andb_true_iff, !Z.leb_le. lia.
Qed.

(** X10.  When the resolver returns a range, both ends are dates of the
    calendar, the start lies in the clock's year and carries the first
    month and day of the identifier, the end the second. *)
Theorem resolved_range_is_valid (now : datetime) (folder : pystr)
    (s e : date) (y : Z) :
  get_date_range_from_folder digit now folder = Ok (Some s, Some e, y) ->
  valid_date s /\ valid_date e /\ y = dt_year now /\ year s = y
  /\ match_range digit (basename folder)
     = Some (month s, day s, month e, day e).
Proof.
  unfold get_date_range_from_folder.
  destruct (match_range digit (basename folder))
    as [[[[sm sd] em] ed]|]; [|discriminate].
  destruct (em <? sm)%Z;
    destruct (date_new (dt_year now) sm sd) as [s0|] eqn:Hs;
    cbn [bind]; try discriminate.
  - destruct (date_new (dt_year now + 1) em ed) as [e0|] eqn:He;
      cbn [bind]; [|discriminate].
    intros [= <- <- <-].
    apply date_new_valid in Hs, He. destruct Hs as [-> Vs], He as [-> Ve].
    simpl. auto.
  - destruct (date_new (dt_year now) em ed) as [e0|] eqn:He;
      cbn [bind]; [|discriminate].
    intros [= <- <- <-].
    apply date_new_valid in Hs, He. destruct Hs as [-> Vs], He as [-> Ve].
    simpl. auto.
Qed.

End Dates.

Lemma file_date_is_calendar_date_witness :
  valid_date (mkdate 2026 7 6)
  /\ year (mkdate 2026 7 6) = 2026%Z
  /\ match_filename digit_ascii (py "07-6.md.bak")
     = Some (month (mkdate 2026 7 6), day (mkdate 2026 7 6)).
Proof.
  exact (proj1 (file_date_is_calendar_date digit_ascii (clock 2026)
                  (py "07-6.md.bak") None (mkdate 2026 7 6)) eq_refl).
Defined.

Lemma resolved_range_is_valid_witness :
  valid_date (mkdate 2026 7 29) /\ valid_date (mkdate 2026 8 2)
  /\ 2026%Z = dt_year (clock 2026) /\ year (mkdate 2026 7 29) = 2026%Z
  /\ match_range digit_ascii (basename (py "data/7.29-8.2"))
     = Some (month (mkdate 2026 7 29), day (mkdate 2026 7 29),
             month (mkdate 2026 8 2), day (mkdate 2026 8 2)).
Proof.
  exact (resolved_range_is_valid digit_ascii (clock 2026)
           (py "data/7.29-8.2") (mkdate 2026 7 29) (mkdate 2026 8 2) 2026%Z
           eq_refl).
Defined.

(** ** The file ordering: when it returns, and on what it depends *)

Lemma days_in_month_other_year (y y' m d : Z) :
  (m =? 2)%Z && (d =? 29)%Z = false ->
  (d <= days_in_month y m)%Z -> (d <= days_in_month y' m)%Z.
Proof.
  unfold days_in_month. destruct (m =? 2)%Z; [|auto].
  simpl. intros Hd. apply Z.eqb_neq in Hd.
  destruct (is_leap y), (is_leap y'); lia.
Qed.

Section OrderingReturns.
Variable digit : char -> option Z.

Lemma file_date_entry_returns (now : datetime) (sd ed : option date) (y : Z)
    (filename : pystr) :
  (y < MAXYEAR)%Z -> no_leap_day digit filename = true ->
  exists d, file_date_entry digit now sd ed y filename = Ok (d, filename).
Proof.
  intros Hy Hl. unfold file_date_entry.
  destruct (extract_date_from_filename digit now filename (Some y))
    as [d|] eqn:E; [|eauto].
  destruct sd as [s|]; [|eauto]. destruct ed as [e|]; [|eauto].
  destruct (month d <? month s)%Z; [|eauto].
  unfold extract_date_from_filename in E. unfold no_leap_day in Hl.
  destruct (match_filename digit filename) as [[m dd]|]; [|discriminate].
  destruct (date_new y m dd) as [d0|] eqn:En; [|discriminate].
  injection E as ->. apply date_new_valid in En. destruct En as [-> Hv].
  unfold valid_date in Hv. simpl in Hv. apply negb_true_iff in Hl.
  unfold date_replace_year, date_new. simpl.
  pose proof (days_in_month_other_year y (y + 1) m dd Hl) as Hd.
  unfold MINYEAR, MAXYEAR in *.
  replace ((1 <=? y + 1) && (y + 1 <=? 9999) && (1 <=? m) && (m <=? 12)
           && (1 <=? dd) && (dd <=? days_in_month (y + 1) m))%Z with true.
  - cbn [bind]. eauto.
  - symmetry. rewrite !andb_true_iff, !Z.leb_le. lia.
Qed.

Lemma file_dates_of_returns (now : datetime) (sd ed : option date) (y : Z)
    (md_files : list pystr) :
  (y < MAXYEAR)%Z -> forallb (no_leap_day digit) md_files = true ->
  exists fd, file_dates_of digit now sd ed y md_files = Ok fd.
Proof.
  intros Hy. induction md_files as [|f fs IH]; intros H; [eexists; reflexivity|].
  simpl in H. apply andb_true_iff in H. destruct H as [Hf Hfs].
  destruct (file_date_entry_returns now sd ed y f Hy Hf) as [d Hd].
  destruct (IH Hfs) as [fd Hfd].
  cbn [file_dates_of]. rewrite Hd, Hfd. cbn [bind]. eauto.
Qed.

Lemma sort_files_by_date_perm (now : datetime) (md_files : list pystr)
    (folder_path : pystr) (sorted : list pystr) :
  sort_files_by_date digit now md_files folder_path = Ok sorted ->
  Permutation sorted md_files.
Proof.
  unfold sort_files_by_date.
  destruct (get_date_range_from_folder digit now folder_path)
    as [[[sd ed] y]|]; [|discriminate].
  cbn [bind].
  destruct (file_dates_of digit now sd ed y md_files) as [fd|] eqn:Ef;
    [|discriminate].
  cbn [bind]. intros [= <-].
  rewrite <- (file_dates_of_names _ _ _ _ _ _ _ Ef).
  apply Permutation_map. apply stable_sort_perm.
Qed.

(** X11.  Once the folder's range is resolved, the ordering fails only on a
    name that reads as 29 February (or in the last year of the calendar):
    without such a name it returns a rearrangement of the names. *)
Theorem ordering_returns_without_leap_day (now : datetime)
    (md_files : list pystr) (folder_path : pystr)
    (r : option date * option date * Z) :
  get_date_range_from_folder digit now folder_path = Ok r ->
  (dt_year now < MAXYEAR)%Z ->
  forallb (no_leap_day digit) md_files = true ->
  exists sorted,
    sort_files_by_date digit now md_files folder_path = Ok sorted
    /\ Permutation sorted md_files.
Proof.
  intros Hr Hy Hl.
  assert (Hs : exists sorted,
             sort_files_by_date digit now md_files folder_path = Ok sorted).
  { unfold sort_files_by_date. rewrite Hr. cbn [bind].
    destruct r as [[sd ed] y].
    assert (y = dt_year now).
    { unfold get_date_range_from_folder in Hr.
      destruct (match_range digit (basename folder_path))
        as [[[[sm sdd] em] edd]|]; [|congruence].
      destruct (em <? sm)%Z;
        destruct (date_new (dt_year now) sm sdd); cbn [bind] in Hr;
        try discriminate;
        destruct (date_new _ em edd); cbn [bind] in Hr; congruence. }
    subst y.
    destruct (file_dates_of_returns now sd ed (dt_year now) md_files Hy Hl)
      as [fd ->].
    cbn [bind]. eauto. }
  destruct Hs as [sorted Hs]. exists sorted. split; [exact Hs|].
  exact (sort_files_by_date_perm _ _ _ _ Hs).
Qed.

End OrderingReturns.

Lemma ordering_returns_without_leap_day_witness :
  exists sorted,
    sort_files_by_date digit_ascii (clock 2028)
      [py "1-2.md"; py "12-30.md"; py "draft.md"] (py "12.28-1.3")
    = Ok sorted
    /\ Permutation sorted [py "1-2.md"; py "12-30.md"; py "draft.md"].
Proof.
  exact (ordering_returns_without_leap_day digit_ascii (clock 2028)
           [py "1-2.md"; py "12-30.md"; py "draft.md"] (py "12.28-1.3")
           (Some (mkdate 2028 12 28), Some (mkdate 2029 1 3), 2028%Z)
           eq_refl eq_refl eq_refl).
Defined.

(** *** The order of the listing *)

Lemma date_eqb_eq (a b : date) : date_eqb a b = true <-> a = b.
Proof.
  unfold date_eqb. rewrite !andb_true_iff, !Z.eqb_eq.
  destruct a, b; simpl. split.
  - intros [[-> ->] ->]; reflexivity.
  - intros [= -> -> ->]; auto.
Qed.

Lemma distinct_dates_NoDup (ds : list date) :
  distinct_dates ds = true -> NoDup ds.
Proof.
  induction ds as [|d ds IH]; simpl; [constructor|].
  rewrite andb_true_iff, negb_true_iff. intros [Hd Hds].
  constructor; [|exact (IH Hds)].
  intros Hin. assert (existsb (date_eqb d) ds = true); [|congruence].
  apply existsb_exists. exists d. split; [exact Hin | apply date_eqb_eq; auto].
Qed.

Lemma date_ltb_total (a b : date) :
  date_ltb a b = false -> date_ltb b a = false -> a = b.
Proof.
  rewrite <- !not_true_iff_false, !date_ltb_lt.
  destruct a, b; simpl. intros H1 H2.
  assert (year0 = year1) by lia. assert (month0 = month1) by lia.
  assert (day0 = day1) by lia. subst. reflexivity.
Qed.

(** Two ascending arrangements of the same entries, no two of which share
    a date, are the same list. *)
Lemma sorted_entries_unique (s1 : list (date * pystr)) :
  forall s2,
  StronglySorted (fun a b => entry_ltb b a = false) s1 ->
  StronglySorted (fun a b => entry_ltb b a = false) s2 ->
  Permutation s1 s2 -> NoDup (map fst s1) -> s1 = s2.
Proof.
  induction s1 as [|a t1 IH]; intros s2 S1 S2 P N.
  - apply Permutation_nil in P. auto.
  - destruct s2 as [|b t2];
      [apply Permutation_sym, Permutation_nil in P; discriminate|].
    inversion S1 as [|? ? S1' F1]; subst.
    inversion S2 as [|? ? S2' F2]; subst.
    inversion N as [|? ? Na N']; subst.
    assert (Hab : a = b).
    { assert (Ha : In a (b :: t2))
        by (apply (Permutation_in _ P); left; reflexivity).
      assert (Hb : In b (a :: t1))
        by (apply (Permutation_in _ (Permutation_sym P)); left; reflexivity).
      destruct Ha as [Ha | Ha]; [auto|].
      destruct Hb as [Hb | Hb]; [auto|].
      exfalso. rewrite Forall_forall in F1, F2.
      pose proof (F1 b Hb) as L1. pose proof (F2 a Ha) as L2.
      unfold entry_ltb in L1, L2.
      pose proof (date_ltb_total _ _ L2 L1) as E.
      apply Na. rewrite E. apply in_map. exact Hb. }
    subst b. f_equal.
    apply IH; try assumption. exact (Permutation_cons_inv P).
Qed.

Lemma md_files_of_perm (l1 l2 : list pystr) :
  Permutation l1 l2 -> Permutation (md_files_of l1) (md_files_of l2).
Proof.
  unfold md_files_of. induction 1 as [|x l l' _ IH|x y l|l l' l'' _ IH1 _ IH2];
    simpl.
  - constructor.
  - destruct (endswith x (py ".md")); [constructor|]; exact IH.
  - destruct (endswith x (py ".md")), (endswith y (py ".md"));
      try apply Permutation_refl; apply perm_swap.
  - exact (perm_trans IH1 IH2).
Qed.

Section ListingOrder.
Variable lower : pystr -> pystr.
Variable digit : char -> option Z.

Lemma file_dates_of_Forall2 (now : datetime) (sd ed : option date) (y : Z)
    (md_files : list pystr) (fd : list (date * pystr)) :
  file_dates_of digit now sd ed y md_files = Ok fd
  <-> Forall2 (fun f e => file_date_entry digit now sd ed y f = Ok e)
              md_files fd.
Proof.
  revert fd; induction md_files as [|f fs IH]; intros fd; simpl.
  - split; [intros [= <-]; constructor | intros H; inversion H; reflexivity].
  - split.
    + destruct (file_date_entry digit now sd ed y f) as [e|] eqn:Ee;
        [|discriminate].
      cbn [bind].
      destruct (file_dates_of digit now sd ed y fs) as [es|]; [|discriminate].
      cbn [bind]. intros [= <-]. constructor; [exact Ee|].
      apply IH. reflexivity.
    + intros H. inversion H as [|? e ? es He Hes]; subst.
      rewrite He. cbn [bind]. apply IH in Hes. rewrite Hes. reflexivity.
Qed.

Lemma sort_files_by_date_listing (now : datetime) (l1 l2 : list pystr)
    (folder_path : pystr) :
  Permutation l1 l2 ->
  distinct_candidates digit now l1 folder_path = true ->
  sort_files_by_date digit now l2 folder_path
  = sort_files_by_date digit now l1 folder_path.
Proof.
  intros P. unfold distinct_candidates, candidate_dates, sort_files_by_date.
  destruct (get_date_range_from_folder digit now folder_path)
    as [[[sd ed] y]|]; [|discriminate].
  cbn [bind].
  destruct (file_dates_of digit now sd ed y l1) as [fd1|] eqn:E1;
    [|discriminate].
  cbn [bind]. intros Hd. apply distinct_dates_NoDup in Hd.
  apply file_dates_of_Forall2 in E1.
  destruct (Permutation_Forall2 P E1) as (fd2 & Pfd & F2).
  apply file_dates_of_Forall2 in F2. rewrite F2. cbn [bind].
  do 2 f_equal. symmetry.
  apply sorted_entries_unique.
  - exact (stable_sort_sorted entry_ltb
             (fun a b => date_ltb_asym (fst a) (fst b))
             (fun a b c => date_leb_trans (fst a) (fst b) (fst c)) fd1).
  - exact (stable_sort_sorted entry_ltb
             (fun a b => date_ltb_asym (fst a) (fst b))
             (fun a b c => date_leb_trans (fst a) (fst b) (fst c)) fd2).
  - eapply perm_trans; [apply stable_sort_perm|].
    eapply perm_trans; [exact Pfd|].
    apply Permutation_sym, stable_sort_perm.
  - apply (Permutation_NoDup
             (Permutation_map fst
                (Permutation_sym (stable_sort_perm entry_ltb fd1)))).
    exact Hd.
Qed.

(** X12.  When the dates of the [.md] files of a folder are all different,
    the order in which the directory lists its entries does not matter:
    any rearrangement of the listing gives the same result. *)
Theorem listing_order_irrelevant (now : datetime) (folder_path : pystr)
    (listing1 listing2 : list pystr) (read : pystr -> pystr) :
  Permutation listing1 listing2 ->
  distinct_candidates digit now (md_files_of listing1) folder_path = true ->
  merge_files_to_json lower digit now folder_path listing2 read
  = merge_files_to_json lower digit now folder_path listing1 read.
Proof.
  intros P Hd. apply md_files_of_perm in P.
  rewrite !merge_files_to_json_aggregate. fold (md_files_of listing1).
  fold (md_files_of listing2).
  pose proof (sort_files_by_date_listing now _ _ folder_path P Hd) as Hs.
  destruct (md_files_of listing1) as [|f1 fs1] eqn:E1.
  - apply Permutation_nil in P. rewrite P. reflexivity.
  - destruct (md_files_of listing2) as [|f2 fs2] eqn:E2.
    + apply Permutation_sym, Permutation_nil in P. discriminate P.
    + rewrite Hs. reflexivity.
Qed.

End ListingOrder.

Lemma listing_order_irrelevant_witness :
  merge_files_to_json lower_ascii digit_ascii (clock 2026) (py "7.6-7.12")
    [py "7-6.md"; py "notes.txt"; py "7-7.md"] scenario_a_read
  = merge_files_to_json lower_ascii digit_ascii (clock 2026) (py "7.6-7.12")
      [py "7-7.md"; py "notes.txt"; py "7-6.md"] scenario_a_read.
Proof.
  apply (listing_order_irrelevant lower_ascii digit_ascii (clock 2026)
           (py "7.6-7.12") [py "7-7.md"; py "notes.txt"; py "7-6.md"]
           [py "7-6.md"; py "notes.txt"; py "7-7.md"] scenario_a_read).
  - apply (perm_trans (l' := [py "notes.txt"; py "7-7.md"; py "7-6.md"])).
    + apply perm_swap.
    + apply (perm_trans (l' := [py "notes.txt"; py "7-6.md"; py "7-7.md"])).
      * apply perm_skip. apply perm_swap.
      * apply perm_swap.
  - reflexivity.
Defined.

(** With two names of the same date the listing order shows in the
    output order. *)
Example listing_order_shows_on_ties :
  sort_files_by_date digit_ascii (clock 2026) [py "a.md"; py "b.md"]
    (py "7.6-7.12")
  <> sort_files_by_date digit_ascii (clock 2026) [py "b.md"; py "a.md"]
       (py "7.6-7.12").
Proof. vm_compute. discriminate. Qed.

(** ** Unknown sections, failures of a run, files that are read *)

Section Outcomes.
Variable lower : pystr -> pystr.
Variable digit : char -> option Z.

Lemma not_categorized_lookup (section_name : pystr) :
  categorized section_name = false ->
  dict_get section_name subcategory_mapping = None.
Proof.
  unfold categorized, str_in. cbn [existsb].
  rewrite !orb_false_iff. intros (H1 & H2 & H3 & _).
  unfold subcategory_mapping. cbn [dict_get]. rewrite H1, H2, H3.
  reflexivity.
Qed.

(** X13.  For BUSINESS, TECHNOLOGY and RESEARCH the keyword classifier
    always answers, with a subcategory of the section; for any other
    section name it raises [KeyError]. *)
Theorem classifier_answers_in_section (text section_name : pystr) :
  if categorized section_name
  then exists k,
         detect_subcategory lower text section_name subcategory_mapping
         = Ok k
         /\ str_in k (section_keys section_name) = true
  else detect_subcategory lower text section_name subcategory_mapping
       = Raise KeyError.
Proof.
  destruct (categorized section_name) eqn:Hc.
  - exact (detect_subcategory_in lower section_name text Hc).
  - unfold detect_subcategory, dict_lookup.
    rewrite (not_categorized_lookup _ Hc). reflexivity.
Qed.






(** X16.  The result of a run depends on the files through the texts of
    the listed [.md] files only: two file systems that agree on them give
    the same result. *)
Theorem output_depends_on_md_files (now : datetime) (folder_path : pystr)
    (listing : list pystr) (read1 read2 : pystr -> pystr) :
  (forall f, In f (md_files_of listing) ->
     read1 (path_join folder_path f) = read2 (path_join folder_path f)) ->
  merge_files_to_json lower digit now folder_path listing read1
  = merge_files_to_json lower digit now folder_path listing read2.
Proof.
  intros H. rewrite !merge_files_to_json_aggregate.
  fold (md_files_of listing).
  destruct (md_files_of listing) as [|f fs] eqn:E; [reflexivity|].
  destruct (sort_files_by_date digit now (f :: fs) folder_path)
    as [sorted|e] eqn:Es; [|reflexivity].
  cbn [bind]. do 3 f_equal.
  apply map_ext_in. intros x Hx. unfold parse_markdown_file.
  rewrite H; [reflexivity|].
  exact (Permutation_in _ (sort_files_by_date_perm digit _ _ _ _ Es) Hx).
Qed.

End Outcomes.


Lemma output_depends_on_md_files_witness :
  merge_files_to_json lower_ascii digit_ascii (clock 2026) (py "7.6-7.12")
    [py "7-7.md"; py "notes.txt"; py "7-6.md"] scenario_a_read
  = merge_files_to_json lower_ascii digit_ascii (clock 2026) (py "7.6-7.12")
      [py "7-7.md"; py "notes.txt"; py "7-6.md"] scenario_a_read_more.
Proof.
  apply (output_depends_on_md_files lower_ascii digit_ascii (clock 2026)
           (py "7.6-7.12") [py "7-7.md"; py "notes.txt"; py "7-6.md"]
           scenario_a_read scenario_a_read_more).
  intros f [<- | [<- | []]]; reflexivity.
Defined.

(** ** Simple sections, line by line *)

Lemma split_on_nonempty (sep : char) (s : pystr) : split_on sep s <> [].
Proof.
  destruct s as [|c s]; simpl; [discriminate|].
  destruct (N.eqb c sep); [discriminate|].
  destruct (split_on sep s); discriminate.
Qed.

Lemma split_on_concat (sep : char) (a b : pystr) :
  split_on sep (a ++ sep :: b) = split_on sep a ++ split_on sep b.
Proof.
  induction a as [|c a IH]; simpl.
  - rewrite N.eqb_refl. reflexivity.
  - destruct (N.eqb c sep); [rewrite IH; reflexivity|].
    rewrite IH. pose proof (split_on_nonempty sep a) as Hne.
    destruct (split_on sep a) as [|l ls]; [congruence | reflexivity].
Qed.

(** Outside PRODUCTS a line adds its own items and nothing else. *)
Lemma simple_step_line (section_name : pystr) (st : simple_state)
    (raw : pystr) (next : option pystr) :
  str_eqb section_name (py "PRODUCTS") = false ->
  simple_step section_name st raw next
  = (mksimple (s_items st ++ highlight_line_items raw) (s_current_item st)
              (s_just_created_item_from_dashes st), false).
Proof.
  intros Hs. unfold highlight_line_items, simple_step. rewrite Hs.
  change (str_eqb (py "HIGHLIGHTS") (py "PRODUCTS")) with false.
  destruct st as [items cur flag]. simpl s_items. simpl s_current_item.
  simpl s_just_created_item_from_dashes.
  destruct (nonempty (strip raw)); cbn [negb];
    [|simpl; rewrite app_nil_r; reflexivity].
  destruct (is_delimiter (strip raw));
    [simpl; rewrite app_nil_r; reflexivity|].
  unfold highlights_step. cbn [s_items s_current_item
    s_just_created_item_from_dashes].
  repeat match goal with
         | |- context [if ?b then _ else _] => destruct b
         end; simpl; rewrite ?app_nil_r; reflexivity.
Qed.

Lemma simple_loop_lines (section_name : pystr) (lines : list pystr) :
  str_eqb section_name (py "PRODUCTS") = false ->
  forall st,
  simple_loop section_name st lines
  = mksimple (s_items st ++ flat_map highlight_line_items lines)
             (s_current_item st) (s_just_created_item_from_dashes st).
Proof.
  intros Hs. induction lines as [|raw rest IH]; intros st.
  - simpl. rewrite app_nil_r. destruct st; reflexivity.
  - cbn [simple_loop]. rewrite (simple_step_line _ st raw _ Hs).
    rewrite IH. simpl. rewrite <- app_assoc. reflexivity.
Qed.

Lemma simple_raw_items_lines (content section_name : pystr) :
  str_eqb section_name (py "PRODUCTS") = false ->
  simple_raw_items content section_name
  = flat_map highlight_line_items (split_on newline content).
Proof.
  intros Hs. unfold simple_raw_items.
  rewrite (simple_loop_lines _ _ Hs). reflexivity.
Qed.

(** X17.  Outside PRODUCTS every line is parsed on its own: the items of
    two texts put one after the other are the items of the first followed
    by the items of the second. *)
Theorem highlights_parse_by_line (text1 text2 section_name : pystr) :
  str_eqb section_name (py "PRODUCTS") = false ->
  parse_simple_section (text1 ++ newline :: text2) section_name
  = parse_simple_section text1 section_name
    ++ parse_simple_section text2 section_name.
Proof.
  intros Hs.
  change (parse_simple_section (text1 ++ newline :: text2) section_name)
    with (clean_items (simple_raw_items (text1 ++ newline :: text2)
                                        section_name)).
  change (parse_simple_section text1 section_name)
    with (clean_items (simple_raw_items text1 section_name)).
  change (parse_simple_section text2 section_name)
    with (clean_items (simple_raw_items text2 section_name)).
  rewrite !simple_raw_items_lines by exact Hs.
  rewrite split_on_concat, flat_map_app. apply clean_items_app.
Qed.

Lemma highlights_parse_by_line_witness :
  parse_simple_section
    ((bullet :: py " one [a](u)") ++ newline
     :: text_of ["# heading"; EmptyString; "two"]%string)
    (py "HIGHLIGHTS")
  = parse_simple_section (bullet :: py " one [a](u)") (py "HIGHLIGHTS")
    ++ parse_simple_section (text_of ["# heading"; EmptyString; "two"]%string) (py "HIGHLIGHTS").
Proof.
  exact (highlights_parse_by_line (bullet :: py " one [a](u)")
           (text_of ["# heading"; EmptyString; "two"]%string) (py "HIGHLIGHTS") eq_refl).
Defined.

(** What a line gives outside PRODUCTS: at most one item, without title,
    with a description that is not blank. *)
Lemma highlight_line_items_shape (raw : pystr) :
  (length (highlight_line_items raw) <= 1)%nat
  /\ Forall (fun it => title it = None /\ has_description it = true)
            (highlight_line_items raw).
Proof.
  unfold highlight_line_items, simple_step.
  change (str_eqb (py "HIGHLIGHTS") (py "PRODUCTS")) with false.
  destruct (nonempty (strip raw)) eqn:Hne; cbn [negb];
    [|split; [simpl; lia | constructor]].
  destruct (is_delimiter (strip raw)); [split; [simpl; lia | constructor]|].
  unfold highlights_step. rewrite Hne. cbn [andb s_items].
  destruct (negb (startswith (strip raw) (py "#")));
    [|split; [simpl; lia | constructor]].
  destruct (startswith (strip raw) [bullet]).
  - destruct (nonempty (strip (pyslice 1 None (strip raw)))) eqn:Hd;
      [|split; [simpl; lia | constructor]].
    split; [simpl; lia|]. repeat constructor. simpl.
    unfold has_description. simpl. rewrite strip_idempotent. exact Hd.
  - split; [simpl; lia|]. repeat constructor. simpl.
    unfold has_description. simpl. rewrite strip_idempotent. exact Hne.
Qed.

Lemma clean_items_length (l : list item) :
  (length (clean_items l) <= length l)%nat.
Proof.
  induction l as [|it l IH]; simpl; [lia|].
  destruct (clean_item it); simpl; lia.
Qed.

Lemma clean_items_no_title (l : list item) :
  Forall (fun it => title it = None) l ->
  Forall (fun it => title it = None) (clean_items l).
Proof.
  induction 1 as [|it l Ht _ IH]; simpl; [constructor|].
  destruct (clean_item it) as [c|] eqn:E; [|exact IH].
  constructor; [|exact IH].
  unfold clean_item, get_title in E. rewrite Ht in E.
  destruct (nonempty (sub_links (strip (description it)))); simpl in E;
    [|discriminate].
  injection E as <-. reflexivity.
Qed.

(** X18.  Outside PRODUCTS the simple parser gives at most one item per
    line of the text, and no item carries a title. *)
Theorem highlights_items_per_line (text section_name : pystr) :
  str_eqb section_name (py "PRODUCTS") = false ->
  (length (parse_simple_section text section_name)
   <= length (split_on newline text))%nat
  /\ Forall (fun it => title it = None)
            (parse_simple_section text section_name).
Proof.
  intros Hs.
  change (parse_simple_section text section_name)
    with (clean_items (simple_raw_items text section_name)).
  rewrite simple_raw_items_lines by exact Hs. split.
  - eapply Nat.le_trans; [apply clean_items_length|].
    induction (split_on newline text) as [|raw rest IH]; simpl; [lia|].
    rewrite length_app.
    pose proof (proj1 (highlight_line_items_shape raw)). lia.
  - apply clean_items_no_title.
    induction (split_on newline text) as [|raw rest IH]; simpl;
      [constructor|].
    apply Forall_app. split; [|exact IH].
    eapply Forall_impl; [|exact (proj2 (highlight_line_items_shape raw))].
    intros it [H _]; exact H.
Qed.

Lemma highlights_items_per_line_witness :
  (length (parse_simple_section (text_of ["one"; EmptyString; "* * *"; "two"]%string) (py "HIGHLIGHTS"))
   <= length (split_on newline (text_of ["one"; EmptyString; "* * *"; "two"]%string)))%nat
  /\ Forall (fun it => title it = None)
            (parse_simple_section (text_of ["one"; EmptyString; "* * *"; "two"]%string) (py "HIGHLIGHTS")).
Proof.
  exact (highlights_items_per_line (text_of ["one"; EmptyString; "* * *"; "two"]%string) (py "HIGHLIGHTS")
           eq_refl).
Defined.

(** ** PRODUCTS: titles and validation *)

(** The step of the loop keeps a property of the state that each of its
    branches keeps. *)
Lemma simple_loop_invariant (P : simple_state -> Prop)
    (section_name : pystr) :
  (forall st raw next, P st ->
     P (fst (simple_step section_name st raw next))) ->
  forall lines st, P st -> P (simple_loop section_name st lines).
Proof.
  intros Hstep lines.
  assert (H : forall n lines, (length lines <= n)%nat ->
            forall st, P st -> P (simple_loop section_name st lines)).
  { induction n as [|n IH]; intros ls Hn st Hst.
    - destruct ls; [exact Hst | simpl in Hn; lia].
    - destruct ls as [|raw rest]; [exact Hst|].
      cbn [simple_loop].
      pose proof (Hstep st raw (hd_error rest) Hst) as H1.
      destruct (simple_step section_name st raw (hd_error rest))
        as [st' two]. simpl in H1. simpl in Hn.
      destruct two.
      + destruct rest as [|r rest']; [exact H1|].
        apply IH; [simpl in Hn; lia | exact H1].
      + apply IH; [lia | exact H1]. }
  intros st Hst. exact (H (length lines) lines (Nat.le_refl _) st Hst).
Qed.

Lemma has_title_nonempty (it : item) :
  has_title it = true -> nonempty (get_title it) = true.
Proof.
  unfold has_title, get_title. destruct (title it) as [[|c t]|];
    [discriminate | reflexivity | discriminate].
Qed.

(** In PRODUCTS every item the loop holds has a title. *)
Lemma products_step_titled (st : simple_state) (raw : pystr)
    (next : option pystr) :
  (Forall (fun it => has_title it = true) (s_items st)
   /\ forall it, s_current_item st = Some it -> has_title it = true) ->
  let st' := fst (simple_step (py "PRODUCTS") st raw next) in
  Forall (fun it => has_title it = true) (s_items st')
  /\ forall it, s_current_item st' = Some it -> has_title it = true.
Proof.
  intros [Hi Hc]. unfold simple_step.
  destruct (nonempty (strip raw)) eqn:Hne; cbn [negb]; [|split; assumption].
  destruct (is_delimiter (strip raw)); [split; assumption|].
  change (str_eqb (py "PRODUCTS") (py "PRODUCTS")) with true. cbv iota.
  unfold products_step.
  destruct (dash_underline 10 next).
  - simpl. split.
    + destruct (s_current_item st) as [it|]; simpl; [|exact Hi].
      apply Forall_app. split; [exact Hi|]. constructor; [|constructor].
      apply Hc. reflexivity.
    + intros it [= <-]. unfold has_title. simpl.
      rewrite strip_idempotent. exact Hne.
  - destruct (_ && _ && _); [split; assumption|].
    destruct (s_current_item st) as [it|] eqn:Ec; simpl;
      [|split; [exact Hi | discriminate]].
    split; [exact Hi|]. intros it' [= <-].
    specialize (Hc it eq_refl). unfold capture_link.
    destruct (_ && _); exact Hc.
Qed.

Lemma products_raw_titled (text : pystr) :
  Forall (fun it => has_title it = true)
         (simple_raw_items text (py "PRODUCTS")).
Proof.
  unfold simple_raw_items.
  pose proof (simple_loop_invariant
    (fun st => Forall (fun it => has_title it = true) (s_items st)
               /\ forall it, s_current_item st = Some it ->
                             has_title it = true)
    (py "PRODUCTS") products_step_titled (split_on newline text)
    (mksimple [] None false)) as H.
  destruct H as [Hi Hc]; [split; [constructor | discriminate]|].
  destruct (s_current_item _) as [it|]; simpl; [|exact Hi].
  apply Forall_app. split; [exact Hi|]. constructor; [|constructor].
  apply Hc. reflexivity.
Qed.

(** The number of messages, when whether an item gets one does not depend
    on its index. *)
Lemma collect_warnings_length {A : Type} (f : nat -> A -> option pystr)
    (g : A -> bool) (l : list A) :
  (forall idx x, In x l ->
     if g x then f idx x <> None else f idx x = None) ->
  length (collect_warnings f l) = length (filter g l).
Proof.
  unfold collect_warnings. generalize 0%nat.
  induction l as [|x l IH]; intros n H; [reflexivity|].
  simpl. rewrite length_app, IH by (intros; apply H; right; assumption).
  pose proof (H n x (or_introl eq_refl)) as Hx.
  destruct (g x); simpl.
  - destruct (f n x); [reflexivity | congruence].
  - rewrite Hx. reflexivity.
Qed.

(** A titled item is never dropped, and comes out without title exactly
    when its description is blank. *)
Lemma clean_item_titled (it : item) :
  has_title it = true ->
  exists c, clean_item it = Some c
            /\ (match title c with None => true | Some _ => false end
                = negb (has_description it)).
Proof.
  intros Ht. apply has_title_nonempty in Ht.
  unfold clean_item, has_description. rewrite Ht.
  destruct (strip (description it)) as [|x l] eqn:Ed.
  - change (sub_links []) with (@nil char). simpl.
    eexists. split; [reflexivity|]. reflexivity.
  - destruct (sub_links (x :: l)) as [|x' l'] eqn:Es.
    + apply sub_links_nil in Es. discriminate Es.
    + simpl. eexists. split; [reflexivity|]. simpl. rewrite Ht. reflexivity.
Qed.

(** X19.  PRODUCTS never drops an item it has opened, and prints one
    warning for each item that comes out without a title: these are the
    titles whose description stayed blank, moved to the description. *)
Theorem products_warnings_count (text : pystr) :
  length (parse_simple_section text (py "PRODUCTS"))
  = length (simple_raw_items text (py "PRODUCTS"))
  /\ length (simple_section_warnings text (py "PRODUCTS"))
     = length (filter (fun c => match title c with
                                | None => true
                                | Some _ => false
                                end)
                      (parse_simple_section text (py "PRODUCTS"))).
Proof.
  change (parse_simple_section text (py "PRODUCTS"))
    with (clean_items (simple_raw_items text (py "PRODUCTS"))).
  unfold simple_section_warnings, simple_validation_warnings.
  change (str_in (py "PRODUCTS") [py "PRODUCTS"; py "HIGHLIGHTS"]) with true.
  cbv iota.
  pose proof (products_raw_titled text) as Ht.
  set (raw := simple_raw_items text (py "PRODUCTS")) in *. clearbody raw.
  rewrite (collect_warnings_length _ (fun it => negb (has_description it))).
  - induction Ht as [|it l Hit _ [IH1 IH2]]; [split; reflexivity|].
    destruct (clean_item_titled it Hit) as (c & Ec & Hc).
    simpl. rewrite Ec. simpl. rewrite Hc.
    destruct (negb (has_description it)); simpl; rewrite IH1, IH2;
      split; reflexivity.
  - intros idx it Hin. rewrite Forall_forall in Ht.
    unfold simple_item_warning.
    change (str_eqb (py "PRODUCTS") (py "PRODUCTS")) with true. cbv iota.
    rewrite (Ht it Hin).
    destruct (has_description it); simpl; [reflexivity | discriminate].
Qed.

(** X20.  PRODUCTS opens an item only at a line underlined by more than
    ten dashes: a text without such an underline gives no item and no
    warning, whatever else it holds. *)
Theorem products_needs_underline (text : pystr) :
  forallb (fun l => negb (dash_underline 10 (Some l)))
          (split_on newline text) = true ->
  parse_simple_section text (py "PRODUCTS") = []
  /\ simple_section_warnings text (py "PRODUCTS") = [].
Proof.
  intros H.
  assert (Hl : simple_loop (py "PRODUCTS") (mksimple [] None false)
                 (split_on newline text) = mksimple [] None false).
  { induction (split_on newline text) as [|raw rest IH]; [reflexivity|].
    simpl in H. apply andb_true_iff in H. destruct H as [_ H].
    cbn [simple_loop].
    assert (Hn : dash_underline 10 (hd_error rest) = false).
    { destruct rest as [|r rest']; [reflexivity|].
      simpl in H. apply andb_true_iff in H. destruct H as [H _].
      apply negb_true_iff in H. exact H. }
    assert (Hs : simple_step (py "PRODUCTS") (mksimple [] None false) raw
                   (hd_error rest) = (mksimple [] None false, false)).
    { unfold simple_step.
      destruct (nonempty (strip raw)); cbn [negb]; [|reflexivity].
      destruct (is_delimiter (strip raw)); [reflexivity|].
      change (str_eqb (py "PRODUCTS") (py "PRODUCTS")) with true. cbv iota.
      unfold products_step. rewrite Hn. reflexivity. }
    rewrite Hs. apply IH. exact H. }
  unfold simple_section_warnings, simple_raw_items, parse_simple_section.
  cbv zeta. rewrite Hl. split; reflexivity.
Qed.

Lemma products_needs_underline_witness :
  parse_simple_section (text_of ["Gadget"; "----------"; "A [new](u) thing"]%string)
                       (py "PRODUCTS") = []
  /\ simple_section_warnings (text_of ["Gadget"; "----------"; "A [new](u) thing"]%string)
                             (py "PRODUCTS") = [].
Proof.
  exact (products_needs_underline (text_of ["Gadget"; "----------"; "A [new](u) thing"]%string)
           eq_refl).
Defined.

(** X21.  Outside PRODUCTS the validation never fires: every item the
    loop builds has a description that is not blank. *)
Theorem highlights_never_warn (text section_name : pystr) :
  str_eqb section_name (py "PRODUCTS") = false ->
  simple_section_warnings text section_name = [].
Proof.
  intros Hs. unfold simple_section_warnings, simple_validation_warnings.
  destruct (str_in section_name _); [|reflexivity].
  rewrite simple_raw_items_lines by exact Hs.
  assert (Hd : Forall (fun it => has_description it = true)
                 (flat_map highlight_line_items (split_on newline text))).
  { induction (split_on newline text) as [|raw rest IH]; simpl;
      [constructor|].
    apply Forall_app. split; [|exact IH].
    eapply Forall_impl; [|exact (proj2 (highlight_line_items_shape raw))].
    intros it [_ H]; exact H. }
  apply length_zero_iff_nil.
  rewrite (collect_warnings_length _ (fun _ => false)).
  - clear Hd. induction (flat_map _ _); [reflexivity | simpl; assumption].
  - intros idx it Hin. rewrite Forall_forall in Hd.
    unfold simple_item_warning. rewrite Hs, (Hd it Hin). reflexivity.
Qed.

Lemma highlights_never_warn_witness :
  simple_section_warnings (bullet :: text_of [" "; "# x"; "* *"; "news"]%string) (py "HIGHLIGHTS")
  = [].
Proof.
  exact (highlights_never_warn (bullet :: text_of [" "; "# x"; "* *"; "news"]%string)
           (py "HIGHLIGHTS") eq_refl).
Defined.

(** ** Dropped items are reported *)

Lemma enumerate_from_nth {A : Type} (l : list A) (n idx : nat) (x : A) :
  nth_error l idx = Some x -> In ((n + idx)%nat, x) (enumerate_from n l).
Proof.
  revert n idx. induction l as [|y l IH]; intros n [|idx] H;
    simpl in H; try discriminate.
  - injection H as ->. left. f_equal. lia.
  - right. replace (n + S idx)%nat with (S n + idx)%nat by lia.
    apply IH. exact H.
Qed.

Lemma clean_item_dropped (it : item) :
  clean_item it = None -> has_title it = false /\ has_description it = false.
Proof.
  unfold clean_item, has_title, has_description, get_title.
  destruct (strip (description it)) as [|x l] eqn:Ed.
  - change (sub_links []) with (@nil char). simpl.
    destruct (title it) as [[|c t]|]; simpl; try discriminate; auto.
  - destruct (sub_links (x :: l)) as [|x' l'] eqn:Es.
    + apply sub_links_nil in Es. discriminate Es.
    + simpl. discriminate.
Qed.

(** X22.  The validation of a categorized section reports every item that
    normalisation then drops: an item of a subcategory list that
    [clean_items] skips has its subcategory and position among the warnings,
    as missing both title and description. *)
Theorem dropped_item_is_reported (r : dict rvalue) (subcategory : pystr)
    (l : list item) (idx : nat) (it : item) :
  In (subcategory, RList l) r ->
  nth_error l idx = Some it ->
  clean_item it = None ->
  In (subcategory ++ py " item " ++ decimal (idx + 1)
      ++ py ": Missing both title and description")
     (categorized_validation_warnings r).
Proof.
  intros Hr Hn Hc. unfold categorized_validation_warnings.
  apply in_flat_map. exists (subcategory, RList l). split; [exact Hr|].
  cbn [fst snd]. unfold collect_warnings.
  apply in_flat_map. exists (idx, it). split.
  - exact (enumerate_from_nth l 0 idx it Hn).
  - cbn [fst snd]. unfold categorized_item_warning.
    destruct (clean_item_dropped it Hc) as [-> ->]. left. reflexivity.
Qed.

Lemma dropped_item_is_reported_witness :
  In (py "Other" ++ py " item " ++ decimal (1 + 1)
      ++ py ": Missing both title and description")
     (categorized_validation_warnings
        [(py "Funding", RList []);
         (py "Other", RList [mkitem None (py "kept") None;
                             mkitem (Some []) (py "  ") None])]).
Proof.
  apply (dropped_item_is_reported _ (py "Other")
           [mkitem None (py "kept") None; mkitem (Some []) (py "  ") None]
           1 (mkitem (Some []) (py "  ") None)).
  - right. left. reflexivity.
  - reflexivity.
  - reflexivity.
Defined.

(** ** Texts made of separators *)

Section Separators.
Variable lower : pystr -> pystr.
Variable digit : char -> option Z.

Lemma clean_result_empty (keys : list pystr) :
  clean_result (map (fun subcategory => (subcategory, RList [])) keys)
  = Ok (map (fun subcategory => (subcategory, [])) keys).
Proof.
  induction keys as [|k keys IH]; [reflexivity|].
  simpl. rewrite IH. reflexivity.
Qed.

(** X23.  Blank lines and lines of asterisks and spaces are skipped by
    both parsers: a text made of such lines gives no item, and in a
    categorized section every subcategory comes out empty. *)
Theorem separators_give_nothing (text section_name : pystr) :
  forallb skipped_line (split_on newline text) = true ->
  parse_simple_section text section_name = []
  /\ (categorized section_name = true ->
      parse_categorized_section lower digit text section_name
      = Ok (map (fun subcategory => (subcategory, []))
                (section_keys section_name))).
Proof.
  intros H. split.
  - unfold parse_simple_section. cbv zeta.
    assert (Hl : simple_loop section_name (mksimple [] None false)
                   (split_on newline text) = mksimple [] None false).
    { induction (split_on newline text) as [|raw rest IH]; [reflexivity|].
      simpl in H. apply andb_true_iff in H. destruct H as [Hr H].
      cbn [simple_loop].
      assert (Hs : simple_step section_name (mksimple [] None false) raw
                     (hd_error rest) = (mksimple [] None false, false)).
      { unfold simple_step. unfold skipped_line in Hr.
        destruct (negb (nonempty (strip raw))); [reflexivity|].
        simpl in Hr. rewrite Hr. reflexivity. }
      rewrite Hs. apply IH. exact H. }
    rewrite Hl. reflexivity.
  - intros Hc. destruct (categorized_table _ Hc) as [table Ht].
    unfold parse_categorized_section, dict_lookup, section_keys.
    rewrite Ht. cbn [bind].
    assert (Hl : forall st,
              cat_loop lower digit section_name st (split_on newline text)
              = Ok st).
    { induction (split_on newline text) as [|raw rest IH]; [reflexivity|].
      simpl in H. apply andb_true_iff in H. destruct H as [Hr H].
      intros st. cbn [cat_loop].
      assert (Hs : cat_step lower digit section_name st raw (hd_error rest)
                   = Ok (st, false)).
      { unfold cat_step. unfold skipped_line in Hr.
        destruct (negb (nonempty (strip raw))); [reflexivity|].
        simpl in Hr. rewrite Hr. reflexivity. }
      rewrite Hs. cbn [bind]. apply IH. exact H. }
    rewrite Hl. cbn [bind]. unfold flush_append. cbn [c_current_item c_result].
    cbn [bind]. apply clean_result_empty.
Qed.

End Separators.

Lemma separators_give_nothing_witness :
  parse_simple_section (text_of [EmptyString; " * * *"; "***  "; EmptyString]%string) (py "BUSINESS") = []
  /\ (categorized (py "BUSINESS") = true ->
      parse_categorized_section lower_ascii digit_ascii
        (text_of [EmptyString; " * * *"; "***  "; EmptyString]%string) (py "BUSINESS")
      = Ok (map (fun subcategory => (subcategory, []))
                (section_keys (py "BUSINESS")))).
Proof.
  exact (separators_give_nothing lower_ascii digit_ascii
           (text_of [EmptyString; " * * *"; "***  "; EmptyString]%string) (py "BUSINESS") eq_refl).
Defined.

(** ** The document title *)

Lemma search_title_eq (content : pystr) :
  search_title content
  = match
      (if startswith content (py "Title: ") then
         match fst (span (fun c => negb (N.eqb c newline)) (skipn 7 content))
         with
         | [] => None
         | c :: g => Some (c :: g)
         end
       else None)
    with
    | Some g => Some g
    | None =>
        match content with
        | [] => None
        | _ :: content' => search_title content'
        end
    end.
Proof. destruct content; reflexivity. Qed.

Lemma search_title_shape (content g : pystr) :
  search_title content = Some g ->
  g <> [] /\ forallb (fun c => negb (N.eqb c newline)) g = true.
Proof.
  induction content as [|x content IH]; rewrite search_title_eq.
  - simpl. discriminate.
  - destruct (startswith (x :: content) (py "Title: ")); [|exact IH].
    destruct (span (fun c => negb (N.eqb c newline))
                   (skipn 7 (x :: content))) as [a b] eqn:Es.
    cbn [fst]. destruct a as [|c a]; [exact IH|].
    intros [= <-]. split; [discriminate|].
    exact (span_forallb _ _ _ _ Es).
Qed.

Lemma search_title_none (content : pystr) :
  contains (py "Title: ") content = false -> search_title content = None.
Proof.
  unfold contains.
  induction content as [|x content IH]; rewrite index_of_eq, search_title_eq.
  - reflexivity.
  - destruct (startswith (x :: content) (py "Title: ")); [discriminate|].
    intros H. apply IH.
    destruct (index_of (py "Title: ") content); [discriminate H | reflexivity].
Qed.

(** X24.  The title read from a document is never empty and holds no line
    break; a document without the text "Title: " is titled "Unknown". *)
Theorem document_title_shape (content : pystr) :
  document_title content <> []
  /\ ~ In newline (document_title content)
  /\ (contains (py "Title: ") content = false ->
      document_title content = py "Unknown").
Proof.
  unfold document_title.
  destruct (search_title content) as [g|] eqn:E.
  - destruct (search_title_shape _ _ E) as [Hne Hg].
    split; [exact Hne|]. split.
    + intros Hin. rewrite forallb_forall in Hg.
      specialize (Hg _ Hin). rewrite N.eqb_refl in Hg. discriminate Hg.
    + intros Hc. rewrite (search_title_none _ Hc) in E. discriminate E.
  - split; [discriminate|]. split; [|reflexivity].
    vm_compute. intros H. repeat (destruct H as [H|H]; [discriminate H|]).
    exact H.
Qed.

(** X25.  The title is the rest of the line after the first "Title: "
    that has something after it on its line: a "Title: " at the end of a
    line is passed over. *)
Theorem document_title_first_line (t rest : pystr) :
  t <> [] ->
  forallb (fun c : char => negb (N.eqb c newline)) t = true ->
  document_title (py "Title: " ++ t ++ newline :: rest) = t
  /\ document_title (py "Title: " ++ newline :: py "Title: " ++ t) = t.
Proof.
  intros Hne Ht.
  assert (Hs : forall b, match b with [] => True | c :: _ => c = newline end ->
            search_title (py "Title: " ++ t ++ b) = Some t).
  { intros b Hb. rewrite search_title_eq.
    replace (startswith (py "Title: " ++ t ++ b) (py "Title: ")) with true
      by (symmetry; apply startswith_app; eexists; reflexivity).
    change (skipn 7 (py "Title: " ++ t ++ b)) with (t ++ b).
    rewrite (span_all _ t b Ht).
    - cbn [fst]. destruct t; [congruence | reflexivity].
    - destruct b as [|c b]; [exact I|]. subst c. reflexivity. }
  unfold document_title. split.
  - rewrite (Hs (newline :: rest) eq_refl). reflexivity.
  - rewrite search_title_eq.
    change (startswith (py "Title: " ++ newline :: py "Title: " ++ t)
                       (py "Title: ")) with true.
    change (skipn 7 (py "Title: " ++ newline :: py "Title: " ++ t))
      with (newline :: py "Title: " ++ t).
    cbn [span]. rewrite N.eqb_refl. cbn [negb fst].
    change (py "Title: " ++ newline :: py "Title: " ++ t)
      with (ch "T" :: ch "i" :: ch "t" :: ch "l" :: ch "e" :: ch ":"
            :: ch " " :: newline :: py "Title: " ++ t).
    cbv iota.
    do 7 (rewrite search_title_eq;
          match goal with
          | |- context [startswith ?s (py "Title: ")] =>
              change (startswith s (py "Title: ")) with false
          end; cbv iota).
    pose proof (Hs [] I) as H0. rewrite app_nil_r in H0. rewrite H0.
    reflexivity.
Qed.

Lemma document_title_first_line_witness :
  document_title (py "Title: " ++ py "AI Weekly" ++ newline :: py "Date: x")
  = py "AI Weekly"
  /\ document_title (py "Title: " ++ newline :: py "Title: " ++ py "AI Weekly")
     = py "AI Weekly".
Proof.
  apply (document_title_first_line (py "AI Weekly") (py "Date: x")).
  - discriminate.
  - reflexivity.
Defined.

(** ** Dispatch on the section name *)

Section Dispatch.
Variable lower : pystr -> pystr.
Variable digit : char -> option Z.


End Dispatch.

(** ** The ordering on a folder across the new year *)

Lemma sort_files_by_date_sorted_witness :
  exists sd ed y file_dates,
    get_date_range_from_folder digit_ascii (clock 2026) (py "12.30-1.2")
    = Ok (sd, ed, y)
    /\ file_dates_of digit_ascii (clock 2026) sd ed y
         [py "1-2.md"; py "notes.md"; py "12-31.md"; py "1-1.md"]
       = Ok file_dates
    /\ map snd file_dates
       = [py "1-2.md"; py "notes.md"; py "12-31.md"; py "1-1.md"]
    /\ [py "12-31.md"; py "1-1.md"; py "1-2.md"; py "notes.md"]
       = map snd (stable_sort entry_ltb file_dates)
    /\ Permutation
         [py "12-31.md"; py "1-1.md"; py "1-2.md"; py "notes.md"]
         [py "1-2.md"; py "notes.md"; py "12-31.md"; py "1-1.md"]
    /\ StronglySorted (fun a b => date_leb (fst a) (fst b) = true)
         (stable_sort entry_ltb file_dates)
    /\ forall d, filter (same_date d) (stable_sort entry_ltb file_dates)
                 = filter (same_date d) file_dates.
Proof.
  exact (sort_files_by_date_sorted digit_ascii (clock 2026)
           [py "1-2.md"; py "notes.md"; py "12-31.md"; py "1-1.md"]
           (py "12.30-1.2")
           [py "12-31.md"; py "1-1.md"; py "1-2.md"; py "notes.md"]
           eq_refl).
Defined.
